(** * Showtime scheduling: a shallow embedding of the showtime controller

    The controller (controllers/showtime.controller.js) is a set of request
    handlers over three collections: movies, cinemas (with their embedded
    screens) and showtimes.  Each handler is embedded as a function from
    the environment (wall clock, host time zone), the request and the data
    base to an HTTP response and the data base after the request.

    Conventions of the embedding:
    - a JavaScript [Date] is its time value, an integer number of
      milliseconds since the epoch ([Z]); [new Date(x)] on a well-formed
      input is that time value;
    - in module [JSDate] and the handlers written with it the host time
      zone is a constant offset [localTZA] and the range check of the
      language ([TimeClip], +-8.64e15 ms) is left out; the create handler
      is embedded a second time, as [createShowtimeOn], over module
      [HostDate], where the offset of the zone may change from one instant
      to the next and a time value out of range is an Invalid Date;
    - a handler is one step on the data base: requests are served one
      after the other;
    - [sort_by_startTime] is one stable sort; where the order of showtimes
      with equal start times matters, the relations [*_answers] leave it
      to the store;
    - object identifiers are natural numbers; an absent or empty request
      parameter is [None];
    - a collection is the list of its documents in insertion order.

    After the showtime controller come the parts of the revenue
    controller (controllers/revenue.controller.js) and of the chatbot
    service (services/geminiChatbot.js) that compute on whole numbers and
    text: module [Revenue] and module [Chatbot]. *)

From Stdlib Require Import ZArith List Bool Ascii String Lia DecimalString.
From Stdlib Require Import Sorting.Sorted Sorting.Permutation.
Import ListNotations.
Open Scope Z_scope.

(** ** Time values and the [Date] methods the controller calls *)

Module JSDate.

Definition msPerSecond : Z := 1000.
Definition msPerMinute : Z := 60000.
Definition msPerHour : Z := 3600000.
Definition msPerDay : Z := 86400000.

Definition Day (t : Z) : Z := t / msPerDay.
Definition HourFromTime (t : Z) : Z := (t / msPerHour) mod 24.
Definition MinFromTime (t : Z) : Z := (t / msPerMinute) mod 60.
Definition SecFromTime (t : Z) : Z := (t / msPerSecond) mod 60.
Definition msFromTime (t : Z) : Z := t mod msPerSecond.

Definition MakeTime (hour min sec ms : Z) : Z :=
  hour * msPerHour + min * msPerMinute + sec * msPerSecond + ms.
Definition MakeDate (day time : Z) : Z := day * msPerDay + time.

Section Zone.
(** Offset of local time from UTC, in milliseconds. *)
Variable localTZA : Z.

Definition LocalTime (t : Z) : Z := t + localTZA.
Definition UTC (t : Z) : Z := t - localTZA.

(** [d.getMinutes()] *)
Definition getMinutes (t : Z) : Z := MinFromTime (LocalTime t).

(** [d.setMinutes(min)]: the new time value of [d]. *)
Definition setMinutes (t min : Z) : Z :=
  let lt := LocalTime t in
  UTC (MakeDate (Day lt)
         (MakeTime (HourFromTime lt) min (SecFromTime lt) (msFromTime lt))).

(** [d.setHours(hour, min, sec, ms)]: the new time value of [d]. *)
Definition setHours (t hour min sec ms : Z) : Z :=
  let lt := LocalTime t in
  UTC (MakeDate (Day lt) (MakeTime hour min sec ms)).
End Zone.

End JSDate.

(** ** Request values *)

(** A value of a JSON request body, as far as the controller looks at it.
    Numbers are integers; an object is a price list, from ticket class to
    amount. *)
Inductive jsval : Type :=
| JUndefined
| JNull
| JBool (b : bool)
| JNum (n : Z)
| JStr (s : string)
| JObj (fields : list (string * Z)).

(** ToBoolean. *)
Definition truthy (v : jsval) : bool :=
  match v with
  | JUndefined | JNull => false
  | JBool b => b
  | JNum n => negb (n =? 0)
  | JStr s => negb (String.eqb s EmptyString)
  | JObj _ => true
  end.

(** [a || b] *)
Definition js_or (a b : jsval) : jsval := if truthy a then a else b.

(** ** Documents *)

Definition ObjectId := nat.

Record Movie : Type := mkMovie {
  movie_id : ObjectId;
  duration : Z                      (* minutes *)
}.

Record Seats : Type := mkSeats { total : Z }.

Record Screen : Type := mkScreen {
  screen_id : ObjectId;
  seats : Seats
}.

Record Cinema : Type := mkCinema {
  cinema_id : ObjectId;
  screens : list Screen;
  priceList : jsval
}.

Inductive Status : Type := upcoming | ongoing | ended.

Record Showtime : Type := mkShowtime {
  _id : ObjectId;
  movieId : ObjectId;
  cinemaId : ObjectId;
  screenId : ObjectId;
  startTime : Z;
  endTime : Z;
  date : Z;
  price : jsval;
  availableSeats : Z;
  bookedSeats : list string;
  status : Status;
  isActive : bool
}.

Record DB : Type := mkDB {
  movies : list Movie;
  cinemas : list Cinema;
  showtimes : list Showtime
}.

Definition with_showtimes (db : DB) (l : list Showtime) : DB :=
  {| movies := movies db; cinemas := cinemas db; showtimes := l |}.

(** Wall clock ([new Date()]) and host time zone of one request. *)
Record Env : Type := mkEnv {
  now : Z;
  localTZA : Z
}.

(** ** The object-document mapper *)

Module Movie_.
Definition findById (db : DB) (id : ObjectId) : option Movie :=
  find (fun m => Nat.eqb (movie_id m) id) (movies db).
End Movie_.

Module Cinema_.
Definition findById (db : DB) (id : ObjectId) : option Cinema :=
  find (fun c => Nat.eqb (cinema_id c) id) (cinemas db).

(** [cinema.screens.id(screenId)] *)
Definition screens_id (c : Cinema) (id : ObjectId) : option Screen :=
  find (fun s => Nat.eqb (screen_id s) id) (screens c).
End Cinema_.

(** A filter document.  Every field is a condition the controller may put
    in a query; [None] leaves the field unconstrained. *)
Record Query : Type := mkQuery {
  q_movieId : option ObjectId;
  q_cinemaId : option ObjectId;
  q_screenId : option ObjectId;
  q_date : option Z;
  q_startTime_gte : option Z;
  q_startTime_lte : option Z;
  q_startTime_lt : option Z;
  q_endTime_gt : option Z;
  q_isActive : option bool
}.

Definition cond {A : Type} (c : option A) (test : A -> bool) : bool :=
  match c with
  | None => true
  | Some v => test v
  end.

Definition matches (q : Query) (s : Showtime) : bool :=
  cond (q_movieId q) (Nat.eqb (movieId s)) &&
  cond (q_cinemaId q) (Nat.eqb (cinemaId s)) &&
  cond (q_screenId q) (Nat.eqb (screenId s)) &&
  cond (q_date q) (Z.eqb (date s)) &&
  cond (q_startTime_gte q) (fun v => v <=? startTime s) &&
  cond (q_startTime_lte q) (fun v => startTime s <=? v) &&
  cond (q_startTime_lt q) (fun v => startTime s <? v) &&
  cond (q_endTime_gt q) (fun v => v <? endTime s) &&
  cond (q_isActive q) (Bool.eqb (isActive s)).

(** [.sort('startTime')]: ascending, ties in collection order. *)
Fixpoint insert_by_startTime (s : Showtime) (l : list Showtime) : list Showtime :=
  match l with
  | [] => [s]
  | x :: r =>
      if startTime s <=? startTime x then s :: l
      else x :: insert_by_startTime s r
  end.

Definition sort_by_startTime (l : list Showtime) : list Showtime :=
  fold_right insert_by_startTime [] l.

(** [.limit(n)]: zero means no limit, a negative number its absolute
    value. *)
Definition q_limit (n : Z) (l : list Showtime) : list Showtime :=
  if n =? 0 then l else firstn (Z.to_nat (Z.abs n)) l.

(** [.skip(n)] for a non-negative [n]. *)
Definition q_skip (n : Z) (l : list Showtime) : list Showtime :=
  skipn (Z.to_nat n) l.

(** The new document of [Showtime.create]: what the controller passes. *)
Record NewShowtime : Type := mkNew {
  n_movieId : ObjectId;
  n_cinemaId : ObjectId;
  n_screenId : ObjectId;
  n_startTime : Z;
  n_endTime : Z;
  n_date : Z;
  n_price : jsval;
  n_availableSeats : Z
}.

(** A patch of [findByIdAndUpdate]: the fields of the request body. *)
Record Patch : Type := mkPatch {
  p_movieId : option ObjectId;
  p_cinemaId : option ObjectId;
  p_screenId : option ObjectId;
  p_startTime : option Z;
  p_endTime : option Z;
  p_date : option Z;
  p_price : option jsval;
  p_availableSeats : option Z;
  p_bookedSeats : option (list string);
  p_status : option Status;
  p_isActive : option bool
}.

Definition or_else {A : Type} (o : option A) (d : A) : A :=
  match o with
  | Some v => v
  | None => d
  end.

Definition apply_patch (p : Patch) (s : Showtime) : Showtime :=
  {| _id := _id s;
     movieId := or_else (p_movieId p) (movieId s);
     cinemaId := or_else (p_cinemaId p) (cinemaId s);
     screenId := or_else (p_screenId p) (screenId s);
     startTime := or_else (p_startTime p) (startTime s);
     endTime := or_else (p_endTime p) (endTime s);
     date := or_else (p_date p) (date s);
     price := or_else (p_price p) (price s);
     availableSeats := or_else (p_availableSeats p) (availableSeats s);
     bookedSeats := or_else (p_bookedSeats p) (bookedSeats s);
     status := or_else (p_status p) (status s);
     isActive := or_else (p_isActive p) (isActive s) |}.

Module Showtime_.

Definition findById (db : DB) (id : ObjectId) : option Showtime :=
  find (fun s => Nat.eqb (_id s) id) (showtimes db).

Definition findOne (db : DB) (q : Query) : option Showtime :=
  find (matches q) (showtimes db).

(** [Showtime.find(q)], before sorting and paging. *)
Definition find_ (db : DB) (q : Query) : list Showtime :=
  filter (matches q) (showtimes db).

Definition countDocuments (db : DB) (q : Query) : Z :=
  Z.of_nat (List.length (find_ db q)).

(** An identifier no document of the collection has. *)
Definition fresh_id (db : DB) : ObjectId :=
  S (fold_right Nat.max 0%nat (map _id (showtimes db))).

(** Modelled from the spec: the schema of the showtime model
    (models/Showtime.model.js) is not among the sources.  By the spec a
    new showtime has [bookedSeats = []] and [isActive = true]; its cached
    [status] is derived from the clock and starts as [upcoming]. *)
Definition schema_defaults (id : ObjectId) (n : NewShowtime) : Showtime :=
  {| _id := id;
     movieId := n_movieId n;
     cinemaId := n_cinemaId n;
     screenId := n_screenId n;
     startTime := n_startTime n;
     endTime := n_endTime n;
     date := n_date n;
     price := n_price n;
     availableSeats := n_availableSeats n;
     bookedSeats := [];
     status := upcoming;
     isActive := true |}.

Definition create (db : DB) (n : NewShowtime) : Showtime * DB :=
  let s := schema_defaults (fresh_id db) n in
  (s, with_showtimes db (showtimes db ++ [s])).

(** [doc.save()]: the stored document with the identifier of [doc]
    becomes [doc]. *)
Definition save (db : DB) (doc : Showtime) : DB :=
  with_showtimes db
    (map (fun s => if Nat.eqb (_id s) (_id doc) then doc else s)
         (showtimes db)).

(** [Showtime.findByIdAndUpdate(id, body, {new: true, runValidators:
    true})].  A [Patch] is well typed field by field, which is what the
    validators of a field check. *)
Definition findByIdAndUpdate (db : DB) (id : ObjectId) (p : Patch)
  : option Showtime * DB :=
  match findById db id with
  | None => (None, db)
  | Some s => let s' := apply_patch p s in (Some s', save db s')
  end.

(** Modelled from the spec: the method [updateStatus] of the showtime
    model (models/Showtime.model.js) is not among the sources.  By the
    spec the status is [upcoming] when [now < startTime], [ongoing] when
    [startTime <= now <= endTime] and [ended] when [now > endTime]. *)
Definition status_at (t : Z) (s : Showtime) : Status :=
  if t <? startTime s then upcoming
  else if t <=? endTime s then ongoing
  else ended.

Definition set_status (s : Showtime) (v : Status) : Showtime :=
  {| _id := _id s; movieId := movieId s; cinemaId := cinemaId s;
     screenId := screenId s; startTime := startTime s;
     endTime := endTime s; date := date s; price := price s;
     availableSeats := availableSeats s; bookedSeats := bookedSeats s;
     status := v; isActive := isActive s |}.

Definition updateStatus (env : Env) (s : Showtime) : Showtime :=
  set_status s (status_at (now env) s).

Definition set_isActive (s : Showtime) (v : bool) : Showtime :=
  {| _id := _id s; movieId := movieId s; cinemaId := cinemaId s;
     screenId := screenId s; startTime := startTime s;
     endTime := endTime s; date := date s; price := price s;
     availableSeats := availableSeats s; bookedSeats := bookedSeats s;
     status := status s; isActive := v |}.

End Showtime_.

(** ** Requests and responses *)

(** [req.body] of the create request. *)
Record CreateBody : Type := mkCreateBody {
  b_movieId : ObjectId;
  b_cinemaId : ObjectId;
  b_screenId : ObjectId;
  b_startTime : Z;
  b_date : Z;
  b_price : jsval
}.

(** [req.query] of the listing requests. *)
Record ReqQuery : Type := mkReqQuery {
  r_movieId : option ObjectId;
  r_cinemaId : option ObjectId;
  r_date : option Z;
  r_page : option Z;
  r_limit : option Z
}.

Inductive Body : Type :=
| Message (message : string)
| One (showtime : Showtime)
| OneOrNull (showtime : option Showtime)
| Page (count total : Z) (totalPages : option Z) (currentPage : Z)
       (showtimes : list Showtime)
| Listing (count : Z) (showtimes : list Showtime).

(** [res.status(code).json({success, ...})], or the error handed to
    [next]. *)
Inductive Response : Type :=
| Json (code : Z) (success : bool) (body : Body)
| NextError.

Definition returned (r : Response) : list Showtime :=
  match r with
  | Json _ _ (Page _ _ _ _ l) => l
  | Json _ _ (Listing _ l) => l
  | Json _ _ (One s) => [s]
  | Json _ _ (OneOrNull (Some s)) => [s]
  | _ => []
  end.

(** [Math.ceil(a / b)] on integers; [None] is the non-finite result of a
    division by zero. *)
Definition ceil_div (a b : Z) : option Z :=
  if b =? 0 then None else Some (- ((- a) / b)).

(** ** The handlers *)

(** The block the three listing handlers share: with a date, the bounds of
    its local day; without, the wall clock as lower bound. *)
Definition startTime_bounds (env : Env) (date : option Z)
  : option Z * option Z :=
  match date with
  | Some targetDate =>
      let startOfDay := JSDate.setHours (localTZA env) targetDate 0 0 0 0 in
      let endOfDay :=
        JSDate.setHours (localTZA env) startOfDay 23 59 59 999 in
      (Some startOfDay, Some endOfDay)
  | None => (Some (now env), None)
  end.

Definition getShowtimes_query (env : Env) (rq : ReqQuery) : Query :=
  {| q_movieId := r_movieId rq;
     q_cinemaId := r_cinemaId rq;
     q_screenId := None;
     q_date := None;
     q_startTime_gte := fst (startTime_bounds env (r_date rq));
     q_startTime_lte := snd (startTime_bounds env (r_date rq));
     q_startTime_lt := None;
     q_endTime_gt := None;
     q_isActive := Some true |}.

Definition getShowtimes (env : Env) (rq : ReqQuery) (db : DB) : Response :=
  let page := or_else (r_page rq) 1 in
  let limit := or_else (r_limit rq) 20 in
  let query := getShowtimes_query env rq in
  if (page - 1) * limit <? 0 then NextError
  else
    let showtimes :=
      q_limit (limit * 1)
        (q_skip ((page - 1) * limit)
           (sort_by_startTime (Showtime_.find_ db query))) in
    let count := Showtime_.countDocuments db query in
    Json 200 true
      (Page (Z.of_nat (List.length showtimes)) count (ceil_div count limit)
         page showtimes).

Definition getShowtime (env : Env) (id : ObjectId) (db : DB)
  : Response * DB :=
  match Showtime_.findById db id with
  | None => (Json 404 false (Message "Showtime not found"), db)
  | Some showtime =>
      let showtime := Showtime_.updateStatus env showtime in
      (Json 200 true (One showtime), Showtime_.save db showtime)
  end.

Definition conflict_query (b : CreateBody) (endTime : Z) : Query :=
  {| q_movieId := None;
     q_cinemaId := Some (b_cinemaId b);
     q_screenId := Some (b_screenId b);
     q_date := Some (b_date b);
     q_startTime_gte := None;
     q_startTime_lte := None;
     q_startTime_lt := Some endTime;
     q_endTime_gt := Some (b_startTime b);
     q_isActive := Some true |}.

Definition createShowtime (env : Env) (b : CreateBody) (db : DB)
  : Response * DB :=
  match Movie_.findById db (b_movieId b),
        Cinema_.findById db (b_cinemaId b) with
  | Some movie, Some cinema =>
      match Cinema_.screens_id cinema (b_screenId b) with
      | None => (Json 404 false (Message "Screen not found"), db)
      | Some screen =>
          let endTime :=
            JSDate.setMinutes (localTZA env) (b_startTime b)
              (JSDate.getMinutes (localTZA env) (b_startTime b)
               + duration movie + 15) in
          match Showtime_.findOne db (conflict_query b endTime) with
          | Some _ =>
              (Json 400 false
                 (Message "Time slot conflicts with existing showtime"), db)
          | None =>
              let (showtime, db') :=
                Showtime_.create db
                  {| n_movieId := b_movieId b;
                     n_cinemaId := b_cinemaId b;
                     n_screenId := b_screenId b;
                     n_startTime := b_startTime b;
                     n_endTime := endTime;
                     n_date := b_date b;
                     n_price := js_or (b_price b) (priceList cinema);
                     n_availableSeats := total (seats screen) |} in
              (Json 201 true (One showtime), db')
          end
      end
  | _, _ => (Json 404 false (Message "Movie or Cinema not found"), db)
  end.

Definition updateShowtime (id : ObjectId) (p : Patch) (db : DB)
  : Response * DB :=
  match Showtime_.findById db id with
  | None => (Json 404 false (Message "Showtime not found"), db)
  | Some _ =>
      let (showtime, db') := Showtime_.findByIdAndUpdate db id p in
      (Json 200 true (OneOrNull showtime), db')
  end.

Definition deleteShowtime (id : ObjectId) (db : DB) : Response * DB :=
  match Showtime_.findById db id with
  | None => (Json 404 false (Message "Showtime not found"), db)
  | Some showtime =>
      if 0 <? Z.of_nat (List.length (bookedSeats showtime)) then
        (Json 400 false
           (Message "Cannot delete showtime with existing bookings"), db)
      else
        (Json 200 true (Message "Showtime deleted successfully"),
         Showtime_.save db (Showtime_.set_isActive showtime false))
  end.

Definition getShowtimesByMovie_query (env : Env) (movieId : ObjectId)
  (rq : ReqQuery) : Query :=
  {| q_movieId := Some movieId;
     q_cinemaId := r_cinemaId rq;
     q_screenId := None;
     q_date := None;
     q_startTime_gte := fst (startTime_bounds env (r_date rq));
     q_startTime_lte := snd (startTime_bounds env (r_date rq));
     q_startTime_lt := None;
     q_endTime_gt := None;
     q_isActive := Some true |}.

Definition getShowtimesByMovie (env : Env) (movieId : ObjectId)
  (rq : ReqQuery) (db : DB) : Response :=
  let showtimes :=
    sort_by_startTime
      (Showtime_.find_ db (getShowtimesByMovie_query env movieId rq)) in
  Json 200 true (Listing (Z.of_nat (List.length showtimes)) showtimes).

Definition getShowtimesByCinema_query (env : Env) (cinemaId : ObjectId)
  (rq : ReqQuery) : Query :=
  {| q_movieId := r_movieId rq;
     q_cinemaId := Some cinemaId;
     q_screenId := None;
     q_date := None;
     q_startTime_gte := fst (startTime_bounds env (r_date rq));
     q_startTime_lte := snd (startTime_bounds env (r_date rq));
     q_startTime_lt := None;
     q_endTime_gt := None;
     q_isActive := Some true |}.

Definition getShowtimesByCinema (env : Env) (cinemaId : ObjectId)
  (rq : ReqQuery) (db : DB) : Response :=
  let showtimes :=
    sort_by_startTime
      (Showtime_.find_ db (getShowtimesByCinema_query env cinemaId rq)) in
  Json 200 true (Listing (Z.of_nat (List.length showtimes)) showtimes).

(** ** Vocabulary of the specification *)

Definition cleaningBuffer : Z := 15.

(** End of the candidate interval: start, running time and cleaning
    buffer, in milliseconds. *)
Definition candidate_end (b : CreateBody) (movie : Movie) : Z :=
  b_startTime b + (duration movie + cleaningBuffer) * JSDate.msPerMinute.

(** The references of a create request resolve. *)
Definition resolves (db : DB) (b : CreateBody)
  (movie : Movie) (cinema : Cinema) (screen : Screen) : Prop :=
  Movie_.findById db (b_movieId b) = Some movie /\
  Cinema_.findById db (b_cinemaId b) = Some cinema /\
  Cinema_.screens_id cinema (b_screenId b) = Some screen.

(** The showtime is on the screen and day of the request. *)
Definition in_slot (b : CreateBody) (e : Showtime) : Prop :=
  cinemaId e = b_cinemaId b /\ screenId e = b_screenId b /\
  date e = b_date b.

Definition same_slot (a b : Showtime) : Prop :=
  cinemaId a = cinemaId b /\ screenId a = screenId b /\ date a = date b.

(** The half-open intervals [[startTime, endTime)] share an instant. *)
Definition overlap (a b : Showtime) : Prop :=
  exists t, (startTime a <= t < endTime a) /\ (startTime b <= t < endTime b).

Definition overlapb (a b : Showtime) : bool :=
  (Z.max (startTime a) (startTime b) <? Z.min (endTime a) (endTime b)).

Definition no_overlap (db : DB) : Prop :=
  forall i j a b,
    nth_error (showtimes db) i = Some a ->
    nth_error (showtimes db) j = Some b ->
    i <> j ->
    isActive a = true -> isActive b = true ->
    same_slot a b -> ~ overlap a b.

Definition succeeded (r : Response) : bool :=
  match r with
  | Json _ ok _ => ok
  | NextError => false
  end.

Definition conflictResponse : Response :=
  Json 400 false (Message "Time slot conflicts with existing showtime").

(** The document a create request stores once its references resolve and
    no conflict is found. *)
Definition created (db : DB) (b : CreateBody) (movie : Movie)
  (cinema : Cinema) (screen : Screen) : Showtime :=
  Showtime_.schema_defaults (Showtime_.fresh_id db)
    {| n_movieId := b_movieId b;
       n_cinemaId := b_cinemaId b;
       n_screenId := b_screenId b;
       n_startTime := b_startTime b;
       n_endTime := candidate_end b movie;
       n_date := b_date b;
       n_price := js_or (b_price b) (priceList cinema);
       n_availableSeats := total (seats screen) |}.

(** Ascending by start time. *)
Definition ascending (l : list Showtime) : Prop :=
  StronglySorted (fun a b => startTime a <= startTime b) l.

(** First and last millisecond of the local day of [d]. *)
Definition startOfDay (tz d : Z) : Z := JSDate.setHours tz d 0 0 0 0.
Definition endOfDay (tz d : Z) : Z := JSDate.setHours tz d 23 59 59 999.

(** The start time passes the date filter of a listing: within the day of
    the date when one is given, not before the wall clock otherwise. *)
Definition in_window (env : Env) (date : option Z) (x : Showtime) : Prop :=
  match date with
  | Some d =>
      startOfDay (localTZA env) d <= startTime x <= endOfDay (localTZA env) d
  | None => now env <= startTime x
  end.

(** What a listing is to select: active showtimes of the movie and cinema
    asked for, if any, inside the window. *)
Definition selected (env : Env) (movie cinema : option ObjectId)
  (date : option Z) (x : Showtime) : Prop :=
  isActive x = true /\
  (forall k, movie = Some k -> movieId x = k) /\
  (forall k, cinema = Some k -> cinemaId x = k) /\
  in_window env date x.

(** One page of a full result. *)
Definition page_of (page limit : Z) (full : list Showtime) : list Showtime :=
  firstn (Z.to_nat limit) (skipn (Z.to_nat ((page - 1) * limit)) full).

(** The requests that change the data base. *)
Inductive Op : Type :=
| OpCreate (env : Env) (b : CreateBody)
| OpUpdate (id : ObjectId) (p : Patch)
| OpDelete (id : ObjectId).

Definition run (op : Op) (db : DB) : DB :=
  match op with
  | OpCreate env b => snd (createShowtime env b db)
  | OpUpdate id p => snd (updateShowtime id p db)
  | OpDelete id => snd (deleteShowtime id db)
  end.

(** States reached from a catalogue without showtimes by requests that
    pass [allowed]. *)
Inductive reachable_by (allowed : Op -> bool) : DB -> Prop :=
| reachable_init ms cs : reachable_by allowed (mkDB ms cs [])
| reachable_step op db :
    allowed op = true ->
    reachable_by allowed db ->
    reachable_by allowed (run op db).

Definition reachable : DB -> Prop := reachable_by (fun _ => true).

Definition is_update (op : Op) : bool :=
  match op with
  | OpUpdate _ _ => true
  | _ => false
  end.

(** ** A small cinema, for concrete runs *)

Module Fixture.

(** Indochina time, seven hours ahead of UTC. *)
Definition tz : Z := 7 * JSDate.msPerHour.
Definition env0 : Env := {| now := 0; localTZA := tz |}.

(** The instant at which the local clock reads [h]:[m] on day zero. *)
Definition clock (h m : Z) : Z := (h * 60 + m) * JSDate.msPerMinute - tz.

Definition day0 : Z := 0.

Definition standardPrices : jsval := JObj [("standard"%string, 90000)].
Definition movie1 : Movie := {| movie_id := 1%nat; duration := 120 |}.
Definition screen1 : Screen :=
  {| screen_id := 1%nat; seats := {| total := 100 |} |}.
Definition cinema1 : Cinema :=
  {| cinema_id := 1%nat; screens := [screen1]; priceList := standardPrices |}.

Definition catalogue : DB :=
  {| movies := [movie1]; cinemas := [cinema1]; showtimes := [] |}.

Definition request (h m : Z) (p : jsval) : CreateBody :=
  {| b_movieId := 1%nat; b_cinemaId := 1%nat; b_screenId := 1%nat;
     b_startTime := clock h m; b_date := day0; b_price := p |}.

(** One showtime, 14:00 to 16:15. *)
Definition db1 : DB :=
  snd (createShowtime env0 (request 14 0 JUndefined) catalogue).

(** A second one, abutting: 16:15 to 18:30. *)
Definition db2 : DB :=
  snd (createShowtime env0 (request 16 15 JUndefined) db1).

(** The second one moved to 15:00 by an update. *)
Definition moveTo1500 : Patch :=
  mkPatch None None None (Some (clock 15 0)) None None None None None
    None None.
Definition db3 : DB := snd (updateShowtime 2%nat moveTo1500 db2).

(** A showtime with two seats booked, as the booking subsystem leaves
    it. *)
Definition booked : Showtime :=
  {| _id := 7%nat; movieId := 1%nat; cinemaId := 1%nat; screenId := 1%nat;
     startTime := clock 20 0; endTime := clock 22 15; date := day0;
     price := standardPrices; availableSeats := 98;
     bookedSeats := ["A1"%string; "A2"%string];
     status := upcoming; isActive := true |}.
Definition dbBooked : DB := with_showtimes catalogue [booked].

Definition anyListing : ReqQuery := mkReqQuery None None None None None.
Definition firstPageOfOne : ReqQuery :=
  mkReqQuery None None None (Some 1) (Some 1).

End Fixture.

(** ** Further requests *)

(** The request body [{isActive: v}]. *)
Definition patch_isActive (v : bool) : Patch :=
  mkPatch None None None None None None None None None None (Some v).

(** A listing request with its page, date, movie or cinema replaced. *)
Definition with_page (rq : ReqQuery) (p : Z) : ReqQuery :=
  {| r_movieId := r_movieId rq; r_cinemaId := r_cinemaId rq;
     r_date := r_date rq; r_page := Some p; r_limit := r_limit rq |}.





(** An active showtime of the cinema, screen and date of the request. *)
Definition relevant (b : CreateBody) (e : Showtime) : bool :=
  isActive e && Nat.eqb (cinemaId e) (b_cinemaId b)
  && Nat.eqb (screenId e) (b_screenId b) && (date e =? b_date b).

(** ** The revenue controller

    The handlers of controllers/revenue.controller.js that work on whole
    numbers: the recent activities with their helper [getTimeAgo], the
    revenue by cinema and by movie, and the report export.  Amounts are
    integers; the two quotients the controller computes in floating point
    are kept as dividend and divisor. *)

Module Revenue.

Local Open Scope string_scope.
Local Open Scope Z_scope.

(** Decimal text of an integer, as a template literal prints it. *)
Definition show_Z (n : Z) : string := NilZero.string_of_int (Z.to_int n).

(** The fields of the referenced documents that the controller reads. *)
Record UserDoc : Type := mkUserDoc {
  user_id : ObjectId;
  fullName : string;
  email : string
}.

Record MovieDoc : Type := mkMovieDoc {
  moviedoc_id : ObjectId;
  title : string;
  poster : string
}.

Record Location : Type := mkLocation { address : string; city : string }.

Record CinemaDoc : Type := mkCinemaDoc {
  cinemadoc_id : ObjectId;
  name : string;
  location : Location
}.

Record Booking : Type := mkBooking {
  bookingCode : string;
  userId : ObjectId;
  movieId : ObjectId;
  cinemaId : ObjectId;
  createdAt : Z;
  finalAmount : Z;
  seats : list string;
  paymentMethod : string;
  paymentStatus : string;
  status : string
}.

Record Store : Type := mkStore {
  bookings : list Booking;
  users : list UserDoc;
  movieDocs : list MovieDoc;
  cinemaDocs : list CinemaDoc
}.

(** A booking after [populate]: a reference without document is null. *)
Record Populated : Type := mkPopulated {
  doc : Booking;
  userRef : option UserDoc;
  movieRef : option MovieDoc;
  cinemaRef : option CinemaDoc
}.

Definition populate (st : Store) (b : Booking) : Populated :=
  {| doc := b;
     userRef := find (fun u => Nat.eqb (user_id u) (userId b)) (users st);
     movieRef :=
       find (fun m => Nat.eqb (moviedoc_id m) (movieId b)) (movieDocs st);
     cinemaRef :=
       find (fun c => Nat.eqb (cinemadoc_id c) (cinemaId b)) (cinemaDocs st)
  |}.

(** [.sort('-createdAt')]: newest first, ties in collection order. *)
Fixpoint insert_newest (b : Booking) (l : list Booking) : list Booking :=
  match l with
  | [] => [b]
  | x :: r =>
      if createdAt x <=? createdAt b then b :: l
      else x :: insert_newest b r
  end.

Definition sort_newest (l : list Booking) : list Booking :=
  fold_right insert_newest [] l.

(** [.limit(n)] of a query: zero means no limit, a negative number its
    absolute value. *)
Definition limit_docs {A : Type} (n : Z) (l : list A) : list A :=
  if n =? 0 then l else firstn (Z.to_nat (Z.abs n)) l.

(** [a?.field || fallback] on text: the fallback stands in for a missing
    document and for the empty string. *)
Definition text_or {A : Type} (ref : option A) (field : A -> string)
  (fallback : string) : string :=
  match ref with
  | None => fallback
  | Some d => if String.eqb (field d) EmptyString then fallback else field d
  end.

(** *** getTimeAgo *)

Definition getTimeAgo (now date : Z) : string :=
  let seconds := (now - date) / 1000 in
  if seconds <? 60 then show_Z seconds ++ " giây trước"
  else
    let minutes := seconds / 60 in
    if minutes <? 60 then show_Z minutes ++ " phút trước"
    else
      let hours := minutes / 60 in
      if hours <? 24 then show_Z hours ++ " giờ trước"
      else
        let days := hours / 24 in
        show_Z days ++ " ngày trước".

(** The words of [getTimeAgo] with the length of their unit in
    milliseconds. *)
Definition timeUnits : list (string * Z) :=
  [(" giây trước", 1000); (" phút trước", 60000);
   (" giờ trước", 3600000); (" ngày trước", 86400000)].

(** *** getRecentActivities *)

Record Activity : Type := mkActivity {
  a_type : string;
  a_text : string;
  a_time : string;
  a_icon : string;
  a_bookingCode : string
}.

(** The callback of [recentBookings.map]; [None] is its [null]. *)
Definition activity_of (now : Z) (p : Populated) : option Activity :=
  let booking := doc p in
  let timeAgo := getTimeAgo now (createdAt booking) in
  if String.eqb (status booking) "cancelled" then
    Some {| a_type := "cancel";
            a_text := "Khách hàng " ++ text_or (userRef p) fullName "Ẩn danh"
                      ++ " hủy vé " ++ text_or (movieRef p) title "N/A";
            a_time := timeAgo;
            a_icon := "AlertCircle";
            a_bookingCode := bookingCode booking |}
  else if String.eqb (status booking) "confirmed"
          || String.eqb (status booking) "used" then
    Some {| a_type := "booking";
            a_text := text_or (userRef p) fullName "Khách hàng" ++ " đặt "
                      ++ show_Z (Z.of_nat (List.length (seats booking)))
                      ++ " vé cho " ++ text_or (movieRef p) title "N/A";
            a_time := timeAgo;
            a_icon := "Ticket";
            a_bookingCode := bookingCode booking |}
  else if String.eqb (status booking) "pending" then
    Some {| a_type := "pending";
            a_text := "Đơn hàng " ++ bookingCode booking
                      ++ " đang chờ thanh toán";
            a_time := timeAgo;
            a_icon := "Clock";
            a_bookingCode := bookingCode booking |}
  else None.

(** [.map(f).filter(Boolean)] *)
Fixpoint map_filter {A B : Type} (f : A -> option B) (l : list A) : list B :=
  match l with
  | [] => []
  | x :: r =>
      match f x with
      | Some y => y :: map_filter f r
      | None => map_filter f r
      end
  end.

(** The body [{success: true, count, data}]. *)
Record Listed (A : Type) : Type := mkListed {
  count : Z;
  data : list A
}.
Arguments mkListed {A} _ _.
Arguments count {A} _.
Arguments data {A} _.

Definition listed {A : Type} (l : list A) : Listed A :=
  mkListed (Z.of_nat (List.length l)) l.

(** [limit] is the parsed query parameter, [None] when it is absent. *)
Definition getRecentActivities (now : Z) (limit : option Z) (st : Store)
  : Listed Activity :=
  let limitNum := or_else limit 10 in
  let recentBookings :=
    map (populate st) (limit_docs limitNum (sort_newest (bookings st))) in
  let activities := map_filter (activity_of now) recentBookings in
  listed activities.

(** The statuses an activity is made for. *)
Definition shown_status (b : Booking) : bool :=
  String.eqb (status b) "cancelled" || String.eqb (status b) "confirmed"
  || String.eqb (status b) "used" || String.eqb (status b) "pending".

(** *** The aggregations by cinema and by movie *)

(** The [$match] stage the three dated handlers build. *)
Definition dated_query (startDate endDate : option Z) (b : Booking) : bool :=
  String.eqb (paymentStatus b) "completed"
  && cond startDate (fun v => v <=? createdAt b)
  && cond endDate (fun v => createdAt b <=? v).

(** A document of the [$group] stage. *)
Record Group : Type := mkGroup {
  g_id : ObjectId;
  totalRevenue : Z;
  totalBookings : Z;
  totalTickets : Z
}.

Definition group_of (k : ObjectId) (b : Booking) : Group :=
  {| g_id := k; totalRevenue := finalAmount b; totalBookings := 1;
     totalTickets := Z.of_nat (List.length (seats b)) |}.

Definition accumulate (g : Group) (b : Booking) : Group :=
  {| g_id := g_id g;
     totalRevenue := totalRevenue g + finalAmount b;
     totalBookings := totalBookings g + 1;
     totalTickets := totalTickets g + Z.of_nat (List.length (seats b)) |}.

Fixpoint add_to_groups (k : ObjectId) (b : Booking) (gs : list Group)
  : list Group :=
  match gs with
  | [] => [group_of k b]
  | g :: r =>
      if Nat.eqb (g_id g) k then accumulate g b :: r
      else g :: add_to_groups k b r
  end.

(** [$group] with the three sums; groups in order of first appearance. *)
Definition group_by (key : Booking -> ObjectId) (l : list Booking)
  : list Group :=
  fold_left (fun gs b => add_to_groups (key b) b gs) l [].

(** [$sort: {totalRevenue: -1}] *)
Fixpoint insert_richest (g : Group) (l : list Group) : list Group :=
  match l with
  | [] => [g]
  | x :: r =>
      if totalRevenue x <=? totalRevenue g then g :: l
      else x :: insert_richest g r
  end.

Definition sort_richest (l : list Group) : list Group :=
  fold_right insert_richest [] l.

Record CinemaRow : Type := mkCinemaRow {
  cr_id : ObjectId;
  cr_cinemaId : ObjectId;
  cr_name : string;
  cr_location : Location;
  cr_totalRevenue : Z;
  cr_totalBookings : Z;
  cr_totalTickets : Z
}.

(** [$lookup] into the cinemas, [$unwind] and [$project] of one group: a
    row for every cinema with the identifier of the group. *)
Definition cinema_rows (cs : list CinemaDoc) (g : Group) : list CinemaRow :=
  map (fun c =>
         {| cr_id := g_id g; cr_cinemaId := g_id g; cr_name := name c;
            cr_location := location c;
            cr_totalRevenue := totalRevenue g;
            cr_totalBookings := totalBookings g;
            cr_totalTickets := totalTickets g |})
      (filter (fun c => Nat.eqb (cinemadoc_id c) (g_id g)) cs).

Definition getRevenueByCinema (startDate endDate : option Z) (st : Store)
  : Listed CinemaRow :=
  let revenue :=
    flat_map (cinema_rows (cinemaDocs st))
      (sort_richest
         (group_by cinemaId
            (filter (dated_query startDate endDate) (bookings st)))) in
  listed revenue.

Record MovieRow : Type := mkMovieRow {
  mr_id : ObjectId;
  mr_movieId : ObjectId;
  mr_title : string;
  mr_poster : string;
  mr_totalRevenue : Z;
  mr_totalBookings : Z;
  mr_totalTickets : Z;
  (** [$divide: [totalRevenue, totalBookings]], dividend and divisor *)
  mr_averagePerBooking : Z * Z
}.

Definition movie_rows (ms : list MovieDoc) (g : Group) : list MovieRow :=
  map (fun m =>
         {| mr_id := g_id g; mr_movieId := g_id g; mr_title := title m;
            mr_poster := poster m;
            mr_totalRevenue := totalRevenue g;
            mr_totalBookings := totalBookings g;
            mr_totalTickets := totalTickets g;
            mr_averagePerBooking := (totalRevenue g, totalBookings g) |})
      (filter (fun m => Nat.eqb (moviedoc_id m) (g_id g)) ms).

(** [None] is the error of a [$limit] that is not positive, handed to
    [next]. *)
Definition getRevenueByMovie (startDate endDate limit : option Z)
  (st : Store) : option (Listed MovieRow) :=
  let n := or_else limit 10 in
  if n <=? 0 then None
  else
    let revenue :=
      flat_map (movie_rows (movieDocs st))
        (firstn (Z.to_nat n)
           (sort_richest
              (group_by movieId
                 (filter (dated_query startDate endDate) (bookings st))))) in
    Some (listed revenue).

(** *** exportReport *)

(** [a / b || 0] on integers: zero when the quotient is [NaN] or zero,
    otherwise the quotient, kept as dividend and divisor. *)
Inductive Quotient : Type :=
| Zero
| Ratio (dividend divisor : Z).

Definition div_or_zero (a b : Z) : Quotient :=
  if (a =? 0) then Zero else Ratio a b.

Record Summary : Type := mkSummary {
  s_totalBookings : Z;
  s_totalRevenue : Z;
  s_totalTickets : Z;
  s_averageBookingValue : Quotient
}.

Inductive Export : Type :=
| Csv (contentType disposition body : string)
| Report (summary : Summary) (exported : list Populated).

Definition csvHeader : string :=
  "Booking Code,Date,Movie,Cinema,Customer,Amount,Tickets,Status"
  ++ String "010"%char EmptyString.

(** [${ref?.field}] in a template literal. *)
Definition show_field {A : Type} (ref : option A) (field : A -> string)
  : string :=
  match ref with
  | None => "undefined"
  | Some d => field d
  end.

Section ReportExport.

(** [Date.prototype.toString], which depends on the host. *)
Variable dateToString : Z -> string.

Definition csvLine (p : Populated) : string :=
  bookingCode (doc p) ++ "," ++ dateToString (createdAt (doc p)) ++ ","
  ++ show_field (movieRef p) title ++ ","
  ++ show_field (cinemaRef p) name ++ ","
  ++ show_field (userRef p) fullName ++ ","
  ++ show_Z (finalAmount (doc p)) ++ ","
  ++ show_Z (Z.of_nat (List.length (seats (doc p)))) ++ ","
  ++ status (doc p) ++ String "010"%char EmptyString.

Definition exportReport (startDate endDate : option Z)
  (format : option string) (st : Store) : Export :=
  let bookings :=
    map (populate st)
      (sort_newest (filter (dated_query startDate endDate) (bookings st))) in
  if String.eqb (or_else format "json") "csv" then
    let csv :=
      fold_left (fun csv booking => csv ++ csvLine booking) bookings
        csvHeader in
    Csv "text/csv" "attachment; filename=revenue-report.csv" csv
  else
    let totalRevenue :=
      fold_left (fun sum b => sum + finalAmount (doc b)) bookings 0 in
    let totalTickets :=
      fold_left
        (fun sum b => sum + Z.of_nat (List.length (seats (doc b))))
        bookings 0 in
    Report
      {| s_totalBookings := Z.of_nat (List.length bookings);
         s_totalRevenue := totalRevenue;
         s_totalTickets := totalTickets;
         s_averageBookingValue :=
           div_or_zero totalRevenue (Z.of_nat (List.length bookings)) |}
      bookings.

End ReportExport.

(** The cinema, or the movie, of the booking has a document. *)
Definition has_cinema (st : Store) (b : Booking) : bool :=
  existsb (fun c => Nat.eqb (cinemadoc_id c) (cinemaId b)) (cinemaDocs st).

Definition has_movie (st : Store) (b : Booking) : bool :=
  existsb (fun m => Nat.eqb (moviedoc_id m) (movieId b)) (movieDocs st).

(** Number of seats of a booking. *)
Definition tickets (b : Booking) : Z := Z.of_nat (List.length (seats b)).

(** Sums over the rows of an answer. *)
Definition sum_of {A : Type} (f : A -> Z) (l : list A) : Z :=
  fold_right (fun x acc => f x + acc) 0 l.

(** A small store, for concrete runs. *)
Definition sample : Store :=
  {| bookings :=
       [ mkBooking "BK1" 1%nat 1%nat 1%nat 1000 180000 ["A1"; "A2"] "momo" "completed"
           "confirmed";
         mkBooking "BK2" 2%nat 2%nat 1%nat 5000 90000 ["B1"] "card" "completed" "used";
         mkBooking "BK3" 1%nat 1%nat 2%nat 9000 270000 ["C1"; "C2"; "C3"] "momo"
           "completed" "cancelled";
         mkBooking "BK4" 3%nat 2%nat 2%nat 12000 90000 ["D1"] "cash" "pending" "pending";
         mkBooking "BK5" 2%nat 1%nat 1%nat 15000 90000 ["E1"] "card" "failed" "expired" ];
     users := [ mkUserDoc 1%nat "An" "an@example.com";
                mkUserDoc 2%nat "" "binh@example.com" ];
     movieDocs := [ mkMovieDoc 1%nat "Doraemon" "d.jpg";
                    mkMovieDoc 2%nat "Conan" "c.jpg" ];
     cinemaDocs := [ mkCinemaDoc 1%nat "Rex" (mkLocation "1 Main" "Hanoi");
                     mkCinemaDoc 2%nat "Lux" (mkLocation "2 High" "Hue") ] |}.

End Revenue.

(** ** The chatbot service

    The two methods of services/geminiChatbot.js that decide without the
    data base: [analyzeSentiment] and [classifyIntent].  The language
    model, the parser of its reply and the case functions of the host are
    parameters. *)

Module Chatbot.

Local Open Scope string_scope.
Local Open Scope Z_scope.

Definition nl : string := String "010"%char EmptyString.
Definition quote : string := String "034"%char EmptyString.

(** [s.includes(k)] *)
Fixpoint includes (s k : string) : bool :=
  String.prefix k s
  || match s with
     | EmptyString => false
     | String _ r => includes r k
     end.

Definition frustrationKeywords : list string :=
  ["chậm"; "lỗi"; "không được"; "tệ"; "kém"; "phàn nàn";
   "thất vọng"; "giận"; "khó chịu"; "bực mình"; "tức giận"].

Definition validIntents : list string :=
  ["booking"; "crowd_prediction"; "movie_info"; "showtime"; "cinema";
   "promotion"; "general"].

Definition sentimentPrompt (message : string) : string :=
  "Phân tích cảm xúc của tin nhắn sau và trả về JSON:" ++ nl ++
  "    Tin nhắn: " ++ quote ++ message ++ quote ++ nl ++ "    " ++ nl ++
  "    Trả về JSON với format:" ++ nl ++ "    {" ++ nl ++ "      " ++
  quote ++ "sentiment" ++ quote ++ ": " ++ quote ++
  "positive/neutral/negative" ++ quote ++ "," ++ nl ++ "      " ++ quote ++
  "frustration_level" ++ quote ++ ": 0-10," ++ nl ++ "      " ++ quote ++
  "needs_human_support" ++ quote ++ ": true/false," ++ nl ++ "      " ++
  quote ++ "reason" ++ quote ++ ": " ++ quote ++ "giải thích ngắn gọn" ++
  quote ++ nl ++ "    }".

Definition intentPrompt (message : string) : string :=
  "Phân loại mục đích (intent) của câu hỏi sau về rạp chiếu phim:" ++ nl ++
  "    " ++ nl ++ "    Câu hỏi: " ++ quote ++ message ++ quote ++ nl ++
  "    " ++ nl ++
  "    Các intent có thể: booking, crowd_prediction, movie_info, showtime, cinema, promotion, general" ++
  nl ++ "    " ++ nl ++ "    Trả về chỉ 1 từ intent phù hợp nhất.".

(** The longest text from a closing brace back to its start. *)
Fixpoint upto_last_brace (s : string) : option string :=
  match s with
  | EmptyString => None
  | String a r =>
      match upto_last_brace r with
      | Some p => Some (String a p)
      | None =>
          if Ascii.eqb a "}" then Some (String a EmptyString) else None
      end
  end.

(** [text.match(/\{[\s\S]*\}/)]: from the first opening brace to the last
    closing brace after it. *)
Fixpoint match_object (s : string) : option string :=
  match s with
  | EmptyString => None
  | String a r =>
      if Ascii.eqb a "{" then
        match upto_last_brace r with
        | Some p => Some (String a p)
        | None => None
        end
      else match_object r
  end.

(** What [analyzeSentiment] reads of the parsed reply. *)
Record Analysis : Type := mkAnalysis {
  sentiment : jsval;
  frustration_level : jsval;
  needs_human_support : jsval;
  reason : jsval
}.

Record SentimentResult : Type := mkSentimentResult {
  res_sentiment : jsval;
  frustrationLevel : jsval;
  needsHumanSupport : jsval;
  res_reason : jsval
}.

Section Service.

(** [String.prototype.toLowerCase] and [trim]. *)
Variable toLowerCase : string -> string.
Variable trim : string -> string.

(** The text the model answers to a prompt; [None] when the call or the
    reading of the answer throws. *)
Variable generateContent : string -> option string.

(** [JSON.parse] followed by the four property reads; [None] when it
    throws. *)
Variable parseAnalysis : string -> option Analysis.

Definition hasFrustration (message : string) : bool :=
  let lowerMessage := toLowerCase message in
  existsb (fun keyword => includes lowerMessage keyword) frustrationKeywords.

Definition keywordSentiment (message : string) : SentimentResult :=
  {| res_sentiment :=
       if hasFrustration message then JStr "negative" else JStr "neutral";
     frustrationLevel := if hasFrustration message then JNum 7 else JNum 3;
     needsHumanSupport := JBool (hasFrustration message);
     res_reason :=
       if hasFrustration message then JStr "Phát hiện từ khóa frustration"
       else JStr "Bình thường" |}.

Definition analyzeSentiment (message : string) : SentimentResult :=
  match generateContent (sentimentPrompt message) with
  | Some text =>
      match match_object text with
      | Some jsonMatch =>
          match parseAnalysis jsonMatch with
          | Some analysis =>
              {| res_sentiment := sentiment analysis;
                 frustrationLevel := frustration_level analysis;
                 needsHumanSupport :=
                   js_or (needs_human_support analysis)
                     (JBool (hasFrustration message));
                 res_reason := reason analysis |}
          | None => keywordSentiment message
          end
      | None => keywordSentiment message
      end
  | None => keywordSentiment message
  end.

Definition classifyIntent (message : string) : string :=
  match generateContent (intentPrompt message) with
  | Some text =>
      let intent := toLowerCase (trim text) in
      if existsb (String.eqb intent) validIntents then intent else "general"
  | None => "general"
  end.

End Service.

End Chatbot.

(** ** Creating a showtime on any host

    [createShowtime] above is the handler on a host whose zone keeps one
    offset and for time values inside the range of [Date].  The handler
    below leaves both open: the zone is a parameter with its own offset at
    every instant, and a time value out of range is an Invalid Date. *)

Module HostDate.

(** The zone of the host: the offset of local time from UTC, in
    milliseconds, at an instant ([LocalTZA(t, true)]) and at a local time
    ([LocalTZA(t, false)]). *)
Record Zone : Type := mkZone {
  offsetAtUTC : Z -> Z;
  offsetAtLocal : Z -> Z
}.

Definition maxTime : Z := 8640000000000000.

(** [TimeClip]; [None] is [NaN], the time value of an Invalid Date. *)
Definition TimeClip (time : Z) : option Z :=
  if Z.abs time <=? maxTime then Some time else None.

(** [new Date(v)] for a number [v]. *)
Definition newDate (v : Z) : option Z := TimeClip v.

Definition LocalTime (z : Zone) (t : Z) : Z := t + offsetAtUTC z t.
Definition UTC (z : Zone) (t : Z) : Z := t - offsetAtLocal z t.

(** [d.getMinutes()] of a valid date. *)
Definition getMinutes (z : Zone) (t : Z) : Z :=
  JSDate.MinFromTime (LocalTime z t).

(** [d.setMinutes(min)] of a valid date: the new time value of [d]. *)
Definition setMinutes (z : Zone) (t min : Z) : option Z :=
  let lt := LocalTime z t in
  TimeClip
    (UTC z
       (JSDate.MakeDate (JSDate.Day lt)
          (JSDate.MakeTime (JSDate.HourFromTime lt) min
             (JSDate.SecFromTime lt) (JSDate.msFromTime lt)))).

(** A zone that keeps one offset. *)
Definition fixed (tza : Z) : Zone :=
  {| offsetAtUTC := fun _ => tza; offsetAtLocal := fun _ => tza |}.

(** A zone with one transition, at [instant], from the offset [before] to
    the offset [after].  A local time that the transition skips or
    repeats is read with the offset before the transition. *)
Definition transition (instant before after : Z) : Zone :=
  {| offsetAtUTC := fun t => if t <? instant then before else after;
     offsetAtLocal :=
       fun t => if t <? instant + Z.max before after then before else after
  |}.

End HostDate.

(** [new Date(startTime)] followed by [setMinutes(getMinutes() +
    movie.duration + 15)]: the end time the handler computes. *)
Definition endTimeOn (z : HostDate.Zone) (b : CreateBody) (movie : Movie)
  : option Z :=
  match HostDate.newDate (b_startTime b) with
  | Some endTime =>
      HostDate.setMinutes z endTime
        (HostDate.getMinutes z endTime + duration movie + 15)
  | None => None
  end.

(** An Invalid Date among the values of the conflict query is refused by
    the mapper, and the error goes to [next]. *)
Definition createShowtimeOn (z : HostDate.Zone) (b : CreateBody) (db : DB)
  : Response * DB :=
  match Movie_.findById db (b_movieId b),
        Cinema_.findById db (b_cinemaId b) with
  | Some movie, Some cinema =>
      match Cinema_.screens_id cinema (b_screenId b) with
      | None => (Json 404 false (Message "Screen not found"), db)
      | Some screen =>
          match endTimeOn z b movie, HostDate.newDate (b_date b) with
          | Some endTime, Some date =>
              match Showtime_.findOne db
                      {| q_movieId := None;
                         q_cinemaId := Some (b_cinemaId b);
                         q_screenId := Some (b_screenId b);
                         q_date := Some date;
                         q_startTime_gte := None;
                         q_startTime_lte := None;
                         q_startTime_lt := Some endTime;
                         q_endTime_gt := Some (b_startTime b);
                         q_isActive := Some true |} with
              | Some _ =>
                  (Json 400 false
                     (Message "Time slot conflicts with existing showtime"),
                   db)
              | None =>
                  let (showtime, db') :=
                    Showtime_.create db
                      {| n_movieId := b_movieId b;
                         n_cinemaId := b_cinemaId b;
                         n_screenId := b_screenId b;
                         n_startTime := b_startTime b;
                         n_endTime := endTime;
                         n_date := date;
                         n_price := js_or (b_price b) (priceList cinema);
                         n_availableSeats := total (seats screen) |} in
                  (Json 201 true (One showtime), db')
              end
          | _, _ => (NextError, db)
          end
      end
  | _, _ => (Json 404 false (Message "Movie or Cinema not found"), db)
  end.

(** The document a create request stores when the handler has computed
    the end [e]. *)
Definition created_until (db : DB) (b : CreateBody) (cinema : Cinema)
  (screen : Screen) (e : Z) : Showtime :=
  Showtime_.schema_defaults (Showtime_.fresh_id db)
    {| n_movieId := b_movieId b;
       n_cinemaId := b_cinemaId b;
       n_screenId := b_screenId b;
       n_startTime := b_startTime b;
       n_endTime := e;
       n_date := b_date b;
       n_price := js_or (b_price b) (priceList cinema);
       n_availableSeats := total (seats screen) |}.

(** Create and delete requests, on any host. *)
Inductive Request : Type :=
| CreateOn (z : HostDate.Zone) (b : CreateBody)
| Delete (id : ObjectId).

Definition serve (r : Request) (db : DB) : DB :=
  match r with
  | CreateOn z b => snd (createShowtimeOn z b db)
  | Delete id => snd (deleteShowtime id db)
  end.

(** States reached from a catalogue without showtimes by create and
    delete requests that are served one at a time: a handler runs to its
    end before the next request is taken up. *)
Inductive served_in_turn : DB -> Prop :=
| served_none ms cs : served_in_turn (mkDB ms cs [])
| served_next r db : served_in_turn db -> served_in_turn (serve r db).

(** ** Listings when the store is free in the order of ties

    [.sort('startTime')] promises an ascending order and nothing about
    showtimes that start at the same instant: from one query to the next
    the store may return them in another order.  An answer of a listing
    is then any answer built from some ascending arrangement of the
    documents found. *)

Definition sorted_result (found sorted : list Showtime) : Prop :=
  Permutation found sorted /\ ascending sorted.

Definition getShowtimes_answers (env : Env) (rq : ReqQuery) (db : DB)
  (res : Response) : Prop :=
  let page := or_else (r_page rq) 1 in
  let limit := or_else (r_limit rq) 20 in
  let query := getShowtimes_query env rq in
  if (page - 1) * limit <? 0 then res = NextError
  else
    exists sorted,
      sorted_result (Showtime_.find_ db query) sorted /\
      let showtimes :=
        q_limit (limit * 1) (q_skip ((page - 1) * limit) sorted) in
      let count := Showtime_.countDocuments db query in
      res = Json 200 true
              (Page (Z.of_nat (List.length showtimes)) count
                 (ceil_div count limit) page showtimes).


Definition getShowtimesByCinema_answers (env : Env) (cinemaId : ObjectId)
  (rq : ReqQuery) (db : DB) (res : Response) : Prop :=
  exists showtimes,
    sorted_result
      (Showtime_.find_ db (getShowtimesByCinema_query env cinemaId rq))
      showtimes /\
    res = Json 200 true
            (Listing (Z.of_nat (List.length showtimes)) showtimes).

(** ** Hosts and requests for concrete runs *)

Module Transitions.

Definition est : Z := -5 * JSDate.msPerHour.
Definition edt : Z := -4 * JSDate.msPerHour.

(** 10 March 2024, 07:00 UTC: the clocks go from 02:00 to 03:00. *)
Definition springForward : HostDate.Zone :=
  HostDate.transition 1710054000000 est edt.

(** 3 November 2024, 06:00 UTC: the clocks go from 02:00 back to 01:00. *)
Definition fallBack : HostDate.Zone :=
  HostDate.transition 1730613600000 edt est.

Definition feature : Movie := {| movie_id := 1%nat; duration := 120 |}.
Definition shortFilm : Movie := {| movie_id := 2%nat; duration := 10 |}.

Definition catalogue : DB :=
  {| movies := [feature; shortFilm]; cinemas := [Fixture.cinema1];
     showtimes := [] |}.

(** The feature at 01:30 local time in the night of 10 March. *)
Definition beforeSpringForward : CreateBody :=
  {| b_movieId := 1%nat; b_cinemaId := 1%nat; b_screenId := 1%nat;
     b_startTime := 1710052200000; b_date := 1710028800000;
     b_price := JUndefined |}.

(** The feature at 00:30 local time in the night of 3 November. *)
Definition beforeFallBack : CreateBody :=
  {| b_movieId := 1%nat; b_cinemaId := 1%nat; b_screenId := 1%nat;
     b_startTime := 1730608200000; b_date := 1730592000000;
     b_price := JUndefined |}.

(** The short film at 01:30 local time, in the hour that repeats. *)
Definition inRepeatedHour : CreateBody :=
  {| b_movieId := 2%nat; b_cinemaId := 1%nat; b_screenId := 1%nat;
     b_startTime := 1730615400000; b_date := 1730592000000;
     b_price := JUndefined |}.

(** Indochina time, which keeps one offset. *)
Definition indochina : HostDate.Zone := HostDate.fixed Fixture.tz.

(** Two showtimes of one movie on two screens that start at the same
    instant. *)
Definition twin (id screen : ObjectId) : Showtime :=
  {| _id := id; movieId := 1%nat; cinemaId := 1%nat; screenId := screen;
     startTime := Fixture.clock 14 0; endTime := Fixture.clock 16 15;
     date := Fixture.day0; price := Fixture.standardPrices;
     availableSeats := 100; bookedSeats := []; status := upcoming;
     isActive := true |}.

(** End minus start of every stored showtime, in milliseconds. *)
Definition lengths (db : DB) : list Z :=
  map (fun s => endTime s - startTime s) (showtimes db).

Definition dbTwins : DB :=
  with_showtimes Fixture.catalogue [twin 1%nat 1%nat; twin 2%nat 2%nat].

End Transitions.

(** ** Arithmetic of the [Date] methods *)

Module JSDateFacts.
Import JSDate.

Ltac unfold_date :=
  unfold setMinutes, getMinutes, setHours, UTC, LocalTime, MakeDate,
    MakeTime, Day, HourFromTime, MinFromTime, SecFromTime, msFromTime,
    msPerDay, msPerHour, msPerMinute, msPerSecond in *.

(** A time value is its day, hour, minute, second and millisecond. *)
Lemma time_decomposition (t : Z) :
  MakeDate (Day t)
    (MakeTime (HourFromTime t) (MinFromTime t) (SecFromTime t)
       (msFromTime t)) = t.
Proof.
  unfold_date.
  assert (H1 : t / 1000 / 60 = t / 60000) by (rewrite Z.div_div by lia; reflexivity).
  assert (H2 : t / 60000 / 60 = t / 3600000) by (rewrite Z.div_div by lia; reflexivity).
  assert (H3 : t / 3600000 / 24 = t / 86400000) by (rewrite Z.div_div by lia; reflexivity).
  pose proof (Z.div_mod t 1000 ltac:(lia)).
  pose proof (Z.div_mod (t / 1000) 60 ltac:(lia)).
  pose proof (Z.div_mod (t / 60000) 60 ltac:(lia)).
  pose proof (Z.div_mod (t / 3600000) 24 ltac:(lia)).
  lia.
Qed.

Lemma setMinutes_shift (tz t k : Z) :
  setMinutes tz t (getMinutes tz t + k) = t + k * msPerMinute.
Proof.
  pose proof (time_decomposition (LocalTime tz t)) as H.
  unfold setMinutes, getMinutes.
  unfold MakeDate, MakeTime, UTC in *.
  unfold LocalTime in *.
  lia.
Qed.

Lemma startOfDay_local (tz t : Z) :
  LocalTime tz (setHours tz t 0 0 0 0) = Day (LocalTime tz t) * msPerDay.
Proof. unfold_date. lia. Qed.

Lemma endOfDay_startOfDay (tz t : Z) :
  setHours tz (setHours tz t 0 0 0 0) 23 59 59 999
  = setHours tz t 0 0 0 0 + (msPerDay - 1).
Proof.
  unfold setHours at 1.
  rewrite startOfDay_local.
  unfold setHours, Day, MakeDate, MakeTime, UTC.
  rewrite Z.div_mul by (unfold msPerDay; lia).
  unfold msPerDay, msPerHour, msPerMinute, msPerSecond. lia.
Qed.


End JSDateFacts.

(** ** Facts about the mapper *)

Section MapperFacts.

Lemma overlapb_spec (a b : Showtime) : overlapb a b = true <-> overlap a b.
Proof.
  unfold overlapb, overlap. rewrite Z.ltb_lt. split.
  - intros H. exists (Z.max (startTime a) (startTime b)). lia.
  - intros [t Ht]. lia.
Qed.

Lemma findById_Some (db : DB) (id : ObjectId) (s : Showtime) :
  Showtime_.findById db id = Some s ->
  In s (showtimes db) /\ _id s = id.
Proof.
  unfold Showtime_.findById. intros H.
  apply find_some in H. destruct H as [Hin Heq].
  apply Nat.eqb_eq in Heq. auto.
Qed.

Lemma matches_conflict_query (b : CreateBody) (e : Z) (x : Showtime) :
  matches (conflict_query b e) x = true <->
  in_slot b x /\ startTime x < e /\ b_startTime b < endTime x /\
  isActive x = true.
Proof.
  unfold matches, conflict_query, in_slot, cond; simpl.
  rewrite !andb_true_iff, !Nat.eqb_eq, Z.eqb_eq, !Z.ltb_lt, eqb_true_iff.
  tauto.
Qed.

Lemma createShowtime_resolved env b db movie cinema screen :
  resolves db b movie cinema screen ->
  createShowtime env b db =
  match Showtime_.findOne db (conflict_query b (candidate_end b movie)) with
  | Some _ => (conflictResponse, db)
  | None =>
      (Json 201 true (One (created db b movie cinema screen)),
       with_showtimes db
         (showtimes db ++ [created db b movie cinema screen]))
  end.
Proof.
  intros (Hm & Hc & Hs). unfold createShowtime.
  rewrite Hm, Hc, Hs.
  rewrite <- Z.add_assoc, JSDateFacts.setMinutes_shift.
  reflexivity.
Qed.

Lemma createShowtime_unresolved env b db :
  (forall movie cinema screen, ~ resolves db b movie cinema screen) ->
  exists msg, createShowtime env b db = (Json 404 false (Message msg), db).
Proof.
  intros H. unfold createShowtime.
  destruct (Movie_.findById db (b_movieId b)) as [movie|] eqn:Hm;
    [|eexists; reflexivity].
  destruct (Cinema_.findById db (b_cinemaId b)) as [cinema|] eqn:Hc;
    [|eexists; reflexivity].
  destruct (Cinema_.screens_id cinema (b_screenId b)) as [screen|] eqn:Hs;
    [|eexists; reflexivity].
  exfalso. apply (H movie cinema screen). repeat split; assumption.
Qed.

Lemma createShowtime_succeeded_inv env b db :
  succeeded (fst (createShowtime env b db)) = true ->
  exists movie cinema screen,
    resolves db b movie cinema screen /\
    Showtime_.findOne db (conflict_query b (candidate_end b movie)) = None /\
    createShowtime env b db =
    (Json 201 true (One (created db b movie cinema screen)),
     with_showtimes db
       (showtimes db ++ [created db b movie cinema screen])).
Proof.
  intros Hok.
  destruct (Movie_.findById db (b_movieId b)) as [movie|] eqn:Hm.
  2:{ unfold createShowtime in Hok. rewrite Hm in Hok. discriminate. }
  destruct (Cinema_.findById db (b_cinemaId b)) as [cinema|] eqn:Hc.
  2:{ unfold createShowtime in Hok. rewrite Hm, Hc in Hok. discriminate. }
  destruct (Cinema_.screens_id cinema (b_screenId b)) as [screen|] eqn:Hs.
  2:{ unfold createShowtime in Hok. rewrite Hm, Hc, Hs in Hok.
      discriminate. }
  assert (Hres : resolves db b movie cinema screen)
    by (repeat split; assumption).
  exists movie, cinema, screen. split; [exact Hres|].
  rewrite (createShowtime_resolved env b db movie cinema screen Hres) in *.
  destruct (Showtime_.findOne db _) as [x|].
  - discriminate.
  - split; reflexivity.
Qed.

End MapperFacts.

(** ** Creating a showtime *)

(** C8: a create request whose movie, cinema or screen does not resolve is
    answered 404 with [success = false], and the data base is unchanged. *)
Theorem createShowtime_not_found (env : Env) (b : CreateBody) (db : DB) :
  Movie_.findById db (b_movieId b) = None \/
  Cinema_.findById db (b_cinemaId b) = None \/
  (exists cinema,
      Cinema_.findById db (b_cinemaId b) = Some cinema /\
      Cinema_.screens_id cinema (b_screenId b) = None) ->
  exists msg,
    createShowtime env b db = (Json 404 false (Message msg), db).
Proof.
  intros H. apply createShowtime_unresolved.
  intros movie cinema screen (Hm & Hc & Hs).
  destruct H as [H | [H | (c & H1 & H2)]]; congruence.
Qed.

Lemma createShowtime_not_found_witness :
  exists msg,
    createShowtime Fixture.env0
      (mkCreateBody 9%nat 1%nat 1%nat (Fixture.clock 14 0) Fixture.day0 JUndefined)
      Fixture.catalogue
    = (Json 404 false (Message msg), Fixture.catalogue).
Proof.
  apply createShowtime_not_found. left. reflexivity.
Defined.

(** C4, as the controller has it: the showtime a successful create stores
    and returns has the seat total of the resolved screen as available
    seats, no booked seats, is active, and carries the price of the request
    when that value is truthy and the price list of the cinema otherwise. *)
Theorem createShowtime_fields (env : Env) (b : CreateBody) (db : DB) :
  succeeded (fst (createShowtime env b db)) = true ->
  exists cinema screen s,
    Cinema_.findById db (b_cinemaId b) = Some cinema /\
    Cinema_.screens_id cinema (b_screenId b) = Some screen /\
    createShowtime env b db =
      (Json 201 true (One s), with_showtimes db (showtimes db ++ [s])) /\
    availableSeats s = total (seats screen) /\
    bookedSeats s = [] /\
    isActive s = true /\
    price s = (if truthy (b_price b) then b_price b else priceList cinema).
Proof.
  intros Hok.
  destruct (createShowtime_succeeded_inv env b db Hok)
    as (movie & cinema & screen & (_ & Hc & Hs) & _ & Heq).
  exists cinema, screen, (created db b movie cinema screen).
  repeat split; assumption.
Qed.

Lemma createShowtime_fields_witness :
  exists s,
    fst (createShowtime Fixture.env0 (Fixture.request 14 0 (JNum 75000))
           Fixture.catalogue) = Json 201 true (One s) /\
    availableSeats s = 100 /\ bookedSeats s = [] /\ isActive s = true /\
    price s = JNum 75000.
Proof.
  destruct (createShowtime_fields Fixture.env0
              (Fixture.request 14 0 (JNum 75000)) Fixture.catalogue eq_refl)
    as (cinema & screen & s & Hc & Hs & Heq & Ha & Hb & Hi & Hp).
  exists s. rewrite Heq.
  vm_compute in Hc. injection Hc as <-.
  vm_compute in Hs. injection Hs as <-.
  repeat split; assumption.
Defined.

(** A price of 0 in the request is replaced by the price list of the
    cinema. *)
Lemma createShowtime_price_zero_replaced :
  b_price (Fixture.request 14 0 (JNum 0)) = JNum 0 /\
  exists s,
    createShowtime Fixture.env0 (Fixture.request 14 0 (JNum 0))
      Fixture.catalogue
    = (Json 201 true (One s),
       with_showtimes Fixture.catalogue [s]) /\
    price s = Fixture.standardPrices /\
    price s <> b_price (Fixture.request 14 0 (JNum 0)).
Proof.
  split; [reflexivity|].
  eexists. split; [vm_compute; reflexivity|].
  split; [reflexivity|]. simpl. discriminate.
Qed.

(** ** The no-overlap invariant *)

Section NoOverlap.

Lemma overlap_sym (a b : Showtime) : overlap a b -> overlap b a.
Proof. intros (t & Ha & Hb). exists t. split; assumption. Qed.

Lemma same_slot_sym (a b : Showtime) : same_slot a b -> same_slot b a.
Proof. unfold same_slot. intros (-> & -> & ->). repeat split. Qed.

Lemma no_overlap_snoc (db : DB) (s : Showtime) :
  no_overlap db ->
  (forall e, In e (showtimes db) -> isActive e = true ->
             same_slot e s -> ~ overlap e s) ->
  no_overlap (with_showtimes db (showtimes db ++ [s])).
Proof.
  intros Hinv Hnew i j a b Hi Hj Hij Ha Hb Hslot. simpl in Hi, Hj.
  destruct (Nat.lt_ge_cases i (List.length (showtimes db))) as [Hil | Hil];
    destruct (Nat.lt_ge_cases j (List.length (showtimes db))) as [Hjl | Hjl].
  - rewrite nth_error_app1 in Hi, Hj by assumption.
    exact (Hinv i j a b Hi Hj Hij Ha Hb Hslot).
  - rewrite nth_error_app1 in Hi by assumption.
    rewrite nth_error_app2 in Hj by assumption.
    destruct (j - List.length (showtimes db))%nat as [|k]; simpl in Hj.
    + injection Hj as <-.
      apply (Hnew a); try assumption.
      apply nth_error_In with (n := i). exact Hi.
    + destruct k; discriminate.
  - rewrite nth_error_app2 in Hi by assumption.
    rewrite nth_error_app1 in Hj by assumption.
    destruct (i - List.length (showtimes db))%nat as [|k]; simpl in Hi.
    + injection Hi as <-.
      intros Hov. apply (Hnew b); try assumption.
      * apply nth_error_In with (n := j). exact Hj.
      * apply same_slot_sym. exact Hslot.
      * apply overlap_sym. exact Hov.
    + destruct k; discriminate.
  - rewrite nth_error_app2 in Hi, Hj by assumption.
    destruct (i - List.length (showtimes db))%nat as [|k] eqn:Ei;
      [|destruct k; discriminate].
    destruct (j - List.length (showtimes db))%nat as [|k] eqn:Ej;
      [|destruct k; discriminate].
    lia.
Qed.

Lemma createShowtime_outcome env b db :
  snd (createShowtime env b db) = db \/
  exists movie cinema screen,
    resolves db b movie cinema screen /\
    Showtime_.findOne db (conflict_query b (candidate_end b movie)) = None /\
    snd (createShowtime env b db) =
    with_showtimes db (showtimes db ++ [created db b movie cinema screen]).
Proof.
  destruct (succeeded (fst (createShowtime env b db))) eqn:Hok.
  - right.
    destruct (createShowtime_succeeded_inv env b db Hok)
      as (movie & cinema & screen & Hres & Hnone & Heq).
    exists movie, cinema, screen. rewrite Heq. auto.
  - left. unfold createShowtime in *.
    destruct (Movie_.findById db (b_movieId b)); [|reflexivity].
    destruct (Cinema_.findById db (b_cinemaId b)) as [cinema|];
      [|reflexivity].
    destruct (Cinema_.screens_id cinema (b_screenId b)); [|reflexivity].
    destruct (Showtime_.findOne db _); [reflexivity|].
    simpl in Hok. discriminate.
Qed.

Lemma createShowtime_preserves_no_overlap env b db :
  no_overlap db -> no_overlap (snd (createShowtime env b db)).
Proof.
  intros Hinv.
  destruct (createShowtime_outcome env b db)
    as [-> | (movie & cinema & screen & Hres & Hnone & ->)];
    [exact Hinv|].
  apply no_overlap_snoc; [exact Hinv|].
  intros e Hin Hact (Hc & Hs & Hd) (t & He & Hn).
  unfold Showtime_.findOne in Hnone.
  pose proof (find_none _ _ Hnone e Hin) as Hno.
  assert (Hyes : matches (conflict_query b (candidate_end b movie)) e = true).
  { apply matches_conflict_query. simpl in *.
    split; [repeat split; assumption|].
    split; [lia|]. split; [lia|exact Hact]. }
  congruence.
Qed.

Lemma save_nth_error (db : DB) (doc : Showtime) (i : nat) :
  nth_error (showtimes (Showtime_.save db doc)) i =
  option_map (fun s => if Nat.eqb (_id s) (_id doc) then doc else s)
    (nth_error (showtimes db) i).
Proof. simpl. apply nth_error_map. Qed.

Lemma save_inactive_preserves_no_overlap (db : DB) (doc : Showtime) :
  isActive doc = false ->
  no_overlap db -> no_overlap (Showtime_.save db doc).
Proof.
  intros Hoff Hinv i j a b Hi Hj Hij Ha Hb Hslot.
  rewrite save_nth_error in Hi, Hj.
  destruct (nth_error (showtimes db) i) as [a0|] eqn:Ei; [|discriminate].
  destruct (nth_error (showtimes db) j) as [b0|] eqn:Ej; [|discriminate].
  simpl in Hi, Hj. injection Hi as <-. injection Hj as <-.
  destruct (Nat.eqb (_id a0) (_id doc)); [congruence|].
  destruct (Nat.eqb (_id b0) (_id doc)); [congruence|].
  exact (Hinv i j a0 b0 Ei Ej Hij Ha Hb Hslot).
Qed.

Lemma deleteShowtime_preserves_no_overlap id db :
  no_overlap db -> no_overlap (snd (deleteShowtime id db)).
Proof.
  intros Hinv. unfold deleteShowtime.
  destruct (Showtime_.findById db id) as [s|]; [|exact Hinv].
  destruct (0 <? _); [exact Hinv|].
  simpl. apply save_inactive_preserves_no_overlap; [reflexivity|exact Hinv].
Qed.

(** Creating and deleting alone keep active showtimes of a slot apart. *)
Lemma no_overlap_without_update (db : DB) :
  reachable_by (fun op => negb (is_update op)) db -> no_overlap db.
Proof.
  induction 1 as [ms cs | op db Hallowed Hreach IH].
  - intros i j a b Hi. simpl in Hi. destruct i; discriminate.
  - destruct op as [env b | id p | id]; simpl in *.
    + apply createShowtime_preserves_no_overlap. exact IH.
    + discriminate.
    + apply deleteShowtime_preserves_no_overlap. exact IH.
Qed.

End NoOverlap.

(** C1: the invariant does not survive an update.  Two abutting showtimes
    are created on one screen and day, then the second is moved into the
    first by an update: the state is reachable and two active showtimes of
    the slot overlap. *)
Theorem update_reaches_overlap :
  reachable Fixture.db3 /\ ~ no_overlap Fixture.db3 /\
  exists a b,
    showtimes Fixture.db3 = [a; b] /\
    isActive a = true /\ isActive b = true /\ same_slot a b /\
    (startTime a, endTime a) = (Fixture.clock 14 0, Fixture.clock 16 15) /\
    (startTime b, endTime b) = (Fixture.clock 15 0, Fixture.clock 18 30).
Proof.
  split; [|split].
  - change Fixture.db3 with
      (run (OpUpdate 2%nat Fixture.moveTo1500)
         (run (OpCreate Fixture.env0 (Fixture.request 16 15 JUndefined))
            (run (OpCreate Fixture.env0 (Fixture.request 14 0 JUndefined))
               Fixture.catalogue))).
    repeat (apply reachable_step; [reflexivity|]).
    apply reachable_init.
  - intros Hinv.
    refine (Hinv 0%nat 1%nat _ _ eq_refl eq_refl _ eq_refl eq_refl _ _).
    + discriminate.
    + repeat split.
    + apply overlapb_spec. reflexivity.
  - do 2 eexists. split; [vm_compute; reflexivity|].
    repeat split.
Qed.

(** ** Listings *)

Section ListingFacts.

Lemma insert_by_startTime_perm (s : Showtime) (l : list Showtime) :
  Permutation (insert_by_startTime s l) (s :: l).
Proof.
  induction l as [|x r IH]; simpl.
  - apply Permutation_refl.
  - destruct (startTime s <=? startTime x).
    + apply Permutation_refl.
    + eapply Permutation_trans; [apply perm_skip, IH|apply perm_swap].
Qed.

Lemma sort_by_startTime_perm (l : list Showtime) :
  Permutation (sort_by_startTime l) l.
Proof.
  induction l as [|x r IH]; simpl.
  - apply perm_nil.
  - eapply Permutation_trans; [apply insert_by_startTime_perm|].
    apply perm_skip, IH.
Qed.

Lemma insert_by_startTime_ascending (s : Showtime) (l : list Showtime) :
  ascending l -> ascending (insert_by_startTime s l).
Proof.
  unfold ascending. induction l as [|x r IH]; simpl; intros Hl.
  - constructor; constructor.
  - apply StronglySorted_inv in Hl. destruct Hl as [Hr Hx].
    destruct (startTime s <=? startTime x) eqn:Hlt.
    + apply Z.leb_le in Hlt.
      constructor; [constructor; assumption|].
      constructor; [lia|].
      rewrite Forall_forall in *. intros y Hy.
      specialize (Hx y Hy). simpl in Hx. lia.
    + apply Z.leb_gt in Hlt.
      constructor; [apply IH, Hr|].
      rewrite Forall_forall in *. intros y Hy.
      apply (Permutation_in _ (insert_by_startTime_perm s r)) in Hy.
      destruct Hy as [<- | Hy]; [lia|exact (Hx y Hy)].
Qed.

Lemma sort_by_startTime_ascending (l : list Showtime) :
  ascending (sort_by_startTime l).
Proof.
  induction l as [|x r IH]; simpl.
  - constructor.
  - apply insert_by_startTime_ascending, IH.
Qed.





Lemma In_page_of (page limit : Z) (l : list Showtime) (x : Showtime) :
  In x (page_of page limit l) -> In x l.
Proof.
  unfold page_of. intros H.
  rewrite <- (firstn_skipn (Z.to_nat ((page - 1) * limit)) l).
  apply in_or_app. right.
  rewrite <- (firstn_skipn (Z.to_nat limit) (skipn _ l)).
  apply in_or_app. left. exact H.
Qed.

Lemma endOfDay_nested (tz d : Z) :
  JSDate.setHours tz (JSDate.setHours tz d 0 0 0 0) 23 59 59 999
  = endOfDay tz d.
Proof.
  rewrite JSDateFacts.endOfDay_startOfDay.
  unfold endOfDay. JSDateFacts.unfold_date. lia.
Qed.


(** What a query of the listing handlers matches. *)
Lemma matches_listing (env : Env) (movie cinema : option ObjectId)
  (date : option Z) (x : Showtime) :
  matches
    {| q_movieId := movie; q_cinemaId := cinema; q_screenId := None;
       q_date := None;
       q_startTime_gte := fst (startTime_bounds env date);
       q_startTime_lte := snd (startTime_bounds env date);
       q_startTime_lt := None; q_endTime_gt := None;
       q_isActive := Some true |} x = true
  <-> selected env movie cinema date x.
Proof.
  unfold matches, selected, in_window, startTime_bounds, cond.
  destruct date as [d|]; simpl;
    rewrite ?endOfDay_nested, !andb_true_iff, eqb_true_iff, ?Z.leb_le;
    unfold startOfDay;
    destruct movie as [m|], cinema as [c|];
    rewrite ?Nat.eqb_eq;
    intuition (try discriminate; try congruence; auto).
Qed.

Lemma ceil_div_pages (count limit : Z) :
  0 < limit ->
  exists pages,
    ceil_div count limit = Some pages /\
    (pages - 1) * limit < count <= pages * limit.
Proof.
  intros Hl. unfold ceil_div.
  destruct (limit =? 0) eqn:E; [apply Z.eqb_eq in E; lia|].
  eexists. split; [reflexivity|].
  pose proof (Z.div_mod (- count) limit ltac:(lia)).
  pose proof (Z.mod_pos_bound (- count) limit Hl).
  nia.
Qed.

End ListingFacts.

Lemma sorted_find_selected (env : Env) (movie cinema : option ObjectId)
  (date : option Z) (db : DB) (x : Showtime) :
  In x
    (sort_by_startTime
       (Showtime_.find_ db
          {| q_movieId := movie; q_cinemaId := cinema; q_screenId := None;
             q_date := None;
             q_startTime_gte := fst (startTime_bounds env date);
             q_startTime_lte := snd (startTime_bounds env date);
             q_startTime_lt := None; q_endTime_gt := None;
             q_isActive := Some true |}))
  <-> In x (showtimes db) /\ selected env movie cinema date x.
Proof.
  rewrite <- matches_listing. unfold Showtime_.find_.
  rewrite <- filter_In. split; apply Permutation_in.
  - apply sort_by_startTime_perm.
  - apply Permutation_sym, sort_by_startTime_perm.
Qed.

Lemma getShowtimes_paged (env : Env) (rq : ReqQuery) (db : DB) :
  let page := or_else (r_page rq) 1 in
  let limit := or_else (r_limit rq) 20 in
  let full :=
    sort_by_startTime (Showtime_.find_ db (getShowtimes_query env rq)) in
  1 <= page -> 0 < limit ->
  getShowtimes env rq db =
  Json 200 true
    (Page (Z.of_nat (List.length (page_of page limit full)))
       (Z.of_nat (List.length full))
       (ceil_div (Z.of_nat (List.length full)) limit)
       page (page_of page limit full)).
Proof.
  intros page limit full Hp Hl. unfold getShowtimes.
  fold page. fold limit.
  replace ((page - 1) * limit <? 0) with false
    by (symmetry; apply Z.ltb_ge; nia).
  unfold q_limit, q_skip, Showtime_.countDocuments.
  replace (limit * 1 =? 0) with false by (symmetry; apply Z.eqb_neq; lia).
  replace (Z.abs (limit * 1)) with limit by lia.
  rewrite <- (Permutation_length
                (sort_by_startTime_perm
                   (Showtime_.find_ db (getShowtimes_query env rq)))).
  reflexivity.
Qed.



Example getShowtimes_first_page_of_one :
  exists a,
    getShowtimes Fixture.env0 Fixture.firstPageOfOne Fixture.db2
    = Json 200 true (Page 1 2 (Some 2) 1 [a]) /\
    startTime a = Fixture.clock 14 0.
Proof. eexists. split; vm_compute; reflexivity. Qed.


(** ** Saving a document *)

Section SaveFacts.

Lemma save_findById (db : DB) (doc s : Showtime) :
  Showtime_.findById db (_id doc) = Some s ->
  Showtime_.findById (Showtime_.save db doc) (_id doc) = Some doc.
Proof.
  unfold Showtime_.findById, Showtime_.save; simpl.
  induction (showtimes db) as [|x r IH]; simpl; [discriminate|].
  destruct (Nat.eqb (_id x) (_id doc)) eqn:E.
  - intros _. rewrite Nat.eqb_refl. reflexivity.
  - rewrite E. exact IH.
Qed.

Lemma save_In (db : DB) (doc x : Showtime) :
  In x (showtimes (Showtime_.save db doc)) -> _id x = _id doc -> x = doc.
Proof.
  simpl. rewrite in_map_iff. intros (y & Hy & _) Hid.
  destruct (Nat.eqb (_id y) (_id doc)) eqn:E; [congruence|].
  apply Nat.eqb_neq in E. congruence.
Qed.

Lemma save_save (db : DB) (doc : Showtime) :
  Showtime_.save (Showtime_.save db doc) doc = Showtime_.save db doc.
Proof.
  unfold Showtime_.save, with_showtimes; simpl. f_equal.
  rewrite map_map. apply map_ext. intros x.
  destruct (Nat.eqb (_id x) (_id doc)) eqn:E.
  - rewrite Nat.eqb_refl. reflexivity.
  - rewrite E. reflexivity.
Qed.

Lemma save_ids (db : DB) (doc : Showtime) :
  map _id (showtimes (Showtime_.save db doc)) = map _id (showtimes db).
Proof.
  simpl. rewrite map_map. apply map_ext. intros x.
  destruct (Nat.eqb (_id x) (_id doc)) eqn:E; [|reflexivity].
  apply Nat.eqb_eq in E. congruence.
Qed.

Lemma unique_id (l : list Showtime) (x y : Showtime) :
  NoDup (map _id l) -> In x l -> In y l -> _id x = _id y -> x = y.
Proof.
  induction l as [|z r IH]; simpl; [contradiction|].
  intros Hnd Hx Hy Hid. inversion Hnd as [|? ? Hz Hr]; subst.
  destruct Hx as [-> | Hx], Hy as [-> | Hy].
  - reflexivity.
  - exfalso. apply Hz. rewrite Hid. apply in_map. exact Hy.
  - exfalso. apply Hz. rewrite <- Hid. apply in_map. exact Hx.
  - apply IH; assumption.
Qed.

Lemma fresh_id_fresh (db : DB) :
  ~ In (Showtime_.fresh_id db) (map _id (showtimes db)).
Proof.
  unfold Showtime_.fresh_id.
  assert (H : forall l n, In n l -> (n <= fold_right Nat.max 0 l)%nat).
  { induction l as [|m r IH]; simpl; [contradiction|].
    intros n [-> | Hn]; [lia|]. specialize (IH n Hn). lia. }
  intros Hin. apply H in Hin. lia.
Qed.

Lemma deleteShowtime_blocked (id : ObjectId) (db : DB) (s : Showtime) :
  Showtime_.findById db id = Some s ->
  bookedSeats s <> [] ->
  deleteShowtime id db =
  (Json 400 false (Message "Cannot delete showtime with existing bookings"),
   db).
Proof.
  intros Hs Hb. unfold deleteShowtime. rewrite Hs.
  destruct (bookedSeats s); [congruence|reflexivity].
Qed.

Lemma deleteShowtime_done (id : ObjectId) (db : DB) (s : Showtime) :
  Showtime_.findById db id = Some s ->
  bookedSeats s = [] ->
  deleteShowtime id db =
  (Json 200 true (Message "Showtime deleted successfully"),
   Showtime_.save db (Showtime_.set_isActive s false)).
Proof.
  intros Hs Hb. unfold deleteShowtime. rewrite Hs, Hb. reflexivity.
Qed.

(** Identifiers stay unique in every reachable state. *)
Lemma reachable_ids_unique (db : DB) :
  reachable db -> NoDup (map _id (showtimes db)).
Proof.
  induction 1 as [ms cs | op db _ Hreach IH]; [constructor|].
  destruct op as [env b | id p | id]; simpl.
  - destruct (createShowtime_outcome env b db)
      as [-> | (movie & cinema & screen & _ & _ & ->)]; [exact IH|].
    simpl. rewrite map_app. apply NoDup_app; [exact IH| |].
    + constructor; [intros []|constructor].
    + intros n Hn [<- | []]. exact (fresh_id_fresh db Hn).
  - unfold updateShowtime, Showtime_.findByIdAndUpdate.
    destruct (Showtime_.findById db id); [|exact IH].
    simpl. rewrite map_map.
    erewrite map_ext; [exact IH|].
    intros x. simpl.
    destruct (Nat.eqb (_id x) (_id s)) eqn:E; [|reflexivity].
    apply Nat.eqb_eq in E. simpl. congruence.
  - unfold deleteShowtime.
    destruct (Showtime_.findById db id); [|exact IH].
    destruct (0 <? _); [exact IH|].
    simpl snd. rewrite save_ids. exact IH.
Qed.

Lemma In_firstn (n : nat) (l : list Showtime) (x : Showtime) :
  In x (firstn n l) -> In x l.
Proof.
  intros H. rewrite <- (firstn_skipn n l). apply in_or_app. auto.
Qed.

Lemma In_skipn (n : nat) (l : list Showtime) (x : Showtime) :
  In x (skipn n l) -> In x l.
Proof.
  intros H. rewrite <- (firstn_skipn n l). apply in_or_app. auto.
Qed.

(** Whatever the page and the limit, a listing returns stored, active
    showtimes only. *)
Lemma listings_return_active (env : Env) (rq : ReqQuery) (k : ObjectId)
  (db : DB) (x : Showtime) :
  In x (returned (getShowtimes env rq db)) \/
  In x (returned (getShowtimesByMovie env k rq db)) \/
  In x (returned (getShowtimesByCinema env k rq db)) ->
  In x (showtimes db) /\ isActive x = true.
Proof.
  intros [H | [H | H]].
  - unfold getShowtimes in H.
    destruct (_ <? 0); [contradiction|]. simpl in H.
    unfold q_limit, q_skip in H.
    assert (H' : In x (sort_by_startTime
                         (Showtime_.find_ db (getShowtimes_query env rq)))).
    { destruct (_ =? 0); [|apply In_firstn in H]; apply In_skipn in H;
        exact H. }
    apply sorted_find_selected in H'. unfold selected in H'. tauto.
  - simpl in H. apply sorted_find_selected in H.
    unfold selected in H. tauto.
  - simpl in H. apply sorted_find_selected in H.
    unfold selected in H. tauto.
Qed.

End SaveFacts.

(** ** Deleting a showtime *)

(** C5: deleting a showtime that has booked seats fails with 400 and
    changes nothing; deleting one without booked seats succeeds, leaves the
    record stored with [isActive = false], and no listing returns it any
    more. *)
Theorem deleteShowtime_guard (id : ObjectId) (db : DB) (s : Showtime) :
  Showtime_.findById db id = Some s ->
  (bookedSeats s <> [] ->
   deleteShowtime id db =
   (Json 400 false (Message "Cannot delete showtime with existing bookings"),
    db))
  /\
  (bookedSeats s = [] ->
   fst (deleteShowtime id db) =
     Json 200 true (Message "Showtime deleted successfully") /\
   (exists s',
       Showtime_.findById (snd (deleteShowtime id db)) id = Some s' /\
       isActive s' = false) /\
   (forall env rq k x,
       In x (returned (getShowtimes env rq (snd (deleteShowtime id db)))) \/
       In x (returned
               (getShowtimesByMovie env k rq (snd (deleteShowtime id db)))) \/
       In x (returned
               (getShowtimesByCinema env k rq (snd (deleteShowtime id db)))) ->
       _id x <> id)).
Proof.
  intros Hs. split.
  - apply deleteShowtime_blocked. exact Hs.
  - intros Hb. rewrite (deleteShowtime_done id db s Hs Hb). simpl.
    destruct (findById_Some db id s Hs) as [_ Hid].
    set (doc := Showtime_.set_isActive s false).
    assert (Hdoc : _id doc = id) by exact Hid.
    split; [reflexivity|]. split.
    + exists doc. split; [|reflexivity].
      rewrite <- Hdoc. apply save_findById with (s := s).
      rewrite Hdoc. exact Hs.
    + intros env rq k x Hx Hxid.
      apply listings_return_active in Hx. destruct Hx as [Hin Hact].
      apply save_In in Hin; [|congruence].
      subst x. discriminate.
Qed.

Lemma deleteShowtime_guard_witness :
  fst (deleteShowtime 7%nat Fixture.dbBooked)
  = Json 400 false (Message "Cannot delete showtime with existing bookings")
  /\ snd (deleteShowtime 7%nat Fixture.dbBooked) = Fixture.dbBooked
  /\ fst (deleteShowtime 1%nat Fixture.db1)
     = Json 200 true (Message "Showtime deleted successfully")
  /\ returned (getShowtimes Fixture.env0 Fixture.anyListing
                 (snd (deleteShowtime 1%nat Fixture.db1))) = [].
Proof.
  destruct (deleteShowtime_guard 7%nat Fixture.dbBooked Fixture.booked
              eq_refl) as [Hblocked _].
  rewrite Hblocked by discriminate.
  split; [reflexivity|]. split; [reflexivity|].
  split; reflexivity.
Defined.

(** C9: on a collection with unique identifiers, a successful delete
    leaves the catalogue and every other showtime as they were and, in the
    deleted showtime, changes no field but [isActive]. *)
Theorem deleteShowtime_frame (id : ObjectId) (db : DB) (s : Showtime) :
  NoDup (map _id (showtimes db)) ->
  Showtime_.findById db id = Some s ->
  bookedSeats s = [] ->
  movies (snd (deleteShowtime id db)) = movies db /\
  cinemas (snd (deleteShowtime id db)) = cinemas db /\
  List.length (showtimes (snd (deleteShowtime id db)))
  = List.length (showtimes db) /\
  forall i x,
    nth_error (showtimes db) i = Some x ->
    exists x',
      nth_error (showtimes (snd (deleteShowtime id db))) i = Some x' /\
      (_id x <> id -> x' = x) /\
      (_id x = id -> isActive x' = false) /\
      _id x' = _id x /\
      movieId x' = movieId x /\
      cinemaId x' = cinemaId x /\
      screenId x' = screenId x /\
      date x' = date x /\
      startTime x' = startTime x /\
      endTime x' = endTime x /\
      price x' = price x /\
      availableSeats x' = availableSeats x /\
      bookedSeats x' = bookedSeats x /\
      status x' = status x.
Proof.
  intros Hnd Hs Hb. rewrite (deleteShowtime_done id db s Hs Hb).
  destruct (findById_Some db id s Hs) as [Hin Hid].
  split; [reflexivity|]. split; [reflexivity|].
  split; [simpl; apply length_map|].
  intros i x Hx. simpl snd. rewrite save_nth_error, Hx. simpl.
  destruct (Nat.eqb (_id x) (_id s)) eqn:E.
  - apply Nat.eqb_eq in E.
    assert (x = s) as ->.
    { apply (unique_id (showtimes db)); try assumption.
      apply nth_error_In with (n := i). exact Hx. }
    eexists. split; [reflexivity|].
    split; [congruence|]. repeat split.
  - apply Nat.eqb_neq in E.
    exists x. split; [reflexivity|].
    split; [reflexivity|]. split; [congruence|]. repeat split.
Qed.

Lemma deleteShowtime_frame_witness :
  exists x',
    nth_error (showtimes (snd (deleteShowtime 1%nat Fixture.db2))) 1 = Some x'
    /\ (startTime x', endTime x') = (Fixture.clock 16 15, Fixture.clock 18 30)
    /\ isActive x' = true.
Proof.
  assert (Hnd : NoDup (map _id (showtimes Fixture.db2))).
  { vm_compute. repeat constructor; simpl; intuition discriminate. }
  destruct (deleteShowtime_frame 1%nat Fixture.db2
              (Showtime_.schema_defaults 1%nat
                 (mkNew 1%nat 1%nat 1%nat (Fixture.clock 14 0)
                    (Fixture.clock 16 15) Fixture.day0
                    Fixture.standardPrices 100))
              Hnd eq_refl eq_refl) as (_ & _ & _ & Hframe).
  destruct (Hframe 1%nat _ eq_refl) as (x' & Hx' & Hsame & _).
  exists x'. split; [exact Hx'|].
  rewrite Hsame by (vm_compute; discriminate).
  split; reflexivity.
Defined.

(** C10: deleting a showtime without booked seats a second time succeeds
    again and leaves the state of the first delete, with the record still
    stored and inactive. *)
Theorem deleteShowtime_idempotent (id : ObjectId) (db : DB) (s : Showtime) :
  Showtime_.findById db id = Some s ->
  bookedSeats s = [] ->
  fst (deleteShowtime id db)
  = Json 200 true (Message "Showtime deleted successfully") /\
  fst (deleteShowtime id (snd (deleteShowtime id db)))
  = fst (deleteShowtime id db) /\
  snd (deleteShowtime id (snd (deleteShowtime id db)))
  = snd (deleteShowtime id db) /\
  exists s',
    Showtime_.findById (snd (deleteShowtime id (snd (deleteShowtime id db))))
      id = Some s' /\
    isActive s' = false.
Proof.
  intros Hs Hb. rewrite (deleteShowtime_done id db s Hs Hb). simpl fst.
  simpl snd.
  destruct (findById_Some db id s Hs) as [_ Hid].
  set (doc := Showtime_.set_isActive s false).
  assert (Hdoc : Showtime_.findById (Showtime_.save db doc) id = Some doc).
  { replace id with (_id doc) by exact Hid.
    apply save_findById with (s := s).
    change (_id doc) with (_id s). rewrite Hid. exact Hs. }
  rewrite (deleteShowtime_done id _ doc Hdoc Hb). simpl fst. simpl snd.
  change (Showtime_.set_isActive doc false) with doc.
  rewrite save_save.
  split; [reflexivity|]. split; [reflexivity|]. split; [reflexivity|].
  exists doc. split; [exact Hdoc|reflexivity].
Qed.

Lemma deleteShowtime_idempotent_witness :
  snd (deleteShowtime 1%nat (snd (deleteShowtime 1%nat Fixture.db1)))
  = snd (deleteShowtime 1%nat Fixture.db1)
  /\ succeeded
       (fst (deleteShowtime 1%nat (snd (deleteShowtime 1%nat Fixture.db1))))
     = true.
Proof.
  destruct (deleteShowtime_idempotent 1%nat Fixture.db1
              (Showtime_.schema_defaults 1%nat
                 (mkNew 1%nat 1%nat 1%nat (Fixture.clock 14 0)
                    (Fixture.clock 16 15) Fixture.day0
                    Fixture.standardPrices 100))
              eq_refl eq_refl) as (H1 & H2 & H3 & _).
  split; [exact H3|]. rewrite H2, H1. reflexivity.
Defined.

(** ** Reading one showtime *)

(** C6: the status is a function of the wall clock and of the start and
    end of the showtime alone: [upcoming] before the start, [ongoing] from
    the start to the end, [ended] after the end; reading one showtime
    recomputes it, stores the record with the new status and returns that
    record. *)
Theorem getShowtime_refreshes_status (env : Env) (id : ObjectId) (db : DB)
  (s : Showtime) :
  Showtime_.findById db id = Some s ->
  startTime s <= endTime s ->
  (now env < startTime s ->
   status (Showtime_.updateStatus env s) = upcoming) /\
  (startTime s <= now env <= endTime s ->
   status (Showtime_.updateStatus env s) = ongoing) /\
  (now env > endTime s ->
   status (Showtime_.updateStatus env s) = ended) /\
  (forall env' s',
      now env' = now env -> startTime s' = startTime s ->
      endTime s' = endTime s ->
      status (Showtime_.updateStatus env' s')
      = status (Showtime_.updateStatus env s)) /\
  getShowtime env id db =
    (Json 200 true (One (Showtime_.updateStatus env s)),
     Showtime_.save db (Showtime_.updateStatus env s)) /\
  Showtime_.findById (snd (getShowtime env id db)) id
  = Some (Showtime_.updateStatus env s).
Proof.
  intros Hs Hwf.
  destruct (findById_Some db id s Hs) as [_ Hid].
  assert (Hget : getShowtime env id db =
                 (Json 200 true (One (Showtime_.updateStatus env s)),
                  Showtime_.save db (Showtime_.updateStatus env s))).
  { unfold getShowtime. rewrite Hs. reflexivity. }
  unfold Showtime_.updateStatus at 1 2 3 4 5; simpl status.
  unfold Showtime_.status_at.
  split; [|split; [|split; [|split; [|split]]]].
  - intros H. apply Z.ltb_lt in H. rewrite H. reflexivity.
  - intros [H1 H2]. apply Z.ltb_ge in H1. apply Z.leb_le in H2.
    rewrite H1, H2. reflexivity.
  - intros H.
    assert (H1 : (now env <? startTime s) = false) by (apply Z.ltb_ge; lia).
    assert (H2 : (now env <=? endTime s) = false) by (apply Z.leb_gt; lia).
    rewrite H1, H2. reflexivity.
  - intros env' s' -> -> ->. reflexivity.
  - exact Hget.
  - rewrite Hget. simpl snd.
    replace id with (_id (Showtime_.updateStatus env s)) by exact Hid.
    apply save_findById with (s := s).
    change (_id (Showtime_.updateStatus env s)) with (_id s).
    rewrite Hid. exact Hs.
Qed.

Lemma getShowtime_refreshes_status_witness :
  exists s',
    getShowtime (mkEnv (Fixture.clock 15 0) Fixture.tz) 1%nat Fixture.db1
    = (Json 200 true (One s'),
       Showtime_.save Fixture.db1 s') /\
    status s' = ongoing.
Proof.
  destruct (getShowtime_refreshes_status
              (mkEnv (Fixture.clock 15 0) Fixture.tz) 1%nat Fixture.db1
              (Showtime_.schema_defaults 1%nat
                 (mkNew 1%nat 1%nat 1%nat (Fixture.clock 14 0)
                    (Fixture.clock 16 15) Fixture.day0
                    Fixture.standardPrices 100))
              eq_refl)
    as (_ & Hon & _ & _ & Hget & _).
  - vm_compute. discriminate.
  - eexists. split; [exact Hget|]. apply Hon.
    split; vm_compute; discriminate.
Defined.

(** ** Further properties of the showtime handlers *)

Lemma resolves_with_showtimes (db : DB) (l : list Showtime) (b : CreateBody)
  (movie : Movie) (cinema : Cinema) (screen : Screen) :
  resolves db b movie cinema screen ->
  resolves (with_showtimes db l) b movie cinema screen.
Proof. intros H. exact H. Qed.

(** X3: the outcome of a create request does not depend on the wall clock
    or on the time zone of the host: no start time is refused for lying in
    the past. *)
Theorem createShowtime_ignores_clock (env env' : Env) (b : CreateBody)
  (db : DB) :
  createShowtime env b db = createShowtime env' b db.
Proof.
  unfold createShowtime.
  destruct (Movie_.findById db (b_movieId b)) as [movie|]; [|reflexivity].
  destruct (Cinema_.findById db (b_cinemaId b)) as [cinema|]; [|reflexivity].
  destruct (Cinema_.screens_id cinema (b_screenId b)) as [screen|];
    [|reflexivity].
  rewrite <- !Z.add_assoc, !JSDateFacts.setMinutes_shift. reflexivity.
Qed.

Lemma find_filter_none {A : Type} (p q : A -> bool) (l : list A) :
  (forall x, p x = true -> q x = true) ->
  (find p l = None <-> find p (filter q l) = None).
Proof.
  intros Hpq. induction l as [|x r IH]; simpl; [tauto|].
  destruct (p x) eqn:Hp.
  - rewrite (Hpq x Hp). simpl. rewrite Hp. split; discriminate.
  - destruct (q x); simpl; [rewrite Hp|]; exact IH.
Qed.

(** X4: whether a create request succeeds depends on the active showtimes
    of its own cinema, screen and date only: every other showtime,
    whatever its times, can be taken away without changing the outcome. *)
Theorem createShowtime_only_slot_matters (env : Env) (b : CreateBody)
  (db : DB) :
  succeeded (fst (createShowtime env b db))
  = succeeded
      (fst (createShowtime env b
              (with_showtimes db (filter (relevant b) (showtimes db))))).
Proof.
  unfold createShowtime. simpl.
  change (Movie_.findById (with_showtimes db (filter (relevant b) (showtimes db))))
    with (Movie_.findById db).
  change (Cinema_.findById (with_showtimes db (filter (relevant b) (showtimes db))))
    with (Cinema_.findById db).
  destruct (Movie_.findById db (b_movieId b)) as [movie|]; [|reflexivity].
  destruct (Cinema_.findById db (b_cinemaId b)) as [cinema|]; [|reflexivity].
  destruct (Cinema_.screens_id cinema (b_screenId b)) as [screen|];
    [|reflexivity].
  set (q := conflict_query b _).
  assert (Hiff : Showtime_.findOne db q = None <->
                 Showtime_.findOne
                   (with_showtimes db (filter (relevant b) (showtimes db))) q
                 = None).
  { unfold Showtime_.findOne. simpl. apply find_filter_none.
    intros x Hx. apply matches_conflict_query in Hx.
    destruct Hx as ((Hc & Hs & Hd) & _ & _ & Ha).
    unfold relevant. rewrite Ha, Hc, Hs, Hd, !Nat.eqb_refl, Z.eqb_refl.
    reflexivity. }
  destruct (Showtime_.findOne db q) as [x|];
    destruct (Showtime_.findOne _ q) as [y|]; try reflexivity.
  - destruct Hiff as [_ H]. specialize (H eq_refl). discriminate.
  - destruct Hiff as [H _]. specialize (H eq_refl). discriminate.
Qed.

Lemma save_findById_at (db : DB) (id : ObjectId) (doc s : Showtime) :
  Showtime_.findById db id = Some s ->
  _id doc = id ->
  Showtime_.findById (Showtime_.save db doc) id = Some doc.
Proof.
  intros Hs <-. apply save_findById with (s := s). exact Hs.
Qed.

Lemma save_other (db : DB) (doc x : Showtime) :
  In x (showtimes (Showtime_.save db doc)) ->
  x = doc \/ (In x (showtimes db) /\ _id x <> _id doc).
Proof.
  simpl. rewrite in_map_iff. intros (y & Hy & Hin).
  destruct (Nat.eqb (_id y) (_id doc)) eqn:E; [left; congruence|].
  apply Nat.eqb_neq in E. right. subst y. auto.
Qed.

Lemma save_over (db : DB) (d1 d2 : Showtime) :
  _id d1 = _id d2 ->
  Showtime_.save (Showtime_.save db d1) d2 = Showtime_.save db d2.
Proof.
  intros Hid. unfold Showtime_.save, with_showtimes; simpl. f_equal.
  rewrite map_map. apply map_ext. intros x.
  destruct (Nat.eqb (_id x) (_id d1)) eqn:E.
  - rewrite Hid, Nat.eqb_refl.
    rewrite Hid in E. rewrite E. reflexivity.
  - rewrite Hid in E. rewrite E. reflexivity.
Qed.

Lemma save_stored (db : DB) (s : Showtime) :
  NoDup (map _id (showtimes db)) ->
  In s (showtimes db) ->
  Showtime_.save db s = db.
Proof.
  intros Hnd Hin. destruct db as [ms cs l].
  unfold Showtime_.save, with_showtimes; simpl in *. f_equal.
  rewrite <- (map_id l) at 2. apply map_ext_in. intros x Hx.
  destruct (Nat.eqb (_id x) (_id s)) eqn:E; [|reflexivity].
  apply Nat.eqb_eq in E. symmetry.
  apply (unique_id l); assumption.
Qed.

(** X6: a soft delete is undone by an update.  On a collection with
    unique identifiers, deleting an active showtime without booked seats
    and then updating it with [{isActive: true}] gives back the data base
    as it was before the delete, and the update is answered 200. *)
Theorem deleteShowtime_undone_by_update (id : ObjectId) (db : DB)
  (s : Showtime) :
  NoDup (map _id (showtimes db)) ->
  Showtime_.findById db id = Some s ->
  bookedSeats s = [] ->
  isActive s = true ->
  updateShowtime id (patch_isActive true) (snd (deleteShowtime id db))
  = (Json 200 true (OneOrNull (Some s)), db).
Proof.
  intros Hnd Hs Hb Hact.
  rewrite (deleteShowtime_done id db s Hs Hb). simpl snd.
  destruct (findById_Some db id s Hs) as [Hin Hid].
  set (doc := Showtime_.set_isActive s false).
  assert (Hdoc : Showtime_.findById (Showtime_.save db doc) id = Some doc).
  { replace id with (_id doc) by exact Hid.
    apply save_findById with (s := s).
    change (_id doc) with (_id s). rewrite Hid. exact Hs. }
  unfold updateShowtime, Showtime_.findByIdAndUpdate. rewrite Hdoc.
  assert (Hback : apply_patch (patch_isActive true) doc = s).
  { destruct s; simpl in *. subst. reflexivity. }
  rewrite Hback, save_over by reflexivity.
  rewrite save_stored by assumption. reflexivity.
Qed.

Lemma deleteShowtime_undone_by_update_witness :
  snd (updateShowtime 2%nat (patch_isActive true)
         (snd (deleteShowtime 2%nat Fixture.db2)))
  = Fixture.db2.
Proof.
  assert (Hnd : NoDup (map _id (showtimes Fixture.db2))).
  { vm_compute. repeat constructor; simpl; intuition discriminate. }
  rewrite (deleteShowtime_undone_by_update 2%nat Fixture.db2
             (Showtime_.schema_defaults 2%nat
                (mkNew 1%nat 1%nat 1%nat (Fixture.clock 16 15)
                   (Fixture.clock 18 30) Fixture.day0
                   Fixture.standardPrices 100))
             Hnd eq_refl eq_refl eq_refl).
  reflexivity.
Defined.

(** X7: an update touches one document at most.  An unknown identifier
    is answered 404 and changes nothing; otherwise the patched document is
    returned and stored under the same identifier; in both cases the
    catalogue, the identifiers of the collection and every document with
    another identifier stay as they were. *)
Theorem updateShowtime_frame (id : ObjectId) (p : Patch) (db : DB) :
  (Showtime_.findById db id = None ->
   updateShowtime id p db
   = (Json 404 false (Message "Showtime not found"), db)) /\
  (forall s,
      Showtime_.findById db id = Some s ->
      fst (updateShowtime id p db)
      = Json 200 true (OneOrNull (Some (apply_patch p s))) /\
      Showtime_.findById (snd (updateShowtime id p db)) id
      = Some (apply_patch p s)) /\
  movies (snd (updateShowtime id p db)) = movies db /\
  cinemas (snd (updateShowtime id p db)) = cinemas db /\
  map _id (showtimes (snd (updateShowtime id p db)))
  = map _id (showtimes db) /\
  (forall i x,
      nth_error (showtimes db) i = Some x -> _id x <> id ->
      nth_error (showtimes (snd (updateShowtime id p db))) i = Some x).
Proof.
  unfold updateShowtime, Showtime_.findByIdAndUpdate.
  destruct (Showtime_.findById db id) as [s|] eqn:Hs.
  - destruct (findById_Some db id s Hs) as [_ Hid].
    split; [discriminate|].
    split.
    { intros s' [= <-]. split; [reflexivity|]. simpl snd.
      replace id with (_id (apply_patch p s)) by exact Hid.
      apply save_findById with (s := s).
      change (_id (apply_patch p s)) with (_id s). rewrite Hid. exact Hs. }
    split; [reflexivity|]. split; [reflexivity|].
    split; [apply save_ids|].
    intros i x Hx Hne. simpl snd. rewrite save_nth_error, Hx. simpl.
    change (_id (apply_patch p s)) with (_id s). rewrite Hid.
    apply Nat.eqb_neq in Hne. rewrite Hne. reflexivity.
  - split; [reflexivity|]. split; [discriminate|]. simpl. auto.
Qed.

(** X8: an update is not held back by bookings.  For a showtime with
    booked seats, which delete refuses to deactivate, the update
    [{isActive: false}] is answered 200, stores the showtime inactive with
    its booked seats, and no listing returns it afterwards. *)
Theorem updateShowtime_deactivates_booked (id : ObjectId) (db : DB)
  (s : Showtime) :
  Showtime_.findById db id = Some s ->
  bookedSeats s <> [] ->
  succeeded (fst (deleteShowtime id db)) = false /\
  exists s',
    updateShowtime id (patch_isActive false) db
    = (Json 200 true (OneOrNull (Some s')), Showtime_.save db s') /\
    Showtime_.findById (Showtime_.save db s') id = Some s' /\
    isActive s' = false /\
    bookedSeats s' = bookedSeats s /\
    forall env rq k x,
      In x (returned (getShowtimes env rq (Showtime_.save db s'))) \/
      In x (returned (getShowtimesByMovie env k rq (Showtime_.save db s'))) \/
      In x (returned (getShowtimesByCinema env k rq (Showtime_.save db s'))) ->
      _id x <> id.
Proof.
  intros Hs Hb.
  rewrite (deleteShowtime_blocked id db s Hs Hb).
  split; [reflexivity|].
  destruct (findById_Some db id s Hs) as [_ Hid].
  exists (apply_patch (patch_isActive false) s).
  unfold updateShowtime, Showtime_.findByIdAndUpdate. rewrite Hs.
  split; [reflexivity|]. split.
  { apply save_findById_at with (s := s); assumption. }
  split; [reflexivity|]. split; [reflexivity|].
  intros env rq k x Hx Hxid.
  apply listings_return_active in Hx. destruct Hx as [Hin Hact].
  apply save_In in Hin.
  - subst x. discriminate.
  - rewrite Hxid. symmetry. exact Hid.
Qed.

Lemma updateShowtime_deactivates_booked_witness :
  succeeded (fst (deleteShowtime 7%nat Fixture.dbBooked)) = false /\
  exists s',
    fst (updateShowtime 7%nat (patch_isActive false) Fixture.dbBooked)
    = Json 200 true (OneOrNull (Some s')) /\
    isActive s' = false /\ bookedSeats s' = bookedSeats Fixture.booked.
Proof.
  destruct (updateShowtime_deactivates_booked 7%nat Fixture.dbBooked
              Fixture.booked eq_refl)
    as (Hdel & s' & Hupd & _ & Hact & Hseats & _).
  - discriminate.
  - split; [exact Hdel|]. exists s'. rewrite Hupd. auto.
Defined.

(** ** Further properties of the listings *)




Lemma getShowtimes_page (env : Env) (rq : ReqQuery) (db : DB) (p : Z) :
  1 <= p -> 0 < or_else (r_limit rq) 20 ->
  getShowtimes env (with_page rq p) db
  = Json 200 true
      (Page
         (Z.of_nat
            (List.length
               (page_of p (or_else (r_limit rq) 20)
                  (sort_by_startTime
                     (Showtime_.find_ db (getShowtimes_query env rq))))))
         (Z.of_nat
            (List.length
               (sort_by_startTime
                  (Showtime_.find_ db (getShowtimes_query env rq)))))
         (ceil_div
            (Z.of_nat
               (List.length
                  (sort_by_startTime
                     (Showtime_.find_ db (getShowtimes_query env rq)))))
            (or_else (r_limit rq) 20))
         p
         (page_of p (or_else (r_limit rq) 20)
            (sort_by_startTime
               (Showtime_.find_ db (getShowtimes_query env rq))))).
Proof.
  intros Hp Hl.
  exact (getShowtimes_paged env (with_page rq p) db Hp Hl).
Qed.


(** X10: for a positive limit and a page of at least 1, the count of a
    page is the number of its showtimes and never exceeds the limit;
    every page before the last reported page holds exactly [limit]
    showtimes and the last one holds at least one. *)
Theorem getShowtimes_page_sizes (env : Env) (rq : ReqQuery) (db : DB)
  (p : Z) :
  0 < or_else (r_limit rq) 20 ->
  1 <= p ->
  exists count total pages shown,
    getShowtimes env (with_page rq p) db
    = Json 200 true (Page count total (Some pages) p shown) /\
    count = Z.of_nat (List.length shown) /\
    count <= or_else (r_limit rq) 20 /\
    count <= total /\
    (p < pages -> count = or_else (r_limit rq) 20) /\
    (p = pages -> 0 < count).
Proof.
  intros Hl Hp.
  set (limit := or_else (r_limit rq) 20) in *.
  set (full := sort_by_startTime
                 (Showtime_.find_ db (getShowtimes_query env rq))).
  destruct (ceil_div_pages (Z.of_nat (List.length full)) limit Hl)
    as (pages & Hceil & Hlo & Hhi).
  do 4 eexists. split.
  { rewrite getShowtimes_page by assumption.
    fold limit. fold full. rewrite Hceil. reflexivity. }
  split; [reflexivity|].
  unfold page_of. rewrite length_firstn, length_skipn.
  assert (Ha : Z.of_nat (Z.to_nat ((p - 1) * limit)) = (p - 1) * limit)
    by (apply Z2Nat.id; nia).
  assert (Hk : Z.of_nat (Z.to_nat limit) = limit) by (apply Z2Nat.id; lia).
  repeat split.
  - lia.
  - lia.
  - intros Hlt. nia.
  - intros ->. nia.
Qed.

Lemma getShowtimes_page_sizes_witness :
  exists shown,
    getShowtimes Fixture.env0 (with_page Fixture.firstPageOfOne 2)
      Fixture.db2
    = Json 200 true (Page 1 2 (Some 2) 2 shown).
Proof.
  destruct (getShowtimes_page_sizes Fixture.env0 Fixture.firstPageOfOne
              Fixture.db2 2)
    as (count & total & pages & shown & Heq & _).
  - reflexivity.
  - lia.
  - eexists. vm_compute. reflexivity.
Defined.





(** X12: without a date filter the listings by movie and by cinema only
    lose showtimes as the clock advances: whatever is listed at a later
    time was listed at every earlier time, and nothing listed has started
    before the time of the request. *)
Theorem listings_shrink_with_clock (tz t1 t2 : Z) (k : ObjectId)
  (rq : ReqQuery) (db : DB) (x : Showtime) :
  r_date rq = None ->
  t1 <= t2 ->
  (In x (returned (getShowtimesByMovie (mkEnv t2 tz) k rq db)) ->
   t2 <= startTime x /\
   In x (returned (getShowtimesByMovie (mkEnv t1 tz) k rq db))) /\
  (In x (returned (getShowtimesByCinema (mkEnv t2 tz) k rq db)) ->
   t2 <= startTime x /\
   In x (returned (getShowtimesByCinema (mkEnv t1 tz) k rq db))).
Proof.
  intros Hd Ht. split; intros H; simpl in H |- *;
    apply sorted_find_selected in H;
    destruct H as (Hin & Hact & Hm & Hc & Hw);
    rewrite Hd in Hw; simpl in Hw;
    (split; [exact Hw|]);
    apply sorted_find_selected; (split; [exact Hin|]);
    unfold selected; rewrite Hd; simpl; repeat split; try assumption; lia.
Qed.

Lemma listings_shrink_with_clock_witness :
  returned
    (getShowtimesByMovie (mkEnv (Fixture.clock 15 0) Fixture.tz) 1%nat
       Fixture.anyListing Fixture.db2)
  <> [] /\
  forall x,
    In x (returned
            (getShowtimesByMovie (mkEnv (Fixture.clock 15 0) Fixture.tz)
               1%nat Fixture.anyListing Fixture.db2)) ->
    In x (returned
            (getShowtimesByMovie (mkEnv (Fixture.clock 13 0) Fixture.tz)
               1%nat Fixture.anyListing Fixture.db2)).
Proof.
  split; [vm_compute; discriminate|].
  intros x Hx.
  apply (listings_shrink_with_clock Fixture.tz (Fixture.clock 13 0)
           (Fixture.clock 15 0) 1%nat Fixture.anyListing Fixture.db2 x).
  - reflexivity.
  - vm_compute. discriminate.
  - exact Hx.
Defined.

(** ** The revenue controller: time ago *)

Module RevenueFacts.
Import Revenue.
Local Open Scope string_scope.
Local Open Scope Z_scope.

Lemma show_Z_negative (n : Z) :
  n < 0 -> exists digits, show_Z n = String "-"%char digits.
Proof.
  intros Hn. destruct n as [|p|p]; try lia.
  unfold show_Z. simpl. eexists. reflexivity.
Qed.

(** X14: [getTimeAgo] truncates the elapsed time to a whole number of the
    unit it names: the text is that number followed by the word of the
    unit, the elapsed milliseconds lie between that many units and one
    more, and the unit is seconds below one minute (also for a date in the
    future), minutes below one hour, hours below one day and days from
    then on. *)
Theorem getTimeAgo_truncates (now date : Z) :
  exists n word unit,
    In (word, unit) timeUnits /\
    getTimeAgo now date = show_Z n ++ word /\
    n * unit <= now - date < (n + 1) * unit /\
    (unit = 1000 <-> now - date < 60000) /\
    (unit = 60000 <-> 60000 <= now - date < 3600000) /\
    (unit = 3600000 <-> 3600000 <= now - date < 86400000) /\
    (unit = 86400000 <-> 86400000 <= now - date).
Proof.
  unfold getTimeAgo, timeUnits.
  set (e := now - date).
  assert (H1 : e / 1000 / 60 = e / 60000)
    by (rewrite Z.div_div by lia; reflexivity).
  assert (H2 : e / 1000 / 60 / 60 = e / 3600000)
    by (rewrite !Z.div_div by lia; reflexivity).
  assert (H3 : e / 1000 / 60 / 60 / 24 = e / 86400000)
    by (rewrite !Z.div_div by lia; reflexivity).
  rewrite H3, H2, H1.
  pose proof (Z.div_mod e 1000 ltac:(lia)) as D1.
  pose proof (Z.mod_pos_bound e 1000 ltac:(lia)) as B1.
  pose proof (Z.div_mod e 60000 ltac:(lia)) as D2.
  pose proof (Z.mod_pos_bound e 60000 ltac:(lia)) as B2.
  pose proof (Z.div_mod e 3600000 ltac:(lia)) as D3.
  pose proof (Z.mod_pos_bound e 3600000 ltac:(lia)) as B3.
  pose proof (Z.div_mod e 86400000 ltac:(lia)) as D4.
  pose proof (Z.mod_pos_bound e 86400000 ltac:(lia)) as B4.
  destruct (e / 1000 <? 60) eqn:C1.
  { apply Z.ltb_lt in C1.
    exists (e / 1000), " giây trước", 1000.
    split; [simpl; auto|]. split; [reflexivity|]. lia. }
  apply Z.ltb_ge in C1.
  destruct (e / 60000 <? 60) eqn:C2.
  { apply Z.ltb_lt in C2.
    exists (e / 60000), " phút trước", 60000.
    split; [simpl; auto|]. split; [reflexivity|]. lia. }
  apply Z.ltb_ge in C2.
  destruct (e / 3600000 <? 24) eqn:C3.
  { apply Z.ltb_lt in C3.
    exists (e / 3600000), " giờ trước", 3600000.
    split; [simpl; auto|]. split; [reflexivity|]. lia. }
  apply Z.ltb_ge in C3.
  exists (e / 86400000), " ngày trước", 86400000.
  split; [simpl; auto 6|]. split; [reflexivity|]. lia.
Qed.

(** X15: for a date in the future [getTimeAgo] answers a negative number
    of seconds, however far ahead the date lies: the text starts with a
    minus sign and ends with the word for seconds. *)
Theorem getTimeAgo_future (now date : Z) :
  now < date ->
  exists n digits,
    n < 0 /\
    n * 1000 <= now - date < (n + 1) * 1000 /\
    getTimeAgo now date = String "-"%char digits ++ " giây trước".
Proof.
  intros Hlt. unfold getTimeAgo.
  pose proof (Z.div_mod (now - date) 1000 ltac:(lia)) as D1.
  pose proof (Z.mod_pos_bound (now - date) 1000 ltac:(lia)) as B1.
  assert (Hneg : (now - date) / 1000 < 0) by lia.
  destruct (show_Z_negative _ Hneg) as (digits & Hd).
  exists ((now - date) / 1000), digits.
  split; [exact Hneg|]. split; [lia|].
  replace ((now - date) / 1000 <? 60) with true
    by (symmetry; apply Z.ltb_lt; lia).
  rewrite Hd. reflexivity.
Qed.

Lemma getTimeAgo_future_witness :
  exists n digits,
    n < 0 /\
    n * 1000 <= 0 - 3 * 86400000 < (n + 1) * 1000 /\
    getTimeAgo 0 (3 * 86400000) = String "-"%char digits ++ " giây trước".
Proof.
  apply getTimeAgo_future. lia.
Defined.

Example getTimeAgo_three_days_ahead :
  getTimeAgo 0 (3 * 86400000) = "-259200 giây trước".
Proof. vm_compute. reflexivity. Qed.

(** ** The revenue controller: recent activities *)

Lemma insert_newest_perm (b : Booking) (l : list Booking) :
  Permutation (insert_newest b l) (b :: l).
Proof.
  induction l as [|x r IH]; simpl.
  - apply Permutation_refl.
  - destruct (createdAt x <=? createdAt b).
    + apply Permutation_refl.
    + eapply Permutation_trans; [apply perm_skip, IH|apply perm_swap].
Qed.

Lemma sort_newest_perm (l : list Booking) : Permutation (sort_newest l) l.
Proof.
  induction l as [|x r IH]; simpl.
  - apply perm_nil.
  - eapply Permutation_trans; [apply insert_newest_perm|].
    apply perm_skip, IH.
Qed.

Lemma sort_newest_sorted (l : list Booking) :
  StronglySorted (fun a b => createdAt b <= createdAt a) (sort_newest l).
Proof.
  induction l as [|b r IH]; simpl; [constructor|].
  revert IH. generalize (sort_newest r) as s. clear r.
  induction s as [|x r IHs]; simpl; intros Hs.
  - constructor; constructor.
  - apply StronglySorted_inv in Hs. destruct Hs as [Hr Hx].
    destruct (createdAt x <=? createdAt b) eqn:E.
    + apply Z.leb_le in E.
      constructor; [constructor; assumption|].
      constructor; [exact E|].
      rewrite Forall_forall in *. intros y Hy. specialize (Hx y Hy). lia.
    + apply Z.leb_gt in E.
      constructor; [apply IHs, Hr|].
      rewrite Forall_forall in *. intros y Hy.
      apply (Permutation_in _ (insert_newest_perm b r)) in Hy.
      destruct Hy as [<- | Hy]; [lia|exact (Hx y Hy)].
Qed.

Lemma activity_of_shown (now : Z) (st : Store) (b : Booking) :
  (shown_status b = true /\
   exists a, activity_of now (populate st b) = Some a /\
             a_bookingCode a = bookingCode b /\
             a_time a = getTimeAgo now (createdAt b) /\
             In (a_type a, a_icon a)
               [("cancel", "AlertCircle"); ("booking", "Ticket");
                ("pending", "Clock")])
  \/ (shown_status b = false /\ activity_of now (populate st b) = None).
Proof.
  unfold shown_status, activity_of. simpl doc.
  destruct (String.eqb (status b) "cancelled");
    [left; split; [reflexivity|]; eexists; split; [reflexivity|];
     simpl; auto|].
  destruct (String.eqb (status b) "confirmed");
    [left; split; [reflexivity|]; eexists; split; [reflexivity|];
     simpl; auto|].
  destruct (String.eqb (status b) "used");
    [left; split; [reflexivity|]; eexists; split; [reflexivity|];
     simpl; auto|].
  destruct (String.eqb (status b) "pending");
    [left; split; [reflexivity|]; eexists; split; [reflexivity|];
     simpl; auto 6|].
  right. split; reflexivity.
Qed.

Lemma activities_of_bookings (now : Z) (st : Store) (l : list Booking) :
  map a_bookingCode (map_filter (activity_of now) (map (populate st) l))
  = map bookingCode (filter shown_status l) /\
  Forall
    (fun a =>
       In (a_type a, a_icon a)
         [("cancel", "AlertCircle"); ("booking", "Ticket");
          ("pending", "Clock")])
    (map_filter (activity_of now) (map (populate st) l)).
Proof.
  induction l as [|b r [IH1 IH2]]; simpl; [split; [reflexivity|constructor]|].
  destruct (activity_of_shown now st b)
    as [(Hs & a & Ha & Hcode & _ & Hkind) | (Hs & Ha)];
    rewrite Hs, Ha; simpl.
  - rewrite Hcode, IH1. split; [reflexivity|]. constructor; assumption.
  - split; assumption.
Qed.

Lemma limit_docs_length {A : Type} (n : Z) (l : list A) :
  n <> 0 -> Z.of_nat (List.length (limit_docs n l)) <= Z.abs n.
Proof.
  intros Hn. unfold limit_docs.
  destruct (n =? 0) eqn:E; [apply Z.eqb_eq in E; contradiction|].
  pose proof (firstn_le_length (Z.to_nat (Z.abs n)) l). lia.
Qed.

Lemma map_filter_length {A B : Type} (f : A -> option B) (l : list A) :
  (List.length (map_filter f l) <= List.length l)%nat.
Proof.
  induction l as [|x r IH]; simpl; [lia|].
  destruct (f x); simpl; lia.
Qed.

(** X16: the recent activities are made from the [limit] newest bookings
    (10 when no limit is given): their booking codes are, newest first,
    the codes of those bookings whose status is cancelled, confirmed,
    used or pending; a booking with any other status gives no activity but
    still counts against the limit, so [count] is the number of entries
    and at most the limit; type and icon of an entry go together. *)
Theorem getRecentActivities_newest_shown (now : Z) (limit : option Z)
  (st : Store) :
  exists recent,
    recent = limit_docs (or_else limit 10) (sort_newest (bookings st)) /\
    StronglySorted (fun a b => createdAt b <= createdAt a) recent /\
    (forall b, In b recent -> In b (bookings st)) /\
    map a_bookingCode (data (getRecentActivities now limit st))
    = map bookingCode (filter shown_status recent) /\
    count (getRecentActivities now limit st)
    = Z.of_nat (List.length (data (getRecentActivities now limit st))) /\
    (or_else limit 10 <> 0 ->
     count (getRecentActivities now limit st) <= Z.abs (or_else limit 10)) /\
    Forall
      (fun a =>
         In (a_type a, a_icon a)
           [("cancel", "AlertCircle"); ("booking", "Ticket");
            ("pending", "Clock")])
      (data (getRecentActivities now limit st)).
Proof.
  eexists. split; [reflexivity|].
  assert (Hsorted : forall n (l : list Booking),
             StronglySorted (fun a b => createdAt b <= createdAt a) l ->
             StronglySorted (fun a b => createdAt b <= createdAt a)
               (firstn n l)).
  { intros n l. revert n. induction l as [|x r IH]; intros n Hl.
    - rewrite firstn_nil. constructor.
    - destruct n; simpl; [constructor|].
      apply StronglySorted_inv in Hl. destruct Hl as [Hr Hx].
      constructor; [apply IH, Hr|].
      rewrite Forall_forall in *. intros y Hy. apply Hx.
      rewrite <- (firstn_skipn n r). apply in_or_app. auto. }
  split.
  { unfold limit_docs. destruct (_ =? 0); [|apply Hsorted];
      apply sort_newest_sorted. }
  split.
  { intros b Hb. apply (Permutation_in _ (sort_newest_perm (bookings st))).
    unfold limit_docs in Hb. destruct (_ =? 0); [exact Hb|].
    rewrite <- (firstn_skipn (Z.to_nat (Z.abs (or_else limit 10)))
                  (sort_newest (bookings st))).
    apply in_or_app. auto. }
  unfold getRecentActivities, listed. simpl count. simpl data.
  destruct (activities_of_bookings now st
              (limit_docs (or_else limit 10) (sort_newest (bookings st))))
    as [Hcodes Hkinds].
  split; [exact Hcodes|]. split; [reflexivity|]. split; [|exact Hkinds].
  intros Hn.
  pose proof (map_filter_length (activity_of now)
                (map (populate st)
                   (limit_docs (or_else limit 10)
                      (sort_newest (bookings st))))) as Hlen.
  rewrite length_map in Hlen.
  pose proof (limit_docs_length (or_else limit 10)
                (sort_newest (bookings st)) Hn).
  lia.
Qed.

Example getRecentActivities_limit_before_status :
  map a_bookingCode (data (getRecentActivities 20000 (Some 2) sample))
  = ["BK4"] /\
  map a_bookingCode (data (getRecentActivities 20000 None sample))
  = ["BK4"; "BK3"; "BK2"; "BK1"].
Proof. split; vm_compute; reflexivity. Qed.
(** ** The revenue controller: aggregation *)

Lemma sum_of_nil {A : Type} (f : A -> Z) : sum_of f [] = 0.
Proof. reflexivity. Qed.

Lemma sum_of_cons {A : Type} (f : A -> Z) (x : A) (l : list A) :
  sum_of f (x :: l) = f x + sum_of f l.
Proof. reflexivity. Qed.

Lemma sum_of_app {A : Type} (f : A -> Z) (l1 l2 : list A) :
  sum_of f (l1 ++ l2)%list = sum_of f l1 + sum_of f l2.
Proof.
  unfold sum_of. induction l1 as [|x r IH]; simpl; [reflexivity|].
  rewrite IH. lia.
Qed.

Lemma sum_of_flat_map {A B : Type} (f : B -> Z) (h : A -> list B)
  (l : list A) :
  sum_of f (flat_map h l) = sum_of (fun x => sum_of f (h x)) l.
Proof.
  induction l as [|x r IH]; simpl; [reflexivity|].
  rewrite sum_of_app, IH. reflexivity.
Qed.

Lemma sum_of_perm {A : Type} (f : A -> Z) (l l' : list A) :
  Permutation l l' -> sum_of f l = sum_of f l'.
Proof.
  unfold sum_of. induction 1; simpl; lia.
Qed.

Lemma sum_of_ext {A : Type} (f g : A -> Z) (l : list A) :
  (forall x, In x l -> f x = g x) -> sum_of f l = sum_of g l.
Proof.
  unfold sum_of. induction l as [|x r IH]; simpl; intros H; [reflexivity|].
  rewrite (H x) by auto. rewrite IH by auto. reflexivity.
Qed.

Lemma sum_of_filter {A : Type} (f : A -> Z) (q : A -> bool) (l : list A) :
  sum_of (fun x => if q x then f x else 0) l = sum_of f (filter q l).
Proof.
  unfold sum_of. induction l as [|x r IH]; simpl; [reflexivity|].
  destruct (q x); simpl; lia.
Qed.

Lemma filter_filter {A : Type} (p q : A -> bool) (l : list A) :
  filter q (filter p l) = filter (fun x => p x && q x) l.
Proof.
  induction l as [|x r IH]; simpl; [reflexivity|].
  destruct (p x); simpl; [destruct (q x)|]; rewrite ?IH; reflexivity.
Qed.

Lemma fold_left_sum {A : Type} (f : A -> Z) (l : list A) (acc : Z) :
  fold_left (fun sum x => sum + f x) l acc = acc + sum_of f l.
Proof.
  unfold sum_of. revert acc. induction l as [|x r IH]; intros acc; simpl.
  - lia.
  - rewrite IH. lia.
Qed.

Lemma sum_of_map {A B : Type} (f : B -> Z) (h : A -> B) (l : list A) :
  sum_of f (map h l) = sum_of (fun x => f (h x)) l.
Proof.
  unfold sum_of. induction l as [|x r IH]; simpl; [reflexivity|].
  rewrite IH. reflexivity.
Qed.

Lemma sum_of_ones {A : Type} (l : list A) :
  sum_of (fun _ => 1) l = Z.of_nat (List.length l).
Proof.
  unfold sum_of. induction l as [|x r IH]; [reflexivity|].
  cbn [fold_right List.length]. rewrite IH. lia.
Qed.

Lemma insert_richest_perm (g : Group) (l : list Group) :
  Permutation (insert_richest g l) (g :: l).
Proof.
  induction l as [|x r IH]; simpl.
  - apply Permutation_refl.
  - destruct (totalRevenue x <=? totalRevenue g).
    + apply Permutation_refl.
    + eapply Permutation_trans; [apply perm_skip, IH|apply perm_swap].
Qed.

Lemma sort_richest_perm (l : list Group) : Permutation (sort_richest l) l.
Proof.
  induction l as [|x r IH]; simpl.
  - apply perm_nil.
  - eapply Permutation_trans; [apply insert_richest_perm|].
    apply perm_skip, IH.
Qed.

Lemma sort_richest_sorted (l : list Group) :
  StronglySorted (fun a b => totalRevenue b <= totalRevenue a)
    (sort_richest l).
Proof.
  induction l as [|g r IH]; simpl; [constructor|].
  revert IH. generalize (sort_richest r) as s. clear r.
  induction s as [|x r IHs]; simpl; intros Hs.
  - constructor; constructor.
  - apply StronglySorted_inv in Hs. destruct Hs as [Hr Hx].
    destruct (totalRevenue x <=? totalRevenue g) eqn:E.
    + apply Z.leb_le in E.
      constructor; [constructor; assumption|].
      constructor; [exact E|].
      rewrite Forall_forall in *. intros y Hy. specialize (Hx y Hy). lia.
    + apply Z.leb_gt in E.
      constructor; [apply IHs, Hr|].
      rewrite Forall_forall in *. intros y Hy.
      apply (Permutation_in _ (insert_richest_perm g r)) in Hy.
      destruct Hy as [<- | Hy]; [lia|exact (Hx y Hy)].
Qed.

Section Measure.

(** A sum of the group stage with the quantity of a booking it adds up. *)
Variable fg : Group -> Z.
Variable fb : Booking -> Z.
Hypothesis fg_first : forall k b, fg (group_of k b) = fb b.
Hypothesis fg_next : forall g b, fg (accumulate g b) = fg g + fb b.

Variable P : ObjectId -> bool.

Lemma add_to_groups_sum (k : ObjectId) (b : Booking) (gs : list Group) :
  sum_of (fun g => if P (g_id g) then fg g else 0) (add_to_groups k b gs)
  = sum_of (fun g => if P (g_id g) then fg g else 0) gs
    + (if P k then fb b else 0).
Proof.
  unfold sum_of. induction gs as [|g r IH]; simpl.
  - rewrite fg_first. destruct (P k); lia.
  - destruct (Nat.eqb (g_id g) k) eqn:E; simpl.
    + apply Nat.eqb_eq in E. rewrite fg_next, E. destruct (P k); lia.
    + rewrite IH. lia.
Qed.

Lemma group_by_sum (key : Booking -> ObjectId) (l : list Booking) :
  sum_of (fun g => if P (g_id g) then fg g else 0) (group_by key l)
  = sum_of (fun b => if P (key b) then fb b else 0) l.
Proof.
  unfold group_by.
  assert (H : forall gs,
             sum_of (fun g => if P (g_id g) then fg g else 0)
               (fold_left (fun gs b => add_to_groups (key b) b gs) l gs)
             = sum_of (fun g => if P (g_id g) then fg g else 0) gs
               + sum_of (fun b => if P (key b) then fb b else 0) l).
  { induction l as [|b r IH]; intros gs; simpl fold_left.
    - rewrite (sum_of_nil (A := Booking)). lia.
    - rewrite IH, add_to_groups_sum, (sum_of_cons (A := Booking)). lia. }
  rewrite H, (sum_of_nil (A := Group)). reflexivity.
Qed.

End Measure.

Lemma filter_by_id_unique {A : Type} (f : A -> ObjectId) (k : ObjectId)
  (l : list A) :
  NoDup (map f l) ->
  (existsb (fun c => Nat.eqb (f c) k) l = false /\
   filter (fun c => Nat.eqb (f c) k) l = [])
  \/ (existsb (fun c => Nat.eqb (f c) k) l = true /\
      exists c, filter (fun c => Nat.eqb (f c) k) l = [c] /\ In c l).
Proof.
  induction l as [|x r IH]; simpl; intros Hnd; [left; auto|].
  inversion Hnd as [|? ? Hx Hr]; subst.
  destruct (Nat.eqb (f x) k) eqn:E; simpl.
  - right. split; [reflexivity|]. exists x. split; [|auto].
    apply Nat.eqb_eq in E.
    destruct (IH Hr) as [[_ Hnil] | [_ (c & Hc & Hin)]].
    + rewrite Hnil. reflexivity.
    + exfalso. apply Hx.
      assert (Hfc : In c (filter (fun c => Nat.eqb (f c) k) r))
        by (rewrite Hc; left; reflexivity).
      apply filter_In in Hfc. destruct Hfc as [_ Hk].
      apply Nat.eqb_eq in Hk. rewrite E, <- Hk. apply in_map. exact Hin.
  - destruct (IH Hr) as [[H1 H2] | [H1 (c & Hc & Hin)]].
    + left. auto.
    + right. split; [exact H1|]. exists c. auto.
Qed.
Lemma add_to_groups_ids (k : ObjectId) (b : Booking) (gs : list Group) :
  map g_id (add_to_groups k b gs)
  = if existsb (fun g => Nat.eqb (g_id g) k) gs then map g_id gs
    else (map g_id gs ++ [k])%list.
Proof.
  induction gs as [|g r IH]; simpl; [reflexivity|].
  destruct (Nat.eqb (g_id g) k) eqn:E; simpl; [reflexivity|].
  rewrite IH. destruct (existsb _ r); reflexivity.
Qed.

Lemma existsb_id_In (k : ObjectId) (gs : list Group) :
  existsb (fun g => Nat.eqb (g_id g) k) gs = true <-> In k (map g_id gs).
Proof.
  rewrite existsb_exists, in_map_iff. split.
  - intros (g & Hin & E). apply Nat.eqb_eq in E. eauto.
  - intros (g & E & Hin). exists g. rewrite E, Nat.eqb_refl. auto.
Qed.

Lemma add_to_groups_nodup (k : ObjectId) (b : Booking) (gs : list Group) :
  NoDup (map g_id gs) -> NoDup (map g_id (add_to_groups k b gs)).
Proof.
  intros Hnd. rewrite add_to_groups_ids.
  destruct (existsb _ gs) eqn:E; [exact Hnd|].
  apply NoDup_app; [exact Hnd|constructor; [intros []|constructor]|].
  intros x Hx [<- | []].
  apply existsb_id_In in Hx. congruence.
Qed.

Lemma add_to_groups_In (k k' : ObjectId) (b : Booking) (gs : list Group) :
  In k' (map g_id (add_to_groups k b gs)) <-> k' = k \/ In k' (map g_id gs).
Proof.
  rewrite add_to_groups_ids. destruct (existsb _ gs) eqn:E.
  - apply existsb_id_In in E. split; [auto|]. intros [-> | H]; assumption.
  - rewrite in_app_iff. simpl. intuition.
Qed.

Lemma add_to_groups_booked (k : ObjectId) (b : Booking) (gs : list Group) :
  Forall (fun g => 1 <= totalBookings g) gs ->
  Forall (fun g => 1 <= totalBookings g) (add_to_groups k b gs).
Proof.
  induction 1 as [|g r Hg Hr IH]; simpl.
  - constructor; [simpl; lia|constructor].
  - destruct (Nat.eqb (g_id g) k); constructor; simpl; try assumption; lia.
Qed.

Lemma group_by_invariants (key : Booking -> ObjectId) (l : list Booking) :
  NoDup (map g_id (group_by key l)) /\
  Forall (fun g => 1 <= totalBookings g) (group_by key l) /\
  (forall k, In k (map g_id (group_by key l)) <->
             exists b, In b l /\ key b = k).
Proof.
  unfold group_by.
  assert (H : forall gs,
             NoDup (map g_id gs) ->
             Forall (fun g => 1 <= totalBookings g) gs ->
             NoDup (map g_id
                      (fold_left (fun gs b => add_to_groups (key b) b gs)
                         l gs)) /\
             Forall (fun g => 1 <= totalBookings g)
               (fold_left (fun gs b => add_to_groups (key b) b gs) l gs) /\
             (forall k,
                 In k (map g_id
                         (fold_left (fun gs b => add_to_groups (key b) b gs)
                            l gs)) <->
                 In k (map g_id gs) \/ exists b, In b l /\ key b = k)).
  { induction l as [|b r IH]; intros gs Hnd Hb; simpl fold_left.
    - split; [exact Hnd|]. split; [exact Hb|].
      intros k. split; [auto|]. intros [Hk | (b & [] & _)]. exact Hk.
    - destruct (IH (add_to_groups (key b) b gs)
                  (add_to_groups_nodup _ _ _ Hnd)
                  (add_to_groups_booked _ _ _ Hb)) as (H1 & H2 & H3).
      split; [exact H1|]. split; [exact H2|].
      intros k. rewrite H3, add_to_groups_In. simpl. split.
      + intros [[-> | Hk] | (b' & Hin & Hk)]; eauto.
      + intros [Hk | (b' & [<- | Hin] & Hk)]; eauto. }
  destruct (H [] (NoDup_nil _) (Forall_nil _)) as (H1 & H2 & H3).
  split; [exact H1|]. split; [exact H2|].
  intros k. rewrite H3. simpl. split; [intros [[] | Hk]; exact Hk|auto].
Qed.

Lemma sum_of_single (fg : Group -> Z) (gs : list Group) (g : Group) :
  NoDup (map g_id gs) -> In g gs ->
  sum_of (fun g' => if Nat.eqb (g_id g) (g_id g') then fg g' else 0) gs
  = fg g.
Proof.
  induction gs as [|x r IH]; intros Hnd Hin; [destruct Hin|].
  simpl in Hnd. inversion Hnd as [|? ? Hx Hr]; subst. rewrite sum_of_cons.
  destruct Hin as [-> | Hin].
  - rewrite Nat.eqb_refl.
    rewrite (sum_of_ext _ (fun _ => 0)).
    + assert (Hz : forall l : list Group, sum_of (fun _ => 0) l = 0)
        by (induction l; [reflexivity|rewrite sum_of_cons; lia]).
      rewrite Hz. lia.
    + intros y Hy. destruct (Nat.eqb (g_id g) (g_id y)) eqn:E; [|reflexivity].
      apply Nat.eqb_eq in E. exfalso. apply Hx. rewrite E.
      apply in_map. exact Hy.
  - destruct (Nat.eqb (g_id g) (g_id x)) eqn:E.
    + apply Nat.eqb_eq in E. exfalso. apply Hx. rewrite <- E.
      apply in_map. exact Hin.
    + rewrite IH by assumption. lia.
Qed.

(** The sums of a group are the sums over the bookings with its key. *)
Lemma group_by_totals (key : Booking -> ObjectId) (l : list Booking)
  (g : Group) :
  In g (group_by key l) ->
  totalRevenue g
  = sum_of finalAmount (filter (fun b => Nat.eqb (g_id g) (key b)) l) /\
  totalBookings g
  = Z.of_nat
      (List.length (filter (fun b => Nat.eqb (g_id g) (key b)) l)) /\
  totalTickets g
  = sum_of tickets (filter (fun b => Nat.eqb (g_id g) (key b)) l).
Proof.
  intros Hin.
  destruct (group_by_invariants key l) as (Hnd & _ & _).
  split; [|split].
  - rewrite <- (sum_of_single totalRevenue _ g Hnd Hin).
    rewrite (group_by_sum totalRevenue finalAmount) by reflexivity.
    apply sum_of_filter.
  - rewrite <- (sum_of_single totalBookings _ g Hnd Hin).
    rewrite (group_by_sum totalBookings (fun _ => 1)) by reflexivity.
    rewrite sum_of_filter. apply sum_of_ones.
  - rewrite <- (sum_of_single totalTickets _ g Hnd Hin).
    rewrite (group_by_sum totalTickets tickets) by reflexivity.
    apply sum_of_filter.
Qed.

Lemma StronglySorted_app_intro {A : Type} (R : A -> A -> Prop)
  (l1 l2 : list A) :
  StronglySorted R l1 -> StronglySorted R l2 ->
  (forall a b, In a l1 -> In b l2 -> R a b) ->
  StronglySorted R (l1 ++ l2)%list.
Proof.
  induction 1 as [|x r Hr IH Hx]; simpl; intros H2 Hcross; [exact H2|].
  constructor.
  - apply IH; [exact H2|]. intros a b Ha Hb. apply Hcross; simpl; auto.
  - apply Forall_app. split; [exact Hx|].
    rewrite Forall_forall. intros b Hb. apply Hcross; simpl; auto.
Qed.

Lemma StronglySorted_firstn {A : Type} (R : A -> A -> Prop) (n : nat)
  (l : list A) :
  StronglySorted R l -> StronglySorted R (firstn n l).
Proof.
  revert n. induction l as [|x r IH]; intros n Hl.
  - rewrite firstn_nil. constructor.
  - destruct n; simpl; [constructor|].
    apply StronglySorted_inv in Hl. destruct Hl as [Hr Hx].
    constructor; [apply IH, Hr|].
    rewrite Forall_forall in *. intros y Hy. apply Hx.
    rewrite <- (firstn_skipn n r). apply in_or_app. auto.
Qed.
Lemma StronglySorted_app_cross {A : Type} (R : A -> A -> Prop)
  (l1 l2 : list A) (a b : A) :
  StronglySorted R (l1 ++ l2)%list -> In a l1 -> In b l2 -> R a b.
Proof.
  induction l1 as [|x r IH]; simpl; intros Hs Ha Hb; [contradiction|].
  apply StronglySorted_inv in Hs. destruct Hs as [Hr Hx].
  destruct Ha as [-> | Ha]; [|apply IH; assumption].
  rewrite Forall_forall in Hx. apply Hx. apply in_or_app. auto.
Qed.

Lemma NoDup_firstn {A : Type} (n : nat) (l : list A) :
  NoDup l -> NoDup (firstn n l).
Proof.
  intros H. rewrite <- (firstn_skipn n l) in H.
  apply NoDup_app_remove_r in H. exact H.
Qed.

Section Rows.

(** The join of the groups with a collection, one kind of row at a
    time. *)
Variable Row : Type.
Variable rows : Group -> list Row.
Variable rid : Row -> ObjectId.
Variable rev : Row -> Z.
Hypothesis rows_id : forall g row, In row (rows g) -> rid row = g_id g.
Hypothesis rows_rev : forall g row, In row (rows g) -> rev row = totalRevenue g.

Lemma flat_rows_sorted (gs : list Group) :
  StronglySorted (fun a b => totalRevenue b <= totalRevenue a) gs ->
  StronglySorted (fun a b => rev b <= rev a) (flat_map rows gs).
Proof.
  induction 1 as [|g r Hr IH Hg]; simpl; [constructor|].
  apply StronglySorted_app_intro; [|exact IH|].
  - assert (Hsame : forall l : list Row,
               (forall a, In a l -> rev a = totalRevenue g) ->
               StronglySorted (fun a b => rev b <= rev a) l).
    { induction l as [|a l IHl]; intros Hl; constructor.
      - apply IHl. intros x Hx. apply Hl. simpl. auto.
      - rewrite Forall_forall. intros x Hx.
        rewrite (Hl a), (Hl x) by (simpl; auto). lia. }
    apply Hsame. intros a Ha. apply (rows_rev g a Ha).
  - intros a b Ha Hb. apply in_flat_map in Hb. destruct Hb as (g' & Hg' & Hb).
    rewrite (rows_rev g a Ha), (rows_rev g' b Hb).
    rewrite Forall_forall in Hg. apply Hg. exact Hg'.
Qed.

Lemma flat_rows_ids (gs : list Group) (k : ObjectId) :
  In k (map rid (flat_map rows gs)) -> In k (map g_id gs).
Proof.
  rewrite !in_map_iff. intros (row & <- & Hrow).
  apply in_flat_map in Hrow. destruct Hrow as (g & Hg & Hrow).
  exists g. split; [symmetry; apply rows_id; exact Hrow|exact Hg].
Qed.

Hypothesis rows_one : forall g, (List.length (rows g) <= 1)%nat.

Lemma flat_rows_nodup (gs : list Group) :
  NoDup (map g_id gs) -> NoDup (map rid (flat_map rows gs)).
Proof.
  induction gs as [|g r IH]; simpl; intros Hnd; [constructor|].
  inversion Hnd as [|? ? Hg Hr]; subst.
  rewrite map_app. apply NoDup_app.
  - pose proof (rows_one g) as H1.
    destruct (rows g) as [|a [|b l]]; simpl in *; try lia.
    + constructor.
    + constructor; [intros []|constructor].
  - apply IH, Hr.
  - intros k Hk Hk'. apply flat_rows_ids in Hk'. apply Hg.
    apply in_map_iff in Hk. destruct Hk as (row & <- & Hrow).
    rewrite (rows_id g row Hrow) in Hk'. exact Hk'.
Qed.

Lemma flat_rows_length (gs : list Group) :
  (List.length (flat_map rows gs) <= List.length gs)%nat.
Proof.
  induction gs as [|g r IH]; simpl; [lia|].
  rewrite length_app. pose proof (rows_one g). lia.
Qed.

End Rows.

Lemma cinema_rows_In (cs : list CinemaDoc) (g : Group) (row : CinemaRow) :
  In row (cinema_rows cs g) <->
  exists c,
    In c cs /\ cinemadoc_id c = g_id g /\
    row = mkCinemaRow (g_id g) (g_id g) (name c) (location c)
            (totalRevenue g) (totalBookings g) (totalTickets g).
Proof.
  unfold cinema_rows. rewrite in_map_iff. split.
  - intros (c & <- & Hc). apply filter_In in Hc. destruct Hc as [Hin E].
    apply Nat.eqb_eq in E. exists c. auto.
  - intros (c & Hin & E & ->). exists c. split; [reflexivity|].
    apply filter_In. split; [exact Hin|]. apply Nat.eqb_eq. exact E.
Qed.

Lemma movie_rows_In (ms : list MovieDoc) (g : Group) (row : MovieRow) :
  In row (movie_rows ms g) <->
  exists m,
    In m ms /\ moviedoc_id m = g_id g /\
    row = mkMovieRow (g_id g) (g_id g) (title m) (poster m)
            (totalRevenue g) (totalBookings g) (totalTickets g)
            (totalRevenue g, totalBookings g).
Proof.
  unfold movie_rows. rewrite in_map_iff. split.
  - intros (m & <- & Hm). apply filter_In in Hm. destruct Hm as [Hin E].
    apply Nat.eqb_eq in E. exists m. auto.
  - intros (m & Hin & E & ->). exists m. split; [reflexivity|].
    apply filter_In. split; [exact Hin|]. apply Nat.eqb_eq. exact E.
Qed.

Lemma cinema_rows_one (cs : list CinemaDoc) (g : Group) :
  NoDup (map cinemadoc_id cs) -> (List.length (cinema_rows cs g) <= 1)%nat.
Proof.
  intros Hnd. unfold cinema_rows. rewrite length_map.
  destruct (filter_by_id_unique cinemadoc_id (g_id g) cs Hnd)
    as [[_ ->] | [_ (c & -> & _)]]; simpl; lia.
Qed.

Lemma movie_rows_one (ms : list MovieDoc) (g : Group) :
  NoDup (map moviedoc_id ms) -> (List.length (movie_rows ms g) <= 1)%nat.
Proof.
  intros Hnd. unfold movie_rows. rewrite length_map.
  destruct (filter_by_id_unique moviedoc_id (g_id g) ms Hnd)
    as [[_ ->] | [_ (m & -> & _)]]; simpl; lia.
Qed.

Lemma cinema_rows_sums (cs : list CinemaDoc) (g : Group) :
  NoDup (map cinemadoc_id cs) ->
  let here := existsb (fun c => Nat.eqb (cinemadoc_id c) (g_id g)) cs in
  sum_of cr_totalRevenue (cinema_rows cs g)
  = (if here then totalRevenue g else 0) /\
  sum_of cr_totalBookings (cinema_rows cs g)
  = (if here then totalBookings g else 0) /\
  sum_of cr_totalTickets (cinema_rows cs g)
  = (if here then totalTickets g else 0).
Proof.
  intros Hnd here. unfold cinema_rows, here.
  destruct (filter_by_id_unique cinemadoc_id (g_id g) cs Hnd)
    as [[-> ->] | [-> (c & -> & _)]]; simpl; unfold sum_of; simpl;
    repeat split; lia.
Qed.

(** Sums of the rows by cinema, as sums over the bookings. *)
Lemma by_cinema_sums (startDate endDate : option Z) (st : Store) :
  NoDup (map cinemadoc_id (cinemaDocs st)) ->
  let paid :=
    filter (fun b => dated_query startDate endDate b && has_cinema st b)
      (bookings st) in
  sum_of cr_totalRevenue (data (getRevenueByCinema startDate endDate st))
  = sum_of finalAmount paid /\
  sum_of cr_totalBookings (data (getRevenueByCinema startDate endDate st))
  = Z.of_nat (List.length paid) /\
  sum_of cr_totalTickets (data (getRevenueByCinema startDate endDate st))
  = sum_of tickets paid.
Proof.
  intros Hnd paid. unfold getRevenueByCinema, listed. simpl data.
  set (L := filter (dated_query startDate endDate) (bookings st)).
  assert (Hpaid : paid = filter (has_cinema st) L)
    by (unfold paid, L; symmetry; apply filter_filter).
  rewrite !sum_of_flat_map.
  split; [|split].
  - rewrite (sum_of_ext _
               (fun g => if existsb
                              (fun c => Nat.eqb (cinemadoc_id c) (g_id g))
                              (cinemaDocs st)
                         then totalRevenue g else 0))
      by (intros g _; apply (cinema_rows_sums _ g Hnd)).
    rewrite (sum_of_perm _ _ _ (sort_richest_perm _)).
    etransitivity;
      [exact (group_by_sum totalRevenue finalAmount (fun _ _ => eq_refl) (fun _ _ => eq_refl)
                (fun k =>
                   existsb (fun c => Nat.eqb (cinemadoc_id c) k)
                     (cinemaDocs st))
                cinemaId L)|].
    rewrite Hpaid. exact (sum_of_filter finalAmount (has_cinema st) L).
  - rewrite (sum_of_ext _
               (fun g => if existsb
                              (fun c => Nat.eqb (cinemadoc_id c) (g_id g))
                              (cinemaDocs st)
                         then totalBookings g else 0))
      by (intros g _; apply (cinema_rows_sums _ g Hnd)).
    rewrite (sum_of_perm _ _ _ (sort_richest_perm _)).
    etransitivity;
      [exact (group_by_sum totalBookings (fun _ => 1) (fun _ _ => eq_refl) (fun _ _ => eq_refl)
                (fun k =>
                   existsb (fun c => Nat.eqb (cinemadoc_id c) k)
                     (cinemaDocs st))
                cinemaId L)|].
    rewrite Hpaid, <- sum_of_ones.
    exact (sum_of_filter (fun _ => 1) (has_cinema st) L).
  - rewrite (sum_of_ext _
               (fun g => if existsb
                              (fun c => Nat.eqb (cinemadoc_id c) (g_id g))
                              (cinemaDocs st)
                         then totalTickets g else 0))
      by (intros g _; apply (cinema_rows_sums _ g Hnd)).
    rewrite (sum_of_perm _ _ _ (sort_richest_perm _)).
    etransitivity;
      [exact (group_by_sum totalTickets tickets (fun _ _ => eq_refl) (fun _ _ => eq_refl)
                (fun k =>
                   existsb (fun c => Nat.eqb (cinemadoc_id c) k)
                     (cinemaDocs st))
                cinemaId L)|].
    rewrite Hpaid. exact (sum_of_filter tickets (has_cinema st) L).
Qed.
Lemma exportReport_json (dateToString : Z -> string)
  (startDate endDate : option Z) (format : option string) (st : Store) :
  String.eqb (or_else format "json") "csv" = false ->
  exportReport dateToString startDate endDate format st
  = Report
      {| s_totalBookings :=
           Z.of_nat
             (List.length
                (filter (dated_query startDate endDate) (bookings st)));
         s_totalRevenue :=
           sum_of finalAmount
             (filter (dated_query startDate endDate) (bookings st));
         s_totalTickets :=
           sum_of tickets
             (filter (dated_query startDate endDate) (bookings st));
         s_averageBookingValue :=
           div_or_zero
             (sum_of finalAmount
                (filter (dated_query startDate endDate) (bookings st)))
             (Z.of_nat
                (List.length
                   (filter (dated_query startDate endDate) (bookings st))))
      |}
      (map (populate st)
         (sort_newest
            (filter (dated_query startDate endDate) (bookings st)))).
Proof.
  intros Hjson. unfold exportReport. rewrite Hjson.
  set (L := filter (dated_query startDate endDate) (bookings st)).
  assert (Hrev : fold_left (fun sum b => sum + finalAmount (doc b))
                   (map (populate st) (sort_newest L)) 0
                 = sum_of finalAmount L).
  { rewrite (fold_left_sum (fun b => finalAmount (doc b))), sum_of_map.
    simpl. rewrite (sum_of_perm _ _ _ (sort_newest_perm L)). reflexivity. }
  assert (Htic : fold_left
                   (fun sum b => sum + Z.of_nat (List.length (seats (doc b))))
                   (map (populate st) (sort_newest L)) 0
                 = sum_of tickets L).
  { rewrite (fold_left_sum
               (fun b => Z.of_nat (List.length (seats (doc b))))),
      sum_of_map.
    simpl. rewrite (sum_of_perm _ _ _ (sort_newest_perm L)). reflexivity. }
  assert (Hlen : List.length (map (populate st) (sort_newest L))
                 = List.length L).
  { rewrite length_map. apply Permutation_length, sort_newest_perm. }
  rewrite Hrev, Htic, Hlen. reflexivity.
Qed.

(** X17: the revenue by cinema adds up.  With unique cinema identifiers,
    the rows of [getRevenueByCinema] sum to the revenue, the number and
    the tickets of the completed bookings of the period whose cinema
    exists; when every such booking has its cinema, these are the totals
    of the summary that [exportReport] gives for the same period. *)
Theorem revenue_by_cinema_adds_up (dateToString : Z -> string)
  (startDate endDate : option Z) (format : option string) (st : Store) :
  NoDup (map cinemadoc_id (cinemaDocs st)) ->
  String.eqb (or_else format "json") "csv" = false ->
  (sum_of cr_totalRevenue (data (getRevenueByCinema startDate endDate st))
   = sum_of finalAmount
       (filter (fun b => dated_query startDate endDate b && has_cinema st b)
          (bookings st)) /\
   sum_of cr_totalBookings (data (getRevenueByCinema startDate endDate st))
   = Z.of_nat
       (List.length
          (filter
             (fun b => dated_query startDate endDate b && has_cinema st b)
             (bookings st))) /\
   sum_of cr_totalTickets (data (getRevenueByCinema startDate endDate st))
   = sum_of tickets
       (filter (fun b => dated_query startDate endDate b && has_cinema st b)
          (bookings st))) /\
  ((forall b, In b (bookings st) -> dated_query startDate endDate b = true ->
              has_cinema st b = true) ->
   exists summary exported,
     exportReport dateToString startDate endDate format st
     = Report summary exported /\
     s_totalRevenue summary
     = sum_of cr_totalRevenue (data (getRevenueByCinema startDate endDate st))
     /\
     s_totalBookings summary
     = sum_of cr_totalBookings
         (data (getRevenueByCinema startDate endDate st)) /\
     s_totalTickets summary
     = sum_of cr_totalTickets
         (data (getRevenueByCinema startDate endDate st))).
Proof.
  intros Hnd Hjson.
  pose proof (by_cinema_sums startDate endDate st Hnd) as Hsums.
  cbv zeta in Hsums. split; [exact Hsums|].
  intros Hall. destruct Hsums as (H1 & H2 & H3).
  rewrite (exportReport_json dateToString _ _ _ _ Hjson).
  do 2 eexists. split; [reflexivity|].
  cbn [s_totalRevenue s_totalBookings s_totalTickets].
  assert (Hsame : filter
                    (fun b => dated_query startDate endDate b
                              && has_cinema st b) (bookings st)
                  = filter (dated_query startDate endDate) (bookings st)).
  { apply filter_ext_in. intros b Hb.
    destruct (dated_query startDate endDate b) eqn:E; [|reflexivity].
    rewrite (Hall b Hb E). reflexivity. }
  rewrite H1, H2, H3, Hsame. auto.
Qed.

Lemma revenue_by_cinema_adds_up_witness :
  sum_of cr_totalRevenue (data (getRevenueByCinema None None sample))
  = 540000 /\
  exists summary exported,
    exportReport (fun _ => "") None None None sample
    = Report summary exported /\
    s_totalRevenue summary = 540000.
Proof.
  assert (Hnd : NoDup (map cinemadoc_id (cinemaDocs sample))).
  { simpl. repeat constructor; simpl; intuition discriminate. }
  destruct (revenue_by_cinema_adds_up (fun _ => "") None None None sample
              Hnd eq_refl) as ((H1 & _) & H2).
  split; [rewrite H1; reflexivity|].
  destruct H2 as (summary & exported & Heq & Hrev & _).
  - intros b Hb _.
    simpl in Hb. intuition (subst; reflexivity).
  - exists summary, exported. split; [exact Heq|].
    rewrite Hrev, H1. reflexivity.
Defined.

(** X18: the answer of [getRevenueByCinema] has one row for each cinema
    that exists and has a completed booking in the period.  With unique
    cinema identifiers no cinema has two rows; the rows are in descending
    order of revenue; every row carries the name and location of its
    cinema and the revenue, number (at least one) and tickets of the
    completed bookings of the period in that cinema. *)
Theorem getRevenueByCinema_rows (startDate endDate : option Z) (st : Store) :
  NoDup (map cinemadoc_id (cinemaDocs st)) ->
  let paid := filter (dated_query startDate endDate) (bookings st) in
  let answer := getRevenueByCinema startDate endDate st in
  count answer = Z.of_nat (List.length (data answer)) /\
  NoDup (map cr_cinemaId (data answer)) /\
  StronglySorted (fun a b => cr_totalRevenue b <= cr_totalRevenue a)
    (data answer) /\
  (forall row,
      In row (data answer) ->
      cr_id row = cr_cinemaId row /\
      (exists c,
          In c (cinemaDocs st) /\ cinemadoc_id c = cr_cinemaId row /\
          cr_name row = name c /\ cr_location row = location c) /\
      cr_totalRevenue row
      = sum_of finalAmount
          (filter (fun b => Nat.eqb (cr_cinemaId row) (cinemaId b)) paid) /\
      cr_totalBookings row
      = Z.of_nat
          (List.length
             (filter (fun b => Nat.eqb (cr_cinemaId row) (cinemaId b)) paid))
      /\
      1 <= cr_totalBookings row /\
      cr_totalTickets row
      = sum_of tickets
          (filter (fun b => Nat.eqb (cr_cinemaId row) (cinemaId b)) paid)) /\
  (forall c b,
      In c (cinemaDocs st) -> In b paid -> cinemaId b = cinemadoc_id c ->
      In (cinemadoc_id c) (map cr_cinemaId (data answer))).
Proof.
  intros Hnd paid answer. unfold answer, getRevenueByCinema, listed.
  simpl count. simpl data. fold paid.
  destruct (group_by_invariants cinemaId paid) as (Hids & Hbooked & Hkeys).
  pose proof (sort_richest_perm (group_by cinemaId paid)) as Hperm.
  split; [reflexivity|]. split; [|split; [|split]].
  - apply (flat_rows_nodup CinemaRow (cinema_rows (cinemaDocs st))
             cr_cinemaId).
    + intros g row Hrow. apply cinema_rows_In in Hrow.
      destruct Hrow as (c & _ & _ & ->). reflexivity.
    + intros g. apply cinema_rows_one. exact Hnd.
    + apply (Permutation_NoDup
               (Permutation_map g_id (Permutation_sym Hperm))).
      exact Hids.
  - apply (flat_rows_sorted CinemaRow (cinema_rows (cinemaDocs st))
             cr_totalRevenue).
    + intros g row Hrow. apply cinema_rows_In in Hrow.
      destruct Hrow as (c & _ & _ & ->). reflexivity.
    + apply sort_richest_sorted.
  - intros row Hrow. apply in_flat_map in Hrow.
    destruct Hrow as (g & Hg & Hrow).
    apply cinema_rows_In in Hrow. destruct Hrow as (c & Hc & Hid & ->).
    apply (Permutation_in _ Hperm) in Hg.
    destruct (group_by_totals cinemaId paid g Hg) as (Hr & Hb & Ht).
    simpl. split; [reflexivity|]. split; [exists c; auto|].
    split; [exact Hr|]. split; [exact Hb|]. split; [|exact Ht].
    rewrite Forall_forall in Hbooked. apply Hbooked. exact Hg.
  - intros c b Hc Hb Hk.
    assert (Hin : In (cinemadoc_id c) (map g_id (group_by cinemaId paid)))
      by (apply Hkeys; exists b; auto).
    apply in_map_iff in Hin. destruct Hin as (g & Hgid & Hg).
    apply (Permutation_in _ (Permutation_sym Hperm)) in Hg.
    apply in_map_iff.
    exists (mkCinemaRow (g_id g) (g_id g) (name c) (location c)
              (totalRevenue g) (totalBookings g) (totalTickets g)).
    split; [exact Hgid|].
    apply in_flat_map. exists g. split; [exact Hg|].
    apply cinema_rows_In. exists c. auto.
Qed.

Lemma getRevenueByCinema_rows_witness :
  map (fun row => (cr_name row, cr_totalRevenue row, cr_totalBookings row))
    (data (getRevenueByCinema None None sample))
  = [("Rex", 270000, 2); ("Lux", 270000, 1)] /\
  NoDup (map cr_cinemaId (data (getRevenueByCinema None None sample))).
Proof.
  assert (Hnd : NoDup (map cinemadoc_id (cinemaDocs sample))).
  { simpl. repeat constructor; simpl; intuition discriminate. }
  destruct (getRevenueByCinema_rows None None sample Hnd)
    as (_ & Hrows & _).
  split; [vm_compute; reflexivity|exact Hrows].
Defined.
Lemma getRevenueByMovie_some (startDate endDate limit : option Z)
  (st : Store) :
  0 < or_else limit 10 ->
  getRevenueByMovie startDate endDate limit st
  = Some
      (listed
         (flat_map (movie_rows (movieDocs st))
            (firstn (Z.to_nat (or_else limit 10))
               (sort_richest
                  (group_by movieId
                     (filter (dated_query startDate endDate)
                        (bookings st))))))).
Proof.
  intros Hl. unfold getRevenueByMovie.
  replace (or_else limit 10 <=? 0) with false
    by (symmetry; apply Z.leb_gt; exact Hl).
  reflexivity.
Qed.

(** X19: [getRevenueByMovie] fails on a limit that is not positive and
    otherwise answers with rows in descending order of revenue; every row
    carries the revenue, number (at least one) and tickets of the
    completed bookings of the period for its movie, and its average is
    that revenue over that number, so the division is never by zero; with
    unique movie identifiers there are at most [limit] rows (10 when no
    limit is given) and no movie has two. *)
Theorem getRevenueByMovie_rows (startDate endDate limit : option Z)
  (st : Store) :
  let paid := filter (dated_query startDate endDate) (bookings st) in
  (or_else limit 10 <= 0 ->
   getRevenueByMovie startDate endDate limit st = None) /\
  (0 < or_else limit 10 ->
   exists answer,
     getRevenueByMovie startDate endDate limit st = Some answer /\
     count answer = Z.of_nat (List.length (data answer)) /\
     StronglySorted (fun a b => mr_totalRevenue b <= mr_totalRevenue a)
       (data answer) /\
     (forall row,
         In row (data answer) ->
         mr_id row = mr_movieId row /\
         (exists m,
             In m (movieDocs st) /\ moviedoc_id m = mr_movieId row /\
             mr_title row = title m /\ mr_poster row = poster m) /\
         mr_totalRevenue row
         = sum_of finalAmount
             (filter (fun b => Nat.eqb (mr_movieId row) (movieId b)) paid) /\
         mr_totalBookings row
         = Z.of_nat
             (List.length
                (filter (fun b => Nat.eqb (mr_movieId row) (movieId b)) paid))
         /\
         mr_totalTickets row
         = sum_of tickets
             (filter (fun b => Nat.eqb (mr_movieId row) (movieId b)) paid) /\
         mr_averagePerBooking row = (mr_totalRevenue row, mr_totalBookings row)
         /\ 1 <= mr_totalBookings row) /\
     (NoDup (map moviedoc_id (movieDocs st)) ->
      count answer <= or_else limit 10 /\
      NoDup (map mr_movieId (data answer)))).
Proof.
  intros paid. split.
  { intros Hl. unfold getRevenueByMovie.
    replace (or_else limit 10 <=? 0) with true
      by (symmetry; apply Z.leb_le; exact Hl).
    reflexivity. }
  intros Hl. rewrite (getRevenueByMovie_some _ _ _ _ Hl). fold paid.
  eexists. split; [reflexivity|]. unfold listed. simpl count. simpl data.
  destruct (group_by_invariants movieId paid) as (Hids & Hbooked & Hkeys).
  pose proof (sort_richest_perm (group_by movieId paid)) as Hperm.
  set (top := firstn (Z.to_nat (or_else limit 10))
                (sort_richest (group_by movieId paid))).
  assert (Htop : forall g, In g top -> In g (group_by movieId paid)).
  { intros g Hg. apply (Permutation_in _ Hperm).
    unfold top in Hg.
    rewrite <- (firstn_skipn (Z.to_nat (or_else limit 10))
                  (sort_richest (group_by movieId paid))).
    apply in_or_app. auto. }
  split; [reflexivity|]. split; [|split].
  - apply (flat_rows_sorted MovieRow (movie_rows (movieDocs st))
             mr_totalRevenue).
    + intros g row Hrow. apply movie_rows_In in Hrow.
      destruct Hrow as (m & _ & _ & ->). reflexivity.
    + apply StronglySorted_firstn, sort_richest_sorted.
  - intros row Hrow. apply in_flat_map in Hrow.
    destruct Hrow as (g & Hg & Hrow).
    apply movie_rows_In in Hrow. destruct Hrow as (m & Hm & Hid & ->).
    apply Htop in Hg.
    destruct (group_by_totals movieId paid g Hg) as (Hr & Hb & Ht).
    simpl. split; [reflexivity|]. split; [exists m; auto|].
    split; [exact Hr|]. split; [exact Hb|]. split; [exact Ht|].
    split; [reflexivity|].
    rewrite Forall_forall in Hbooked. apply Hbooked. exact Hg.
  - intros Hnd. split.
    + pose proof (flat_rows_length MovieRow (movie_rows (movieDocs st))
                    (fun g => movie_rows_one _ g Hnd) top) as Hlen.
      pose proof (firstn_le_length (Z.to_nat (or_else limit 10))
                    (sort_richest (group_by movieId paid))) as Hn.
      fold top in Hn. lia.
    + apply (flat_rows_nodup MovieRow (movie_rows (movieDocs st))
               mr_movieId).
      * intros g row Hrow. apply movie_rows_In in Hrow.
        destruct Hrow as (m & _ & _ & ->). reflexivity.
      * intros g. apply movie_rows_one. exact Hnd.
      * unfold top. rewrite <- firstn_map. apply NoDup_firstn.
        apply (Permutation_NoDup
                 (Permutation_map g_id (Permutation_sym Hperm))).
        exact Hids.
Qed.

(** X20: the rows of [getRevenueByMovie] are the top of the ranking.  A
    movie that exists and has a completed booking in the period, yet has
    no row in the answer, has a revenue in the period that is at most the
    revenue of every row. *)
Theorem getRevenueByMovie_top (startDate endDate limit : option Z)
  (st : Store) (answer : Listed MovieRow) (k : ObjectId) (b : Booking)
  (row : MovieRow) :
  getRevenueByMovie startDate endDate limit st = Some answer ->
  has_movie st b = true ->
  In b (bookings st) ->
  dated_query startDate endDate b = true ->
  movieId b = k ->
  ~ In k (map mr_movieId (data answer)) ->
  In row (data answer) ->
  sum_of finalAmount
    (filter (fun b' => Nat.eqb k (movieId b'))
       (filter (dated_query startDate endDate) (bookings st)))
  <= mr_totalRevenue row.
Proof.
  intros Hans Hdoc Hb Hpaid Hk Hout Hrow.
  set (paid := filter (dated_query startDate endDate) (bookings st)).
  destruct (Z.leb_spec (or_else limit 10) 0) as [Hl | Hl].
  { unfold getRevenueByMovie in Hans.
    replace (or_else limit 10 <=? 0) with true in Hans
      by (symmetry; apply Z.leb_le; exact Hl).
    discriminate. }
  rewrite (getRevenueByMovie_some _ _ _ _ Hl) in Hans.
  injection Hans as <-. unfold listed in *. simpl data in *. fold paid in Hout, Hrow.
  destruct (group_by_invariants movieId paid) as (Hids & _ & Hkeys).
  pose proof (sort_richest_perm (group_by movieId paid)) as Hperm.
  pose proof (sort_richest_sorted (group_by movieId paid)) as Hsorted.
  set (sorted := sort_richest (group_by movieId paid)) in *.
  set (n := Z.to_nat (or_else limit 10)) in *.
  assert (Hin : In k (map g_id (group_by movieId paid))).
  { apply Hkeys. exists b. split; [|exact Hk].
    apply filter_In. auto. }
  apply in_map_iff in Hin. destruct Hin as (g & Hgid & Hg).
  destruct (group_by_totals movieId paid g Hg) as (Hr & _ & _).
  rewrite Hgid in Hr. rewrite <- Hr.
  apply (Permutation_in _ (Permutation_sym Hperm)) in Hg. fold sorted in Hg.
  rewrite <- (firstn_skipn n sorted) in Hg, Hsorted.
  apply in_app_or in Hg.
  apply in_flat_map in Hrow. destruct Hrow as (g' & Hg' & Hrow).
  apply movie_rows_In in Hrow. destruct Hrow as (m' & _ & _ & ->). simpl.
  destruct Hg as [Hg | Hg].
  - exfalso. apply Hout.
    unfold has_movie in Hdoc. apply existsb_exists in Hdoc.
    destruct Hdoc as (m & Hm & E). apply Nat.eqb_eq in E.
    apply in_map_iff.
    exists (mkMovieRow (g_id g) (g_id g) (title m) (poster m)
              (totalRevenue g) (totalBookings g) (totalTickets g)
              (totalRevenue g, totalBookings g)).
    split; [exact Hgid|].
    apply in_flat_map. exists g. split; [exact Hg|].
    apply movie_rows_In. exists m. repeat split; [exact Hm|congruence].
  - exact (StronglySorted_app_cross _ _ _ g' g Hsorted Hg' Hg).
Qed.

Lemma getRevenueByMovie_top_witness :
  exists answer row,
    getRevenueByMovie None None (Some 1) sample = Some answer /\
    data answer = [row] /\
    mr_title row = "Doraemon" /\
    sum_of finalAmount
      (filter (fun b' => Nat.eqb 2 (movieId b'))
         (filter (dated_query None None) (bookings sample)))
    <= mr_totalRevenue row.
Proof.
  do 2 eexists. split; [vm_compute; reflexivity|].
  split; [reflexivity|]. split; [reflexivity|].
  eapply (getRevenueByMovie_top None None (Some 1) sample _ 2%nat
           (mkBooking "BK2" 2%nat 2%nat 1%nat 5000 90000 ["B1"] "card"
              "completed" "used")).
  - vm_compute. reflexivity.
  - reflexivity.
  - simpl. auto.
  - reflexivity.
  - reflexivity.
  - simpl. intros [H | []]. discriminate.
  - simpl. left. reflexivity.
Defined.

Lemma dated_query_inverted (a b : Z) (l : list Booking) :
  b < a -> filter (dated_query (Some a) (Some b)) l = [].
Proof.
  intros Hlt. induction l as [|x r IH]; simpl; [reflexivity|].
  rewrite IH. unfold dated_query, cond.
  destruct (String.eqb (paymentStatus x) "completed"); simpl;
    [|reflexivity].
  destruct (a <=? createdAt x) eqn:E1; simpl; [|reflexivity].
  destruct (createdAt x <=? b) eqn:E2; [|reflexivity].
  apply Z.leb_le in E1. apply Z.leb_le in E2. lia.
Qed.

(** X21: a period whose end lies before its start selects nothing: the
    revenue by cinema and by movie have no rows, the report has a summary
    of zeros, with an average of 0 where the division is 0/0, and the CSV
    export is the header line alone. *)
Theorem inverted_period_is_empty (dateToString : Z -> string) (a b : Z)
  (limit : option Z) (format : option string) (st : Store) :
  b < a ->
  getRevenueByCinema (Some a) (Some b) st = mkListed 0 [] /\
  (0 < or_else limit 10 ->
   getRevenueByMovie (Some a) (Some b) limit st = Some (mkListed 0 [])) /\
  exportReport dateToString (Some a) (Some b) format st
  = (if String.eqb (or_else format "json") "csv"
     then Csv "text/csv" "attachment; filename=revenue-report.csv" csvHeader
     else Report (mkSummary 0 0 0 Zero) []).
Proof.
  intros Hlt. split; [|split].
  - unfold getRevenueByCinema. rewrite dated_query_inverted by exact Hlt.
    reflexivity.
  - intros Hl. rewrite getRevenueByMovie_some by exact Hl.
    rewrite dated_query_inverted by exact Hlt.
    simpl. rewrite firstn_nil. reflexivity.
  - unfold exportReport. rewrite dated_query_inverted by exact Hlt.
    destruct (String.eqb (or_else format "json") "csv"); reflexivity.
Qed.

Lemma inverted_period_is_empty_witness :
  exportReport (fun _ => "") (Some 9000) (Some 1000) (Some "csv") sample
  = Csv "text/csv" "attachment; filename=revenue-report.csv" csvHeader /\
  exportReport (fun _ => "") (Some 9000) (Some 1000) None sample
  = Report (mkSummary 0 0 0 Zero) [].
Proof.
  split.
  - apply (inverted_period_is_empty (fun _ => "") 9000 1000 None
             (Some "csv") sample). lia.
  - apply (inverted_period_is_empty (fun _ => "") 9000 1000 None None
             sample). lia.
Defined.
End RevenueFacts.

(** ** The chatbot service *)

Module ChatbotFacts.
Import Chatbot.
Local Open Scope string_scope.

Lemma prefix_append (k s : string) :
  String.prefix k s = true <-> exists b, s = k ++ b.
Proof.
  revert s. induction k as [|a k IH]; intros s.
  - split; [intros _; exists s; reflexivity|].
    intros _. destruct s; reflexivity.
  - destruct s as [|c s]; simpl.
    + split; [discriminate|]. intros (b & Hb). discriminate.
    + destruct (Ascii.ascii_dec a c) as [-> | Hne].
      * rewrite IH. split.
        -- intros (b & ->). exists b. reflexivity.
        -- intros (b & Hb). injection Hb as ->. exists b. reflexivity.
      * split; [discriminate|]. intros (b & Hb). injection Hb as -> _.
        contradiction.
Qed.

(** [includes] finds the key exactly when the text is some text, the key,
    and some text. *)
Lemma includes_substring (s k : string) :
  includes s k = true <-> exists a b, s = a ++ k ++ b.
Proof.
  split.
  - induction s as [|c s IH]; cbn [includes]; rewrite orb_true_iff.
    + intros [H | H]; [|discriminate].
      apply prefix_append in H. destruct H as (b & Hb).
      exists "", b. exact Hb.
    + intros [H | H].
      * apply prefix_append in H. destruct H as (b & Hb).
        exists "", b. exact Hb.
      * destruct (IH H) as (a & b & ->). exists (String c a), b.
        reflexivity.
  - intros (a & b & ->). induction a as [|c a IH];
      cbn [append includes].
    + assert (H : String.prefix k (k ++ b) = true)
        by (apply prefix_append; exists b; reflexivity).
      destruct (k ++ b); cbn [includes]; rewrite H; reflexivity.
    + rewrite IH. apply orb_true_r.
Qed.

(** X22: [analyzeSentiment] asks for human support exactly when the
    message, in lower case, contains one of the frustration keywords, or
    the model answered, its answer holds a text in braces that parses,
    and the parsed answer says so.  A keyword in the message cannot be
    overruled by the model, and a failing model leaves the keywords to
    decide. *)
Theorem analyzeSentiment_human_support
  (toLowerCase : string -> string)
  (generateContent : string -> option string)
  (parseAnalysis : string -> option Analysis) (message : string) :
  truthy
    (needsHumanSupport
       (analyzeSentiment toLowerCase generateContent parseAnalysis message))
  = true
  <->
  (exists keyword a b,
      In keyword frustrationKeywords /\
      toLowerCase message = a ++ keyword ++ b)
  \/
  (exists text jsonMatch analysis,
      generateContent (sentimentPrompt message) = Some text /\
      match_object text = Some jsonMatch /\
      parseAnalysis jsonMatch = Some analysis /\
      truthy (needs_human_support analysis) = true).
Proof.
  assert (Hkey : hasFrustration toLowerCase message = true <->
                 exists keyword a b,
                   In keyword frustrationKeywords /\
                   toLowerCase message = a ++ keyword ++ b).
  { unfold hasFrustration. rewrite existsb_exists. split.
    - intros (k & Hin & Hinc). apply includes_substring in Hinc.
      destruct Hinc as (a & b & Heq). exists k, a, b. auto.
    - intros (k & a & b & Hin & Heq). exists k. split; [exact Hin|].
      apply includes_substring. exists a, b. exact Heq. }
  unfold analyzeSentiment.
  destruct (generateContent (sentimentPrompt message)) as [text|] eqn:Hgen.
  2:{ simpl. rewrite Hkey. split; [auto|].
      intros [H | (t & j & an & Habs & _)]; [exact H|discriminate]. }
  destruct (match_object text) as [jsonMatch|] eqn:Hmatch.
  2:{ simpl. rewrite Hkey. split; [auto|].
      intros [H | (t & j & an & Ht & Habs & _)]; [exact H|].
      injection Ht as <-. congruence. }
  destruct (parseAnalysis jsonMatch) as [analysis|] eqn:Hparse.
  2:{ simpl. rewrite Hkey. split; [auto|].
      intros [H | (t & j & an & Ht & Hj & Habs & _)]; [exact H|].
      injection Ht as <-. rewrite Hmatch in Hj. injection Hj as <-.
      congruence. }
  simpl. unfold js_or.
  destruct (truthy (needs_human_support analysis)) eqn:Hsay.
  - split; [|intros _; exact Hsay].
    intros _. right. exists text, jsonMatch, analysis. auto.
  - simpl. rewrite Hkey. split; [auto|].
    intros [H | (t & j & an & Ht & Hj & Han & Htrue)]; [exact H|].
    injection Ht as <-. rewrite Hmatch in Hj. injection Hj as <-.
    rewrite Hparse in Han. injection Han as <-. congruence.
Qed.

(** X23: [classifyIntent] always answers one of the seven valid intents:
    the trimmed, lower-case answer of the model when that is one of them,
    and [general] when the model fails or answers anything else. *)
Theorem classifyIntent_valid
  (toLowerCase trim : string -> string)
  (generateContent : string -> option string) (message : string) :
  In (classifyIntent toLowerCase trim generateContent message) validIntents
  /\
  (classifyIntent toLowerCase trim generateContent message <> "general" ->
   exists text,
     generateContent (intentPrompt message) = Some text /\
     classifyIntent toLowerCase trim generateContent message
     = toLowerCase (trim text)) /\
  (forall text,
      generateContent (intentPrompt message) = Some text ->
      In (toLowerCase (trim text)) validIntents ->
      classifyIntent toLowerCase trim generateContent message
      = toLowerCase (trim text)).
Proof.
  unfold classifyIntent.
  destruct (generateContent (intentPrompt message)) as [text|].
  - destruct (existsb (String.eqb (toLowerCase (trim text))) validIntents)
      eqn:E.
    + split; [|split].
      * apply existsb_exists in E. destruct E as (v & Hv & Heq).
        apply String.eqb_eq in Heq. rewrite Heq. exact Hv.
      * intros _. exists text. auto.
      * intros t [= <-] _. reflexivity.
    + split; [simpl; auto 10|]. split; [congruence|].
      intros t [= <-] Hin. exfalso.
      assert (Htrue : existsb (String.eqb (toLowerCase (trim text)))
                        validIntents = true).
      { apply existsb_exists. exists (toLowerCase (trim text)).
        split; [exact Hin|apply String.eqb_refl]. }
      congruence.
  - split; [simpl; auto 10|]. split; [congruence|discriminate].
Qed.

Example analyzeSentiment_keyword_without_model :
  analyzeSentiment (fun s => s) (fun _ => None) (fun _ => None)
    "trang web lỗi quá"
  = mkSentimentResult (JStr "negative") (JNum 7) (JBool true)
      (JStr "Phát hiện từ khóa frustration").
Proof. vm_compute. reflexivity. Qed.

Example match_object_spans_to_last_brace :
  match_object "ok {a} and {b} end" = Some "{a} and {b}" /\
  match_object "no closing { brace" = None.
Proof. split; reflexivity. Qed.

End ChatbotFacts.

(** ** The create handler on any host *)

Module HostDateFacts.
Import HostDate.

Lemma TimeClip_Some (t v : Z) : TimeClip t = Some v -> v = t.
Proof.
  unfold TimeClip. destruct (Z.abs t <=? maxTime); congruence.
Qed.

Lemma TimeClip_in_range (t : Z) : Z.abs t <= maxTime -> TimeClip t = Some t.
Proof.
  intros H. unfold TimeClip.
  apply Z.leb_le in H. rewrite H. reflexivity.
Qed.

Lemma newDate_valid (t v : Z) : newDate t = Some v -> newDate t = Some t.
Proof.
  intros H. rewrite H. f_equal. exact (TimeClip_Some t v H).
Qed.

(** On a zone that keeps one offset the methods are those of [JSDate],
    followed by the range check. *)
Lemma getMinutes_fixed (tza t : Z) :
  getMinutes (fixed tza) t = JSDate.getMinutes tza t.
Proof. reflexivity. Qed.

Lemma setMinutes_fixed (tza t min : Z) :
  setMinutes (fixed tza) t min = TimeClip (JSDate.setMinutes tza t min).
Proof. reflexivity. Qed.

End HostDateFacts.

Section CreateOnAnyHost.

Lemma endTimeOn_valid_start (z : HostDate.Zone) (b : CreateBody)
  (movie : Movie) (e : Z) :
  endTimeOn z b movie = Some e ->
  HostDate.newDate (b_startTime b) = Some (b_startTime b).
Proof.
  unfold endTimeOn.
  destruct (HostDate.newDate (b_startTime b)) as [v|] eqn:Hv;
    [|discriminate].
  intros _. rewrite <- Hv. exact (HostDateFacts.newDate_valid _ _ Hv).
Qed.

(** On a host whose zone keeps one offset, and inside the range of
    [Date], the end is the start plus running time and buffer. *)
Lemma endTimeOn_fixed (tza : Z) (b : CreateBody) (movie : Movie) :
  Z.abs (b_startTime b) <= HostDate.maxTime ->
  Z.abs (candidate_end b movie) <= HostDate.maxTime ->
  endTimeOn (HostDate.fixed tza) b movie = Some (candidate_end b movie).
Proof.
  intros Hs He. unfold endTimeOn, HostDate.newDate.
  rewrite (HostDateFacts.TimeClip_in_range _ Hs).
  rewrite HostDateFacts.setMinutes_fixed, HostDateFacts.getMinutes_fixed.
  rewrite <- Z.add_assoc, JSDateFacts.setMinutes_shift.
  apply HostDateFacts.TimeClip_in_range. exact He.
Qed.

Lemma createShowtimeOn_resolved (z : HostDate.Zone) (b : CreateBody)
  (db : DB) (movie : Movie) (cinema : Cinema) (screen : Screen) (e : Z) :
  resolves db b movie cinema screen ->
  endTimeOn z b movie = Some e ->
  HostDate.newDate (b_date b) = Some (b_date b) ->
  createShowtimeOn z b db =
  match Showtime_.findOne db (conflict_query b e) with
  | Some _ => (conflictResponse, db)
  | None =>
      (Json 201 true (One (created_until db b cinema screen e)),
       with_showtimes db
         (showtimes db ++ [created_until db b cinema screen e]))
  end.
Proof.
  intros (Hm & Hc & Hs) He Hd. unfold createShowtimeOn.
  rewrite Hm, Hc, Hs, He, Hd. reflexivity.
Qed.

(** Inside the range of [Date] and on a zone of one offset,
    [createShowtimeOn] is [createShowtime]. *)
Lemma createShowtimeOn_fixed (env : Env) (b : CreateBody) (db : DB) :
  Z.abs (b_startTime b) <= HostDate.maxTime ->
  Z.abs (b_date b) <= HostDate.maxTime ->
  (forall movie,
      Movie_.findById db (b_movieId b) = Some movie ->
      Z.abs (candidate_end b movie) <= HostDate.maxTime) ->
  createShowtimeOn (HostDate.fixed (localTZA env)) b db
  = createShowtime env b db.
Proof.
  intros Hs Hd He.
  destruct (Movie_.findById db (b_movieId b)) as [movie|] eqn:Hm.
  2:{ unfold createShowtimeOn, createShowtime. rewrite Hm. reflexivity. }
  destruct (Cinema_.findById db (b_cinemaId b)) as [cinema|] eqn:Hc.
  2:{ unfold createShowtimeOn, createShowtime. rewrite Hm, Hc.
      reflexivity. }
  destruct (Cinema_.screens_id cinema (b_screenId b)) as [screen|] eqn:Hsc.
  2:{ unfold createShowtimeOn, createShowtime. rewrite Hm, Hc, Hsc.
      reflexivity. }
  assert (Hres : resolves db b movie cinema screen)
    by (repeat split; assumption).
  rewrite (createShowtimeOn_resolved _ b db movie cinema screen
             (candidate_end b movie) Hres
             (endTimeOn_fixed _ b movie Hs (He movie eq_refl))
             (HostDateFacts.TimeClip_in_range _ Hd)).
  rewrite (createShowtime_resolved env b db movie cinema screen Hres).
  reflexivity.
Qed.

(** A create request either leaves the data base as it is or appends the
    showtime with the end the handler computed, after a conflict query
    that found nothing. *)
Lemma createShowtimeOn_outcome (z : HostDate.Zone) (b : CreateBody)
  (db : DB) :
  (snd (createShowtimeOn z b db) = db /\
   succeeded (fst (createShowtimeOn z b db)) = false) \/
  exists movie cinema screen e,
    resolves db b movie cinema screen /\
    endTimeOn z b movie = Some e /\
    HostDate.newDate (b_date b) = Some (b_date b) /\
    Showtime_.findOne db (conflict_query b e) = None /\
    createShowtimeOn z b db =
    (Json 201 true (One (created_until db b cinema screen e)),
     with_showtimes db
       (showtimes db ++ [created_until db b cinema screen e])).
Proof.
  destruct (Movie_.findById db (b_movieId b)) as [movie|] eqn:Hm.
  2:{ left. unfold createShowtimeOn. rewrite Hm. split; reflexivity. }
  destruct (Cinema_.findById db (b_cinemaId b)) as [cinema|] eqn:Hc.
  2:{ left. unfold createShowtimeOn. rewrite Hm, Hc. split; reflexivity. }
  destruct (Cinema_.screens_id cinema (b_screenId b)) as [screen|] eqn:Hsc.
  2:{ left. unfold createShowtimeOn. rewrite Hm, Hc, Hsc.
      split; reflexivity. }
  destruct (endTimeOn z b movie) as [e|] eqn:He.
  2:{ left. unfold createShowtimeOn. rewrite Hm, Hc, Hsc, He.
      split; reflexivity. }
  destruct (HostDate.newDate (b_date b)) as [d|] eqn:Hd.
  2:{ left. unfold createShowtimeOn. rewrite Hm, Hc, Hsc, He, Hd.
      split; reflexivity. }
  pose proof (HostDateFacts.newDate_valid _ _ Hd) as Hd'.
  rewrite Hd in Hd'. injection Hd' as ->.
  assert (Hres : resolves db b movie cinema screen)
    by (repeat split; assumption).
  rewrite (createShowtimeOn_resolved z b db movie cinema screen e Hres He Hd).
  destruct (Showtime_.findOne db (conflict_query b e)) as [x|] eqn:Hfind.
  - left. split; reflexivity.
  - right. exists movie, cinema, screen, e.
    split; [exact Hres|]. split; [exact He|]. split; [reflexivity|].
    split; [exact Hfind|reflexivity].
Qed.

Lemma createShowtimeOn_preserves_no_overlap (z : HostDate.Zone)
  (b : CreateBody) (db : DB) :
  no_overlap db -> no_overlap (snd (createShowtimeOn z b db)).
Proof.
  intros Hinv.
  destruct (createShowtimeOn_outcome z b db)
    as [[-> _] | (movie & cinema & screen & e & _ & _ & _ & Hnone & ->)];
    [exact Hinv|].
  apply no_overlap_snoc; [exact Hinv|].
  intros x Hin Hact (Hc & Hs & Hd) (t & Hx & Hn).
  unfold Showtime_.findOne in Hnone.
  pose proof (find_none _ _ Hnone x Hin) as Hno.
  assert (Hyes : matches (conflict_query b e) x = true).
  { apply matches_conflict_query. simpl in *.
    split; [repeat split; assumption|].
    split; [lia|]. split; [lia|exact Hact]. }
  congruence.
Qed.

End CreateOnAnyHost.

Section CreateClaims.

(** An Invalid Date among the values of the request is answered through
    [next], and nothing is stored. *)
Lemma createShowtimeOn_invalid_date (z : HostDate.Zone) (b : CreateBody)
  (db : DB) (movie : Movie) (cinema : Cinema) (screen : Screen) :
  resolves db b movie cinema screen ->
  endTimeOn z b movie = None \/ HostDate.newDate (b_date b) = None ->
  createShowtimeOn z b db = (NextError, db).
Proof.
  intros (Hm & Hc & Hs) Hbad. unfold createShowtimeOn.
  rewrite Hm, Hc, Hs.
  destruct Hbad as [-> | ->]; [reflexivity|].
  destruct (endTimeOn z b movie); reflexivity.
Qed.

(** On a host whose zone keeps one offset, a successful create inside the
    range of [Date] stores the start plus running time plus buffer. *)
Lemma createShowtimeOn_endTime_fixed (tza : Z) (b : CreateBody) (db db' : DB)
  (movie : Movie) (s : Showtime) :
  Movie_.findById db (b_movieId b) = Some movie ->
  createShowtimeOn (HostDate.fixed tza) b db = (Json 201 true (One s), db') ->
  endTime s
  = b_startTime b + duration movie * JSDate.msPerMinute
    + 15 * JSDate.msPerMinute.
Proof.
  intros Hm Hok.
  destruct (createShowtimeOn_outcome (HostDate.fixed tza) b db)
    as [[_ Hno] | (movie' & cinema & screen & e & Hres & He & _ & _ & Heq)].
  - rewrite Hok in Hno. discriminate.
  - assert (movie' = movie) as ->
      by (destruct Hres as (Hm' & _); congruence).
    rewrite Heq in Hok. injection Hok as <- _. simpl.
    unfold endTimeOn in He.
    destruct (HostDate.newDate (b_startTime b)) as [v|] eqn:Hv;
      [|discriminate].
    apply HostDateFacts.TimeClip_Some in Hv. subst v.
    rewrite HostDateFacts.setMinutes_fixed, HostDateFacts.getMinutes_fixed
      in He.
    apply HostDateFacts.TimeClip_Some in He.
    rewrite <- Z.add_assoc, JSDateFacts.setMinutes_shift in He.
    unfold JSDate.msPerMinute in *. lia.
Qed.

(** C2: once the references of a create request resolve and its dates are
    valid, the candidate interval runs from the requested start to the end
    [e] the handler computes.  An active showtime of the same cinema,
    screen and date that passes the strict test against that interval makes
    the request fail with 400 and leaves the data base as it was; a
    showtime that ends exactly where the candidate starts does not pass the
    test; and when every active showtime of the slot ends by the
    candidate's start or starts at its end or later, the request succeeds
    and stores the interval. *)
Theorem createShowtime_conflict (z : HostDate.Zone) (b : CreateBody)
  (db : DB) (movie : Movie) (cinema : Cinema) (screen : Screen) (e : Z) :
  resolves db b movie cinema screen ->
  endTimeOn z b movie = Some e ->
  HostDate.newDate (b_date b) = Some (b_date b) ->
  ((exists x,
       In x (showtimes db) /\ isActive x = true /\ in_slot b x /\
       startTime x < e /\ endTime x > b_startTime b) ->
   createShowtimeOn z b db = (conflictResponse, db))
  /\
  (forall x,
      endTime x = b_startTime b ->
      matches (conflict_query b e) x = false)
  /\
  ((forall x,
       In x (showtimes db) -> isActive x = true -> in_slot b x ->
       endTime x <= b_startTime b \/ e <= startTime x) ->
   exists s,
     createShowtimeOn z b db =
       (Json 201 true (One s), with_showtimes db (showtimes db ++ [s])) /\
     startTime s = b_startTime b /\ endTime s = e).
Proof.
  intros Hres He Hd.
  rewrite (createShowtimeOn_resolved z b db movie cinema screen e Hres He Hd).
  split; [|split].
  - intros (x & Hin & Hact & Hslot & Hlt & Hgt).
    destruct (Showtime_.findOne db _) as [y|] eqn:Hfind; [reflexivity|].
    unfold Showtime_.findOne in Hfind.
    pose proof (find_none _ _ Hfind x Hin) as Hno.
    assert (Hyes : matches (conflict_query b e) x = true).
    { apply matches_conflict_query.
      split; [exact Hslot|]. split; [lia|]. split; [lia|exact Hact]. }
    congruence.
  - intros x Hend.
    destruct (matches _ x) eqn:Hm; [|reflexivity].
    apply matches_conflict_query in Hm. lia.
  - intros Hfree.
    destruct (Showtime_.findOne db _) as [y|] eqn:Hfind.
    + unfold Showtime_.findOne in Hfind.
      apply find_some in Hfind. destruct Hfind as [Hin Hm].
      apply matches_conflict_query in Hm.
      destruct Hm as (Hslot & Hlt & Hgt & Hact).
      destruct (Hfree y Hin Hact Hslot); lia.
    + eexists. split; [reflexivity|]. split; reflexivity.
Qed.

Lemma createShowtime_conflict_witness :
  createShowtimeOn Transitions.indochina (Fixture.request 15 0 JUndefined)
    Fixture.db1
  = (conflictResponse, Fixture.db1)
  /\
  exists s,
    createShowtimeOn Transitions.indochina (Fixture.request 16 15 JUndefined)
      Fixture.db1
    = (Json 201 true (One s),
       with_showtimes Fixture.db1 (showtimes Fixture.db1 ++ [s])) /\
    startTime s = Fixture.clock 16 15 /\ endTime s = Fixture.clock 18 30.
Proof.
  split.
  - apply (createShowtime_conflict Transitions.indochina
             (Fixture.request 15 0 JUndefined) Fixture.db1
             Fixture.movie1 Fixture.cinema1 Fixture.screen1
             (Fixture.clock 17 15)).
    + repeat split.
    + reflexivity.
    + reflexivity.
    + eexists. split; [left; reflexivity|].
      repeat split; vm_compute; congruence.
  - destruct (createShowtime_conflict Transitions.indochina
                (Fixture.request 16 15 JUndefined) Fixture.db1
                Fixture.movie1 Fixture.cinema1 Fixture.screen1
                (Fixture.clock 18 30))
      as (_ & _ & Hfree).
    + repeat split.
    + reflexivity.
    + reflexivity.
    + destruct Hfree as (s & Heq & Hs & He).
      * intros x [<- | []] _ _. left. vm_compute. congruence.
      * exists s. split; [exact Heq|]. split; assumption.
Defined.

(** C3: on a host whose zone has a transition the stored end is not the
    start plus running time plus 15 minutes.  Each of the three requests
    succeeds.  The feature of 120 minutes that starts at 01:30 in the night
    the clocks go forward is stored with 75 minutes; the one that starts at
    00:30 in the night they go back with 195 minutes; and a film of 10
    minutes that starts at 01:30 in the hour that repeats is stored with an
    end 35 minutes before its start.  Start plus running time plus 15
    minutes is 135, 135 and 25 minutes. *)
Theorem createShowtime_endTime_across_transition :
  (succeeded
     (fst (createShowtimeOn Transitions.springForward
             Transitions.beforeSpringForward Transitions.catalogue)) = true /\
   Transitions.lengths
     (snd (createShowtimeOn Transitions.springForward
             Transitions.beforeSpringForward Transitions.catalogue))
   = [75 * JSDate.msPerMinute] /\
   candidate_end Transitions.beforeSpringForward Transitions.feature
   - b_startTime Transitions.beforeSpringForward
   = 135 * JSDate.msPerMinute)
  /\
  (succeeded
     (fst (createShowtimeOn Transitions.fallBack
             Transitions.beforeFallBack Transitions.catalogue)) = true /\
   Transitions.lengths
     (snd (createShowtimeOn Transitions.fallBack
             Transitions.beforeFallBack Transitions.catalogue))
   = [195 * JSDate.msPerMinute] /\
   candidate_end Transitions.beforeFallBack Transitions.feature
   - b_startTime Transitions.beforeFallBack
   = 135 * JSDate.msPerMinute)
  /\
  (succeeded
     (fst (createShowtimeOn Transitions.fallBack
             Transitions.inRepeatedHour Transitions.catalogue)) = true /\
   Transitions.lengths
     (snd (createShowtimeOn Transitions.fallBack
             Transitions.inRepeatedHour Transitions.catalogue))
   = [- 35 * JSDate.msPerMinute] /\
   candidate_end Transitions.inRepeatedHour Transitions.shortFilm
   - b_startTime Transitions.inRepeatedHour
   = 25 * JSDate.msPerMinute).
Proof.
  repeat split; vm_compute; reflexivity.
Qed.

(** X1: create and delete requests that are served one at a time keep
    active showtimes of one cinema, screen and date apart, on every host:
    in every state they reach from a schedule without showtimes, no two
    such showtimes have intervals that share an instant. *)
Theorem no_overlap_served_in_turn (db : DB) :
  served_in_turn db -> no_overlap db.
Proof.
  induction 1 as [ms cs | r db Hreach IH].
  - intros i j a b Hi. simpl in Hi. destruct i; discriminate.
  - destruct r as [z b | id]; simpl.
    + apply createShowtimeOn_preserves_no_overlap. exact IH.
    + apply deleteShowtime_preserves_no_overlap. exact IH.
Qed.

Lemma no_overlap_served_in_turn_witness :
  exists a b,
    showtimes
      (serve (CreateOn Transitions.indochina
                (Fixture.request 16 15 JUndefined))
         (serve (CreateOn Transitions.indochina
                   (Fixture.request 14 0 JUndefined))
            Fixture.catalogue))
    = [a; b] /\ same_slot a b /\ ~ overlap a b.
Proof.
  assert (Hinv :
            no_overlap
              (serve (CreateOn Transitions.indochina
                        (Fixture.request 16 15 JUndefined))
                 (serve (CreateOn Transitions.indochina
                           (Fixture.request 14 0 JUndefined))
                    Fixture.catalogue))).
  { apply no_overlap_served_in_turn.
    do 2 apply served_next.
    apply (served_none [Fixture.movie1] [Fixture.cinema1]). }
  do 2 eexists. split; [vm_compute; reflexivity|].
  split; [repeat split|].
  refine (Hinv 0%nat 1%nat _ _ eq_refl eq_refl _ eq_refl eq_refl _).
  - discriminate.
  - repeat split.
Defined.

(** X2: a create request that has just succeeded, and whose stored
    showtime ends after it starts, is rejected with 400 when the same body
    is sent again to the same host and served after the first; the second
    request changes nothing. *)
Theorem createShowtime_twice_rejected (z : HostDate.Zone) (b : CreateBody)
  (db db' : DB) (s : Showtime) :
  createShowtimeOn z b db = (Json 201 true (One s), db') ->
  startTime s < endTime s ->
  createShowtimeOn z b db' = (conflictResponse, db').
Proof.
  intros Hok Hpos.
  destruct (createShowtimeOn_outcome z b db)
    as [[_ Hno] | (movie & cinema & screen & e & Hres & He & Hd & _ & Heq)].
  { rewrite Hok in Hno. discriminate. }
  rewrite Heq in Hok. injection Hok as <- <-.
  rewrite (createShowtimeOn_resolved z b _ movie cinema screen e
             (resolves_with_showtimes db _ b movie cinema screen Hres)
             He Hd).
  destruct (Showtime_.findOne _ _) as [x|] eqn:Hfind; [reflexivity|].
  exfalso. unfold Showtime_.findOne in Hfind.
  assert (Hin : In (created_until db b cinema screen e)
                  (showtimes
                     (with_showtimes db
                        (showtimes db
                         ++ [created_until db b cinema screen e])))).
  { simpl. apply in_or_app. right. left. reflexivity. }
  pose proof (find_none _ _ Hfind _ Hin) as Hno.
  assert (Hyes : matches (conflict_query b e)
                   (created_until db b cinema screen e) = true).
  { apply matches_conflict_query. simpl in Hpos. simpl.
    split; [repeat split|]. split; [exact Hpos|]. split; [exact Hpos|].
    reflexivity. }
  congruence.
Qed.

Lemma createShowtime_twice_rejected_witness :
  createShowtimeOn Transitions.indochina (Fixture.request 14 0 JUndefined)
    Fixture.db1
  = (conflictResponse, Fixture.db1).
Proof.
  refine (createShowtime_twice_rejected Transitions.indochina
            (Fixture.request 14 0 JUndefined) Fixture.catalogue Fixture.db1
            _ eq_refl _).
  vm_compute. reflexivity.
Defined.

(** In the hour that repeats when the clocks go back, a film of 10 minutes
    is stored with its end before its start, and the same request is
    accepted a second time. *)
Example createShowtime_twice_accepted_in_repeated_hour :
  let once :=
    createShowtimeOn Transitions.fallBack Transitions.inRepeatedHour
      Transitions.catalogue in
  let twice :=
    createShowtimeOn Transitions.fallBack Transitions.inRepeatedHour
      (snd once) in
  succeeded (fst once) = true /\ succeeded (fst twice) = true /\
  List.length (showtimes (snd twice)) = 2%nat.
Proof. vm_compute. repeat split. Qed.

(** X5: soft-deleted showtimes do not block the screen.  When every
    active showtime that conflicts with a create request, whose interval
    runs to the end [e] the handler computes, is the one showtime [id], and
    that showtime has no booked seats, the request succeeds once [id] has
    been deleted. *)
Theorem deleteShowtime_frees_slot (z : HostDate.Zone) (b : CreateBody)
  (db : DB) (id : ObjectId) (s : Showtime) (movie : Movie) (cinema : Cinema)
  (screen : Screen) (e : Z) :
  resolves db b movie cinema screen ->
  endTimeOn z b movie = Some e ->
  HostDate.newDate (b_date b) = Some (b_date b) ->
  Showtime_.findById db id = Some s ->
  bookedSeats s = [] ->
  (forall x,
      In x (showtimes db) -> isActive x = true -> in_slot b x ->
      startTime x < e -> b_startTime b < endTime x ->
      _id x = id) ->
  exists created,
    fst (createShowtimeOn z b (snd (deleteShowtime id db)))
    = Json 201 true (One created) /\
    startTime created = b_startTime b /\
    endTime created = e /\
    isActive created = true.
Proof.
  intros Hres He Hd Hs Hb Honly.
  rewrite (deleteShowtime_done id db s Hs Hb). simpl snd.
  destruct (findById_Some db id s Hs) as [_ Hid].
  set (doc := Showtime_.set_isActive s false).
  assert (Hres' : resolves (Showtime_.save db doc) b movie cinema screen)
    by exact Hres.
  rewrite (createShowtimeOn_resolved z b _ movie cinema screen e Hres' He Hd).
  destruct (Showtime_.findOne _ _) as [x|] eqn:Hfind.
  - exfalso. unfold Showtime_.findOne in Hfind.
    apply find_some in Hfind. destruct Hfind as [Hin Hm].
    apply matches_conflict_query in Hm.
    destruct Hm as (Hslot & Hlt & Hgt & Hact).
    apply save_other in Hin. destruct Hin as [-> | [Hin Hne]].
    + discriminate.
    + apply Hne. change (_id doc) with (_id s). rewrite Hid.
      apply Honly; assumption.
  - eexists. split; [reflexivity|]. repeat split.
Qed.

Lemma deleteShowtime_frees_slot_witness :
  succeeded
    (fst (createShowtimeOn Transitions.indochina
            (Fixture.request 15 0 JUndefined) Fixture.db1)) = false /\
  exists created,
    fst (createShowtimeOn Transitions.indochina
           (Fixture.request 15 0 JUndefined)
           (snd (deleteShowtime 1%nat Fixture.db1)))
    = Json 201 true (One created) /\
    startTime created = Fixture.clock 15 0 /\
    endTime created = Fixture.clock 17 15 /\
    isActive created = true.
Proof.
  split; [reflexivity|].
  apply (deleteShowtime_frees_slot Transitions.indochina
           (Fixture.request 15 0 JUndefined) Fixture.db1 1%nat
           (Showtime_.schema_defaults 1%nat
              (mkNew 1%nat 1%nat 1%nat (Fixture.clock 14 0)
                 (Fixture.clock 16 15) Fixture.day0
                 Fixture.standardPrices 100))
           Fixture.movie1 Fixture.cinema1 Fixture.screen1
           (Fixture.clock 17 15)).
  - repeat split.
  - reflexivity.
  - reflexivity.
  - reflexivity.
  - reflexivity.
  - intros x [<- | []] _ _ _ _. reflexivity.
Defined.

End CreateClaims.

(** ** Listings when the order of ties is open *)

Section ListingAnswers.


Lemma sorted_result_sort (found : list Showtime) :
  sorted_result found (sort_by_startTime found).
Proof.
  split.
  - apply Permutation_sym, sort_by_startTime_perm.
  - apply sort_by_startTime_ascending.
Qed.


(** The answer computed with the stable sort is one of the answers. *)
Lemma getShowtimes_is_answer (env : Env) (rq : ReqQuery) (db : DB) :
  getShowtimes_answers env rq db (getShowtimes env rq db).
Proof.
  unfold getShowtimes_answers, getShowtimes.
  destruct (_ <? 0); [reflexivity|].
  eexists. split; [apply sorted_result_sort|reflexivity].
Qed.


Lemma getShowtimesByCinema_is_answer (env : Env) (k : ObjectId)
  (rq : ReqQuery) (db : DB) :
  getShowtimesByCinema_answers env k rq db (getShowtimesByCinema env k rq db).
Proof.
  eexists. split; [apply sorted_result_sort|reflexivity].
Qed.








(** With two showtimes that start at the same instant and pages of one,
    the store may answer page 1 from one order and page 2 from the other:
    both pages then show the same showtime, and the other is on no
    page. *)
Example getShowtimes_pages_repeat_on_ties :
  exists page1 page2,
    getShowtimes_answers Fixture.env0
      (with_page Fixture.firstPageOfOne 1) Transitions.dbTwins page1 /\
    getShowtimes_answers Fixture.env0
      (with_page Fixture.firstPageOfOne 2) Transitions.dbTwins page2 /\
    map _id (returned page1) = [1%nat] /\
    map _id (returned page2) = [1%nat].
Proof.
  exists (getShowtimes Fixture.env0 (with_page Fixture.firstPageOfOne 1)
            Transitions.dbTwins).
  exists (Json 200 true
            (Page 1 2 (Some 2) 2
               [Transitions.twin 1%nat 1%nat])).
  split; [apply getShowtimes_is_answer|].
  split; [|split; reflexivity].
  exists [Transitions.twin 2%nat 2%nat; Transitions.twin 1%nat 1%nat].
  split; [|reflexivity].
  split.
  - apply perm_swap.
  - repeat constructor; simpl; lia.
Qed.



End ListingAnswers.
